(** * Simple Shop ERP: the stock ledger of [main.py] and [schemas.py]

    A shallow embedding of the FastAPI handlers of [main.py] over an explicit
    document store, and the properties of the sale and purchase workflows,
    of the product handlers and of product search.

    Conventions of the embedding:
    - a handler is a computation [M A]: it takes the store, returns the store
      it leaves behind and its outcome: a value, the [HTTPException] it
      raised, or the Python error it let escape (answered with status 500);
      writes made before an error stay in the store, as in the code;
    - Python [float] amounts are kept abstract behind the class [Number], so
      every statement holds whatever the arithmetic (IEEE binary64 included);
      the product of an [int] by a [float] may fail, as Python's does when
      the integer is too large to be converted;
    - Python [int] stock quantities are unbounded integers [Z]; the bound
      the store puts on the integers it can hold is not modelled;
    - the module-level handle [db] is a connected [pymongo] database. *)

From Stdlib Require Import ZArith NArith List String Ascii Bool Lia.
From Stdlib Require Import Floats.
Import ListNotations.

Local Open Scope Z_scope.
Local Open Scope list_scope.

(** ** Identifiers ([bson.ObjectId]) *)

(** An [ObjectId] is kept as [str(ObjectId)], the lower-case hexadecimal
    digits of its bytes: 24 digits for an identifier of the store. *)
Definition ObjectId := string.

Definition in_range (lo hi : N) (c : ascii) : bool :=
  let n := N_of_ascii c in (N.leb lo n && N.leb n hi)%bool.

Definition is_hex (c : ascii) : bool :=
  (in_range 48 57 c || in_range 97 102 c || in_range 65 70 c)%bool.

(** The ASCII blanks ([Py_ISSPACE]): tab, line feed, vertical tab, form
    feed, carriage return and space. *)
Definition is_space (c : ascii) : bool :=
  (in_range 9 13 c || in_range 32 32 c)%bool.

(** ASCII lower-casing, the folding used for hex digits and for the
    case-insensitive search. *)
Definition lower (c : ascii) : ascii :=
  if in_range 65 90 c then ascii_of_N (N_of_ascii c + 32) else c.

Definition lower_string (s : string) : string :=
  string_of_list_ascii (map lower (list_ascii_of_string s)).

(** [bytes.fromhex(s)], read back as hexadecimal digits: the bytes are
    pairs of adjacent hex digits, and blanks are skipped before each pair;
    anything else is a [ValueError] ([None]). *)
Fixpoint fromhex (s : list ascii) : option (list ascii) :=
  match s with
  | [] => Some []
  | c :: rest =>
      if is_space c then fromhex rest
      else
        match rest with
        | d :: rest' =>
            if (is_hex c && is_hex d)%bool
            then option_map (fun t => lower c :: lower d :: t) (fromhex rest')
            else None
        | [] => None
        end
  end.

(** [ObjectId(id_str)] for a [str] argument: the string must have length
    24 and be accepted by [bytes.fromhex], or [InvalidId] is raised
    ([None]). A string of 24 hex digits gives the identifier it writes;
    one with blanks gives a shorter identifier, equal to none of the store. *)
Definition ObjectId_of_str (id_str : string) : option ObjectId :=
  if Nat.eqb (String.length id_str) 24
  then option_map string_of_list_ascii (fromhex (list_ascii_of_string id_str))
  else None.

Definition hex_digit (n : N) : ascii :=
  if N.ltb n 10 then ascii_of_N (48 + n) else ascii_of_N (87 + n).

Fixpoint hex_digits (k : nat) (n : N) (acc : string) : string :=
  match k with
  | O => acc
  | S k' => hex_digits k' (N.div n 16) (String (hex_digit (N.modulo n 16)) acc)
  end.

(** Modelled from the spec: the store assigns every inserted document a
    unique identifier (section 3, "store-assigned unique identifier"); the
    generator of [database.py]'s driver is not in the sources, so the n-th
    identifier handed out is the number n written on 24 hex digits. *)
Definition ObjectId_new (n : N) : ObjectId := hex_digits 24 n EmptyString.

(** ** Regular expressions of the store's [$regex] operator *)

(** The fragment of the store's regular expressions (PCRE) that is modelled:
    a pattern is a sequence of ordinary characters, each matching itself, and
    of dots, each matching any character but a newline. A pattern that uses
    another metacharacter is outside the fragment ([compile] gives [None]). *)
Inductive atom := Lit (c : ascii) | AnyChar.

Definition is_meta (c : ascii) : bool :=
  existsb (Ascii.eqb c) (list_ascii_of_string "\^$.|?*+()[]{}").

Definition compile_char (c : ascii) : option atom :=
  if Ascii.eqb c "."%char then Some AnyChar
  else if is_meta c then None
  else Some (Lit c).

Fixpoint compile (pattern : list ascii) : option (list atom) :=
  match pattern with
  | [] => Some []
  | c :: rest =>
      match compile_char c, compile rest with
      | Some a, Some r => Some (a :: r)
      | _, _ => None
      end
  end.

(** Matching with option [i]: letters are compared up to case. *)
Definition atom_matches (a : atom) (c : ascii) : bool :=
  match a with
  | Lit l => Ascii.eqb (lower l) (lower c)
  | AnyChar => negb (Ascii.eqb c (ascii_of_N 10))
  end.

Fixpoint match_here (r : list atom) (s : list ascii) : bool :=
  match r, s with
  | [], _ => true
  | _ :: _, [] => false
  | a :: r', c :: s' => atom_matches a c && match_here r' s'
  end.

(** An unanchored pattern matches when it matches at some position. *)
Fixpoint search (r : list atom) (s : list ascii) : bool :=
  match_here r s || match s with [] => false | _ :: s' => search r s' end.

Definition regex_i (r : list atom) (subject : string) : bool :=
  search r (list_ascii_of_string subject).

(** ** Errors and results *)

Record HTTPException := mkHTTPException { status_code : Z; detail : string }.

(** The Python errors that the handlers let escape. *)
Inductive PyError := OverflowError | NotImplementedError.

Inductive Result (A : Type) : Type :=
| Ok (a : A)
| Raise (e : HTTPException)
| Unhandled (err : PyError).
Arguments Ok {A} a.
Arguments Raise {A} e.
Arguments Unhandled {A} err.

(** The exceptions the handlers raise, named after the error taxonomy. *)
Definition InvalidIdentifier : HTTPException :=
  mkHTTPException 400 "Invalid id format".
Definition DuplicateSKU : HTTPException :=
  mkHTTPException 400 "SKU already exists".
Definition ProductNotFound (product_id : string) : HTTPException :=
  mkHTTPException 400 (String.append "Product not found: " product_id).
Definition InsufficientStock (name : string) : HTTPException :=
  mkHTTPException 400 (String.append "Insufficient stock for " name).
Definition NotFound : HTTPException :=
  mkHTTPException 404 "Product not found".



(** The status of the response: 200 for a value, the status of the
    [HTTPException], and 500 for an error that escapes the handler. *)
Definition response_status {A} (r : Result A) : Z :=
  match r with
  | Ok _ => 200
  | Raise e => status_code e
  | Unhandled _ => 500
  end.

(** ** Amounts *)

(** What the handlers do with a [float]: start a sum at [0.0], add, multiply
    an [int] by a [float] (which raises [OverflowError], here [None], when
    the integer cannot be converted), test truthiness ([x or 0]) and, in the
    validators, test [x >= 0]. *)
Class Number (amount : Type) := {
  zero : amount;
  add : amount -> amount -> amount;
  int_mul : Z -> amount -> option amount;
  truthy : amount -> bool;
  ge0 : amount -> bool
}.

(** IEEE binary64, the arithmetic of CPython's [float]: the integer is
    converted with round-to-nearest-even, and the conversion fails when the
    rounded value is out of range. *)
Definition float_of_int (z : Z) : option float :=
  let f := SF2Prim (SpecFloat.binary_normalize FloatOps.prec FloatOps.emax z 0 false) in
  if PrimFloat.is_infinity f then None else Some f.

#[export] Instance float_Number : Number float := {
  zero := PrimFloat.zero;
  add := PrimFloat.add;
  int_mul := fun z x => option_map (fun f => PrimFloat.mul f x) (float_of_int z);
  truthy := fun x => negb (PrimFloat.eqb x PrimFloat.zero);
  ge0 := fun x => PrimFloat.leb PrimFloat.zero x
}.

Section Shop.

Variable amount : Type.
Context `{Number amount}.

(** ** Schemas ([schemas.py]) *)

Record Product := mkProduct {
  product_sku : string;
  product_name : string;
  product_description : option string;
  product_category : option string;
  product_price : amount;
  product_cost : option amount;
  product_quantity : Z;
  product_is_active : bool
}.

Record SaleItem := mkSaleItem {
  saleitem_product_id : string;
  saleitem_sku : option string;
  saleitem_name : option string;
  saleitem_quantity : Z;
  saleitem_price : amount;
  saleitem_line_total : option amount
}.

Record Sale := mkSale {
  sale_customer_id : option string;
  sale_items : list SaleItem;
  sale_subtotal : option amount;
  sale_tax : option amount;
  sale_total : option amount;
  sale_notes : option string
}.

Record PurchaseItem := mkPurchaseItem {
  purchaseitem_product_id : string;
  purchaseitem_quantity : Z;
  purchaseitem_cost : amount;
  purchaseitem_line_total : option amount
}.

Record Purchase := mkPurchase {
  purchase_supplier_id : option string;
  purchase_items : list PurchaseItem;
  purchase_subtotal : option amount;
  purchase_tax : option amount;
  purchase_total : option amount;
  purchase_notes : option string
}.

Record StockMovement := mkStockMovement {
  movement_product_id : string;
  movement_type : string;
  movement_quantity_change : Z;
  movement_reason : option string;
  movement_ref_id : option string
}.

(** The [Field(ge=...)] constraints, checked on a request body before the
    handler runs. *)
Definition opt_ge0 (x : option amount) : bool :=
  match x with Some v => ge0 v | None => true end.

Definition Product_valid (p : Product) : bool :=
  ge0 (product_price p) && opt_ge0 (product_cost p) && (0 <=? product_quantity p).

Definition SaleItem_valid (i : SaleItem) : bool :=
  (1 <=? saleitem_quantity i) && ge0 (saleitem_price i)
  && opt_ge0 (saleitem_line_total i).

Definition Sale_valid (s : Sale) : bool :=
  forallb SaleItem_valid (sale_items s) && opt_ge0 (sale_subtotal s)
  && opt_ge0 (sale_tax s) && opt_ge0 (sale_total s).

Definition PurchaseItem_valid (i : PurchaseItem) : bool :=
  (1 <=? purchaseitem_quantity i) && ge0 (purchaseitem_cost i)
  && opt_ge0 (purchaseitem_line_total i).

Definition Purchase_valid (p : Purchase) : bool :=
  forallb PurchaseItem_valid (purchase_items p) && opt_ge0 (purchase_subtotal p)
  && opt_ge0 (purchase_tax p) && opt_ge0 (purchase_total p).

(** ** The document store *)

(** One collection per entity, each a sequence of documents in insertion
    order with their [_id]; [db_next_id] counts the identifiers handed out.
    The customer and supplier collections are left out: no stock workflow
    reads or writes them. *)
Record Db := mkDb {
  db_product : list (ObjectId * Product);
  db_sale : list (ObjectId * Sale);
  db_purchase : list (ObjectId * Purchase);
  db_stockmovement : list (ObjectId * StockMovement);
  db_next_id : N
}.

(** A named collection: how to read it from the store and write it back. *)
Record Collection (A : Type) := mkCollection {
  coll_get : Db -> list (ObjectId * A);
  coll_set : list (ObjectId * A) -> Db -> Db
}.
Arguments coll_get {A} c db.
Arguments coll_set {A} c docs db.

Definition set_product docs db :=
  mkDb docs (db_sale db) (db_purchase db) (db_stockmovement db) (db_next_id db).
Definition set_sale docs db :=
  mkDb (db_product db) docs (db_purchase db) (db_stockmovement db) (db_next_id db).
Definition set_purchase docs db :=
  mkDb (db_product db) (db_sale db) docs (db_stockmovement db) (db_next_id db).
Definition set_stockmovement docs db :=
  mkDb (db_product db) (db_sale db) (db_purchase db) docs (db_next_id db).
Definition set_next_id n db :=
  mkDb (db_product db) (db_sale db) (db_purchase db) (db_stockmovement db) n.

Definition product : Collection Product := mkCollection _ db_product set_product.
Definition sale : Collection Sale := mkCollection _ db_sale set_sale.
Definition purchase : Collection Purchase := mkCollection _ db_purchase set_purchase.
Definition stockmovement : Collection StockMovement :=
  mkCollection _ db_stockmovement set_stockmovement.

(** ** Handlers as store computations *)

Definition M (A : Type) : Type := Db -> Result A * Db.

Definition ret {A} (a : A) : M A := fun db => (Ok a, db).
Definition raise {A} (e : HTTPException) : M A := fun db => (Raise e, db).
Definition unhandled {A} (err : PyError) : M A := fun db => (Unhandled err, db).
Definition bind {A B} (m : M A) (k : A -> M B) : M B :=
  fun db => match m db with
            | (Ok a, db') => k a db'
            | (Raise e, db') => (Raise e, db')
            | (Unhandled err, db') => (Unhandled err, db')
            end.

Notation "x <- m ;; k" := (bind m (fun x => k))
  (at level 61, m at next level, right associativity).

(** [bool(db)] for the handle [db]: a [pymongo] database (PyMongo 4) does
    not implement truth value testing and raises [NotImplementedError]. *)
Definition Database_bool : M bool := unhandled NotImplementedError.

(** [oid] of [main.py]. *)
Definition oid (id_str : string) : M ObjectId :=
  match ObjectId_of_str id_str with
  | Some o => ret o
  | None => raise InvalidIdentifier
  end.

(** Modelled from the spec: [create_document] of [database.py], the store
    adapter's "create" (section 2): the record is inserted in the named
    collection under a fresh identifier, which is returned as a string. *)
Definition create_document {A} (c : Collection A) (data : A) : M string :=
  fun db =>
    let new_id := ObjectId_new (db_next_id db) in
    (Ok new_id,
     set_next_id (N.succ (db_next_id db))
                 (coll_set c (coll_get c db ++ [(new_id, data)]) db)).

(** [collection.find_one({"_id": pid})]. *)
Fixpoint find_by_id {A} (pid : ObjectId) (docs : list (ObjectId * A)) : option A :=
  match docs with
  | [] => None
  | (i, d) :: rest => if String.eqb i pid then Some d else find_by_id pid rest
  end.

Definition find_one_id {A} (c : Collection A) (pid : ObjectId) : M (option A) :=
  fun db => (Ok (find_by_id pid (coll_get c db)), db).

(** [db["product"].find_one({"sku": sku})]. *)
Definition find_one_sku (sku : string) : M (option Product) :=
  fun db =>
    (Ok (option_map snd
           (find (fun d => String.eqb (product_sku (snd d)) sku) (db_product db))),
     db).

Definition with_quantity (p : Product) (q : Z) : Product :=
  mkProduct (product_sku p) (product_name p) (product_description p)
            (product_category p) (product_price p) (product_cost p) q
            (product_is_active p).

(** [update_one({"_id": pid}, {"$inc": {"quantity": d}})] on the product
    documents: the first document with that [_id], if any. *)
Fixpoint inc_quantity (pid : ObjectId) (d : Z) (docs : list (ObjectId * Product))
  : list (ObjectId * Product) :=
  match docs with
  | [] => []
  | (i, p) :: rest =>
      if String.eqb i pid
      then (i, with_quantity p (product_quantity p + d)) :: rest
      else (i, p) :: inc_quantity pid d rest
  end.

Definition update_one_inc (pid : ObjectId) (d : Z) : M unit :=
  fun db => (Ok tt, set_product (inc_quantity pid d (db_product db)) db).

(** [update_one({"_id": pid}, {"$set": update})]: the matched document takes
    the fields of [update]; the second component is [matched_count]. The
    [updated_at] stamp the handler adds is not a field of the model. *)
Fixpoint set_fields (pid : ObjectId) (update : Product) (docs : list (ObjectId * Product))
  : list (ObjectId * Product) * Z :=
  match docs with
  | [] => ([], 0)
  | (i, p) :: rest =>
      if String.eqb i pid then ((i, update) :: rest, 1)
      else let '(rest', n) := set_fields pid update rest in ((i, p) :: rest', n)
  end.

Definition update_one_set (pid : ObjectId) (update : Product) : M Z :=
  fun db => let '(docs, n) := set_fields pid update (db_product db) in
            (Ok n, set_product docs db).

(** [delete_one({"_id": pid})], with [deleted_count]. *)
Fixpoint remove_doc (pid : ObjectId) (docs : list (ObjectId * Product))
  : list (ObjectId * Product) * Z :=
  match docs with
  | [] => ([], 0)
  | (i, p) :: rest =>
      if String.eqb i pid then (rest, 1)
      else let '(rest', n) := remove_doc pid rest in ((i, p) :: rest', n)
  end.

Definition delete_one (pid : ObjectId) : M Z :=
  fun db => let '(docs, n) := remove_doc pid (db_product db) in
            (Ok n, set_product docs db).

(** Modelled from the spec: [get_documents] of [database.py], the store
    adapter's "find" with the "optional result-count limit" of section 4.3:
    the documents of the collection that satisfy the query, in store order,
    cut after [limit] of them. *)
Definition get_documents {A} (c : Collection A) (query : A -> bool) (limit : Z)
  : M (list (ObjectId * A)) :=
  fun db => (Ok (firstn (Z.to_nat limit) (filter (fun d => query (snd d)) (coll_get c db))), db).

(** ** Products *)

(** [POST /api/products]: the sku lookup is guarded by [if db]. *)
Definition create_product (p : Product) : M string :=
  connected <- Database_bool ;;
  existing <- (if connected then find_one_sku (product_sku p) else ret None) ;;
  match existing with
  | Some _ => raise DuplicateSKU
  | None =>
      new_id <- create_document product p ;;
      ret new_id
  end.

(** The [$or] of three case-insensitive [$regex] conditions; a missing
    ([None]) category matches no pattern. *)
Definition regex_query (r : list atom) (p : Product) : bool :=
  regex_i r (product_name p)
  || regex_i r (product_sku p)
  || match product_category p with Some c => regex_i r c | None => false end.

(** [GET /api/products]: [limit] is 100 when the request gives none; the
    query is empty when [q] is [None] or the empty string; each document
    comes back with its identifier as [id]. The result is [None] when [q] is
    outside the modelled fragment of patterns. *)
Definition list_products (q : option string) (limit : option Z)
  : option (M (list (string * Product))) :=
  let limit := match limit with Some n => n | None => 100 end in
  let query :=
    match q with
    | None | Some EmptyString => Some (fun _ : Product => true)
    | Some q => option_map regex_query (compile (list_ascii_of_string q))
    end in
  option_map (fun query => docs <- get_documents product query limit ;; ret docs) query.

(** [PUT /api/products/{product_id}]. *)
Definition update_product (product_id : string) (p : Product) : M bool :=
  pid <- oid product_id ;;
  matched_count <- update_one_set pid p ;;
  if matched_count =? 0 then raise NotFound else ret true.

(** [DELETE /api/products/{product_id}]. *)
Definition delete_product (product_id : string) : M bool :=
  pid <- oid product_id ;;
  deleted_count <- delete_one pid ;;
  if deleted_count =? 0 then raise NotFound else ret true.

(** ** Sales *)

(** What both workflows answer: [{"id", "subtotal", "tax", "total"}]. *)
Record Receipt := mkReceipt {
  receipt_id : string;
  receipt_subtotal : amount;
  receipt_tax : amount;
  receipt_total : amount
}.

(** [tax or 0]; the integer [0] and [0.0] are the same amount. *)
Definition tax_or_0 (tax : option amount) : amount :=
  match tax with
  | Some t => if truthy t then t else zero
  | None => zero
  end.

Definition saleitem_with_line_total (i : SaleItem) (v : amount) : SaleItem :=
  mkSaleItem (saleitem_product_id i) (saleitem_sku i) (saleitem_name i)
             (saleitem_quantity i) (saleitem_price i) (Some v).

(** The first loop of [create_sale]: fills the missing line totals in place
    and accumulates [subtotal]; returns the items as the loop leaves them,
    or [None] when a product [quantity * price] raises [OverflowError]. *)
Fixpoint sale_totals (items : list SaleItem) (subtotal : amount)
  : option (list SaleItem * amount) :=
  match items with
  | [] => Some ([], subtotal)
  | item :: rest =>
      match
        match saleitem_line_total item with
        | None =>
            option_map (fun v => (saleitem_with_line_total item v, v))
                       (int_mul (saleitem_quantity item) (saleitem_price item))
        | Some v => Some (item, v)
        end
      with
      | None => None
      | Some (item', line_total) =>
          match sale_totals rest (add subtotal line_total) with
          | None => None
          | Some (rest', subtotal') => Some (item' :: rest', subtotal')
          end
      end
  end.

(** The second loop: the read-only stock validation. *)
Fixpoint validate_stock (items : list SaleItem) : M unit :=
  match items with
  | [] => ret tt
  | item :: rest =>
      pid <- oid (saleitem_product_id item) ;;
      prod <- find_one_id product pid ;;
      match prod with
      | None => raise (ProductNotFound (saleitem_product_id item))
      | Some prod =>
          if product_quantity prod <? saleitem_quantity item
          then raise (InsufficientStock (product_name prod))
          else validate_stock rest
      end
  end.

(** The third loop: one decrement and one movement per item. *)
Fixpoint apply_sale (sale_id : string) (items : list SaleItem) : M unit :=
  match items with
  | [] => ret tt
  | item :: rest =>
      pid <- oid (saleitem_product_id item) ;;
      _ <- update_one_inc pid (- saleitem_quantity item) ;;
      _ <- create_document stockmovement
             (mkStockMovement (saleitem_product_id item) "sale"
                              (- saleitem_quantity item) (Some "Sale"%string)
                              (Some sale_id)) ;;
      apply_sale sale_id rest
  end.

(** [POST /api/sales]. *)
Definition create_sale (s : Sale) : M Receipt :=
  match sale_totals (sale_items s) zero with
  | None => unhandled OverflowError
  | Some (items, subtotal) =>
      let tax := tax_or_0 (sale_tax s) in
      let total := add subtotal tax in
      let s' := mkSale (sale_customer_id s) items (Some subtotal) (sale_tax s)
                       (Some total) (sale_notes s) in
      _ <- validate_stock items ;;
      sale_id <- create_document sale s' ;;
      _ <- apply_sale sale_id items ;;
      ret (mkReceipt sale_id subtotal tax total)
  end.

(** ** Purchases *)

Definition purchaseitem_with_line_total (i : PurchaseItem) (v : amount) : PurchaseItem :=
  mkPurchaseItem (purchaseitem_product_id i) (purchaseitem_quantity i)
                 (purchaseitem_cost i) (Some v).

Fixpoint purchase_totals (items : list PurchaseItem) (subtotal : amount)
  : option (list PurchaseItem * amount) :=
  match items with
  | [] => Some ([], subtotal)
  | item :: rest =>
      match
        match purchaseitem_line_total item with
        | None =>
            option_map (fun v => (purchaseitem_with_line_total item v, v))
                       (int_mul (purchaseitem_quantity item) (purchaseitem_cost item))
        | Some v => Some (item, v)
        end
      with
      | None => None
      | Some (item', line_total) =>
          match purchase_totals rest (add subtotal line_total) with
          | None => None
          | Some (rest', subtotal') => Some (item' :: rest', subtotal')
          end
      end
  end.

Fixpoint apply_purchase (purchase_id : string) (items : list PurchaseItem) : M unit :=
  match items with
  | [] => ret tt
  | item :: rest =>
      pid <- oid (purchaseitem_product_id item) ;;
      _ <- update_one_inc pid (purchaseitem_quantity item) ;;
      _ <- create_document stockmovement
             (mkStockMovement (purchaseitem_product_id item) "purchase"
                              (purchaseitem_quantity item) (Some "Purchase"%string)
                              (Some purchase_id)) ;;
      apply_purchase purchase_id rest
  end.

(** [POST /api/purchases]. *)
Definition create_purchase (p : Purchase) : M Receipt :=
  match purchase_totals (purchase_items p) zero with
  | None => unhandled OverflowError
  | Some (items, subtotal) =>
      let tax := tax_or_0 (purchase_tax p) in
      let total := add subtotal tax in
      let p' := mkPurchase (purchase_supplier_id p) items (Some subtotal)
                           (purchase_tax p) (Some total) (purchase_notes p) in
      purchase_id <- create_document purchase p' ;;
      _ <- apply_purchase purchase_id items ;;
      ret (mkReceipt purchase_id subtotal tax total)
  end.

End Shop.

Arguments mkProduct {amount}.
Arguments product_sku {amount} p.
Arguments product_name {amount} p.
Arguments product_description {amount} p.
Arguments product_category {amount} p.
Arguments product_price {amount} p.
Arguments product_cost {amount} p.
Arguments product_quantity {amount} p.
Arguments product_is_active {amount} p.
Arguments mkSaleItem {amount}.
Arguments saleitem_product_id {amount} s.
Arguments saleitem_sku {amount} s.
Arguments saleitem_name {amount} s.
Arguments saleitem_quantity {amount} s.
Arguments saleitem_price {amount} s.
Arguments saleitem_line_total {amount} s.
Arguments mkSale {amount}.
Arguments sale_customer_id {amount} s.
Arguments sale_items {amount} s.
Arguments sale_subtotal {amount} s.
Arguments sale_tax {amount} s.
Arguments sale_total {amount} s.
Arguments sale_notes {amount} s.
Arguments mkPurchaseItem {amount}.
Arguments purchaseitem_product_id {amount} p.
Arguments purchaseitem_quantity {amount} p.
Arguments purchaseitem_cost {amount} p.
Arguments purchaseitem_line_total {amount} p.
Arguments mkPurchase {amount}.
Arguments purchase_supplier_id {amount} p.
Arguments purchase_items {amount} p.
Arguments purchase_subtotal {amount} p.
Arguments purchase_tax {amount} p.
Arguments purchase_total {amount} p.
Arguments purchase_notes {amount} p.
Arguments mkDb {amount}.
Arguments db_product {amount} d.
Arguments db_sale {amount} d.
Arguments db_purchase {amount} d.
Arguments db_stockmovement {amount} d.
Arguments db_next_id {amount} d.
Arguments coll_get {amount A} c db.
Arguments coll_set {amount A} c docs db.
Arguments set_product {amount} docs db.
Arguments set_sale {amount} docs db.
Arguments set_purchase {amount} docs db.
Arguments set_stockmovement {amount} docs db.
Arguments set_next_id {amount} n db.
Arguments product {amount}.
Arguments sale {amount}.
Arguments purchase {amount}.
Arguments stockmovement {amount}.
Arguments ret {amount A} a db.
Arguments raise {amount A} e db.
Arguments unhandled {amount A} err db.
Arguments Database_bool {amount} db.
Arguments bind {amount A B} m k db.
Arguments oid {amount} id_str db.
Arguments create_document {amount A} c data db.
Arguments find_one_id {amount A} c pid db.
Arguments find_one_sku {amount} sku db.
Arguments with_quantity {amount} p q.
Arguments inc_quantity {amount} pid d docs.
Arguments update_one_inc {amount} pid d db.
Arguments set_fields {amount} pid update docs.
Arguments update_one_set {amount} pid update db.
Arguments remove_doc {amount} pid docs.
Arguments delete_one {amount} pid db.
Arguments get_documents {amount A} c query limit db.
Arguments create_product {amount} p db.
Arguments regex_query {amount} r p.
Arguments list_products {amount} q limit.
Arguments update_product {amount} product_id p db.
Arguments delete_product {amount} product_id db.
Arguments mkReceipt {amount}.
Arguments receipt_id {amount} r.
Arguments receipt_subtotal {amount} r.
Arguments receipt_tax {amount} r.
Arguments receipt_total {amount} r.
Arguments tax_or_0 {amount H} tax.
Arguments saleitem_with_line_total {amount} i v.
Arguments sale_totals {amount H} items subtotal.
Arguments validate_stock {amount} items db.
Arguments apply_sale {amount} sale_id items db.
Arguments create_sale {amount H} s db.
Arguments purchaseitem_with_line_total {amount} i v.
Arguments purchase_totals {amount H} items subtotal.
Arguments apply_purchase {amount} purchase_id items db.
Arguments create_purchase {amount H} p db.
Arguments Product_valid {amount H} p.
Arguments SaleItem_valid {amount H} i.
Arguments Sale_valid {amount H} s.
Arguments PurchaseItem_valid {amount H} i.
Arguments Purchase_valid {amount H} p.

Notation "x <- m ;; k" := (bind m (fun x => k))
  (at level 61, m at next level, right associativity).

(** ** Vocabulary of the properties *)

Section Vocabulary.

Context {amount : Type} `{Number amount}.

(** A line passes the stock check of [create_sale] when its reference is
    accepted by [oid], designates a stored product, and the quantity on hand
    of that product covers the requested quantity. *)
Inductive stock_ok (db : Db amount) (product_id : string) (q : Z) : Prop :=
| stock_ok_intro (pid : ObjectId) (prod : Product amount) :
    ObjectId_of_str product_id = Some pid ->
    find_by_id pid (db_product db) = Some prod ->
    q <= product_quantity prod ->
    stock_ok db product_id q.

(** The three ways a line fails it, each with the error it is reported by. *)
Inductive stock_fails (db : Db amount) (product_id : string) (q : Z)
  : HTTPException -> Prop :=
| fails_invalid :
    ObjectId_of_str product_id = None ->
    stock_fails db product_id q InvalidIdentifier
| fails_missing (pid : ObjectId) :
    ObjectId_of_str product_id = Some pid ->
    find_by_id pid (db_product db) = None ->
    stock_fails db product_id q (ProductNotFound product_id)
| fails_stock (pid : ObjectId) (prod : Product amount) :
    ObjectId_of_str product_id = Some pid ->
    find_by_id pid (db_product db) = Some prod ->
    product_quantity prod < q ->
    stock_fails db product_id q (InsufficientStock (product_name prod)).

Definition sale_line_ok (db : Db amount) (i : SaleItem amount) : Prop :=
  stock_ok db (saleitem_product_id i) (saleitem_quantity i).

Definition sale_line_fails (db : Db amount) (i : SaleItem amount) (e : HTTPException) : Prop :=
  stock_fails db (saleitem_product_id i) (saleitem_quantity i) e.

(** A reference that [oid] accepts. *)
Definition well_formed (product_id : string) : Prop :=
  ObjectId_of_str product_id <> None.

(** Whether the reference [product_id] designates the document [p]. *)
Definition references (product_id : string) (p : ObjectId) : bool :=
  match ObjectId_of_str product_id with
  | Some o => String.eqb o p
  | None => false
  end.

Definition sum_Z (l : list Z) : Z := fold_right Z.add 0 l.

(** The quantity the items of a sale (of a purchase) ask of product [p]. *)
Definition quantity_sold (p : ObjectId) (items : list (SaleItem amount)) : Z :=
  sum_Z (map saleitem_quantity
             (filter (fun i => references (saleitem_product_id i) p) items)).

Definition quantity_purchased (p : ObjectId) (items : list (PurchaseItem amount)) : Z :=
  sum_Z (map purchaseitem_quantity
             (filter (fun i => references (purchaseitem_product_id i) p) items)).

(** Two product documents that agree on every field but the quantity. *)
Definition same_details (p p' : Product amount) : Prop :=
  product_sku p' = product_sku p
  /\ product_name p' = product_name p
  /\ product_description p' = product_description p
  /\ product_category p' = product_category p
  /\ product_price p' = product_price p
  /\ product_cost p' = product_cost p
  /\ product_is_active p' = product_is_active p.

(** What a lookup gives before and after a stock change of [d] units: the
    same product with [d] more units on hand, or nothing both times. *)
Definition quantity_moved (d : Z) (before after : option (Product amount)) : Prop :=
  match before, after with
  | Some p, Some p' => product_quantity p' = product_quantity p + d /\ same_details p p'
  | None, None => True
  | _, _ => False
  end.

(** The product document [p] with [d] more units on hand. *)
Definition restocked (d : Z) (p : Product amount) : Product amount :=
  with_quantity p (product_quantity p + d).

(** The movement a sale (a purchase) records for one item. *)
Definition sale_movement (sale_id : string) (i : SaleItem amount) : StockMovement :=
  mkStockMovement (saleitem_product_id i) "sale" (- saleitem_quantity i)
                  (Some "Sale"%string) (Some sale_id).

Definition purchase_movement (purchase_id : string) (i : PurchaseItem amount) : StockMovement :=
  mkStockMovement (purchaseitem_product_id i) "purchase" (purchaseitem_quantity i)
                  (Some "Purchase"%string) (Some purchase_id).

(** A sum of amounts, taken in list order from [0.0]. *)
Definition sum_amounts (l : list amount) : amount := fold_left add l zero.

(** The line total the data model defines for an item: the one it carries,
    else quantity times unit price (unit cost), when that product exists. *)
Definition sale_line_total (i : SaleItem amount) : option amount :=
  match saleitem_line_total i with
  | Some v => Some v
  | None => int_mul (saleitem_quantity i) (saleitem_price i)
  end.

Definition purchase_line_total (i : PurchaseItem amount) : option amount :=
  match purchaseitem_line_total i with
  | Some v => Some v
  | None => int_mul (purchaseitem_quantity i) (purchaseitem_cost i)
  end.

(** An item is priced when its line total is defined: it carries one, or
    its quantity is within the range of the floats. *)
Definition sale_priced (i : SaleItem amount) : Prop := sale_line_total i <> None.

Definition purchase_priced (i : PurchaseItem amount) : Prop := purchase_line_total i <> None.

(** The values of [f] on a list, when all are defined. *)
Fixpoint all_defined {A B : Type} (f : A -> option B) (l : list A) : option (list B) :=
  match l with
  | [] => Some []
  | a :: rest =>
      match f a, all_defined f rest with
      | Some b, Some bs => Some (b :: bs)
      | _, _ => None
      end
  end.

(** How a stored item relates to the item of the draft: same reference,
    snapshot, quantity and price, and the line total [v]. *)
Definition sale_item_settled (i j : SaleItem amount) (v : amount) : Prop :=
  saleitem_product_id j = saleitem_product_id i
  /\ saleitem_sku j = saleitem_sku i
  /\ saleitem_name j = saleitem_name i
  /\ saleitem_quantity j = saleitem_quantity i
  /\ saleitem_price j = saleitem_price i
  /\ saleitem_line_total j = Some v.

Definition purchase_item_settled (i j : PurchaseItem amount) (v : amount) : Prop :=
  purchaseitem_product_id j = purchaseitem_product_id i
  /\ purchaseitem_quantity j = purchaseitem_quantity i
  /\ purchaseitem_cost j = purchaseitem_cost i
  /\ purchaseitem_line_total j = Some v.

(** The items as the first loop of a handler leaves them, given their line
    totals. *)
Definition sale_item_stored (i : SaleItem amount) (v : amount) : SaleItem amount :=
  match saleitem_line_total i with
  | Some _ => i
  | None => saleitem_with_line_total i v
  end.

Definition purchase_item_stored (i : PurchaseItem amount) (v : amount) : PurchaseItem amount :=
  match purchaseitem_line_total i with
  | Some _ => i
  | None => purchaseitem_with_line_total i v
  end.

Definition sale_items_stored (items : list (SaleItem amount)) (lts : list amount)
  : list (SaleItem amount) :=
  map (fun iv => sale_item_stored (fst iv) (snd iv)) (combine items lts).

Definition purchase_items_stored (items : list (PurchaseItem amount)) (lts : list amount)
  : list (PurchaseItem amount) :=
  map (fun iv => purchase_item_stored (fst iv) (snd iv)) (combine items lts).

(** The effect on the store of recording a run of movements, each with the
    stock change it stands for; the run stops at the first movement whose
    product reference [oid] refuses. *)
Fixpoint run_moves (moves : list StockMovement) (db : Db amount) : Db amount :=
  match moves with
  | [] => db
  | m :: rest =>
      match ObjectId_of_str (movement_product_id m) with
      | Some pid =>
          run_moves rest
            (snd (create_document stockmovement m
                    (snd (update_one_inc pid (movement_quantity_change m) db))))
      | None => db
      end
  end.

(** The total change a run of movements stands for on product [p]. *)
Definition total_change (p : ObjectId) (moves : list StockMovement) : Z :=
  sum_Z (map movement_quantity_change
             (filter (fun m => references (movement_product_id m) p) moves)).

(** Whether [oid] accepts the reference of every movement of a run. *)
Definition all_well_formed (moves : list StockMovement) : bool :=
  forallb (fun m => match ObjectId_of_str (movement_product_id m) with
                    | Some _ => true
                    | None => false
                    end) moves.

(** The movements of a run that are recorded: those before the first one
    whose product reference is refused. *)
Fixpoint processed (moves : list StockMovement) : list StockMovement :=
  match moves with
  | [] => []
  | m :: rest =>
      match ObjectId_of_str (movement_product_id m) with
      | Some _ => m :: processed rest
      | None => []
      end
  end.

(** The store right after the insertion of the sale (purchase) document. *)
Definition with_sale_doc (s : Sale amount) (lts : list amount) (db : Db amount) : Db amount :=
  set_next_id (N.succ (db_next_id db))
    (set_sale
       (db_sale db
        ++ [(ObjectId_new (db_next_id db),
             mkSale (sale_customer_id s) (sale_items_stored (sale_items s) lts)
                    (Some (sum_amounts lts)) (sale_tax s)
                    (Some (add (sum_amounts lts) (tax_or_0 (sale_tax s))))
                    (sale_notes s))]) db).

Definition with_purchase_doc (p : Purchase amount) (lts : list amount) (db : Db amount)
  : Db amount :=
  set_next_id (N.succ (db_next_id db))
    (set_purchase
       (db_purchase db
        ++ [(ObjectId_new (db_next_id db),
             mkPurchase (purchase_supplier_id p)
                        (purchase_items_stored (purchase_items p) lts)
                        (Some (sum_amounts lts)) (purchase_tax p)
                        (Some (add (sum_amounts lts) (tax_or_0 (purchase_tax p))))
                        (purchase_notes p))]) db).

(** A draft with caller-supplied [subtotal] and [total]. *)
Definition sale_with_totals (s : Sale amount) (subtotal total : option amount) : Sale amount :=
  mkSale (sale_customer_id s) (sale_items s) subtotal (sale_tax s) total (sale_notes s).

Definition purchase_with_totals (p : Purchase amount) (subtotal total : option amount)
  : Purchase amount :=
  mkPurchase (purchase_supplier_id p) (purchase_items p) subtotal (purchase_tax p)
             total (purchase_notes p).

(** A sale is rejected, with nothing written, by one of the two stock errors. *)
Definition rejected_for_stock (s : Sale amount) (db : Db amount) : Prop :=
  (exists product_id, create_sale s db = (Raise (ProductNotFound product_id), db))
  \/ (exists name, create_sale s db = (Raise (InsufficientStock name), db)).

(** A purchase is recorded: it succeeds, the purchase document is inserted,
    every product has gained what the items ask of it and is otherwise the
    same, no product document is added or removed, and the log has grown by
    one movement per item, in order. *)
Definition purchase_recorded (p : Purchase amount) (db : Db amount) : Prop :=
  exists r db' doc added,
    create_purchase p db = (Ok r, db')
    /\ receipt_id r = ObjectId_new (db_next_id db)
    /\ db_purchase db' = db_purchase db ++ [(receipt_id r, doc)]
    /\ (forall pid, quantity_moved (quantity_purchased pid (purchase_items p))
                                   (find_by_id pid (db_product db))
                                   (find_by_id pid (db_product db')))
    /\ map fst (db_product db') = map fst (db_product db)
    /\ db_stockmovement db' = db_stockmovement db ++ added
    /\ map snd added = map (purchase_movement (receipt_id r)) (purchase_items p).

(** A purchase fails on a malformed id in its mutation loop, after the
    purchase document and the writes of the items [pre] before it. *)
Definition purchase_partially_written (p : Purchase amount)
           (pre : list (PurchaseItem amount)) (db : Db amount) : Prop :=
  exists db' doc added,
    create_purchase p db = (Raise InvalidIdentifier, db')
    /\ db_purchase db' = db_purchase db ++ [(ObjectId_new (db_next_id db), doc)]
    /\ (forall pid, quantity_moved (quantity_purchased pid pre)
                                   (find_by_id pid (db_product db))
                                   (find_by_id pid (db_product db')))
    /\ db_stockmovement db' = db_stockmovement db ++ added
    /\ map snd added = map (purchase_movement (ObjectId_new (db_next_id db))) pre.


(** How a character of a term of the fragment is compiled. *)
Definition compiles_to (c : ascii) (a : atom) : Prop :=
  (c = "."%char /\ a = AnyChar) \/ (c <> "."%char /\ a = Lit c).

(** Every product that can be looked up has a quantity of at least zero. *)
Definition stock_nonneg (db : Db amount) : Prop :=
  forall pid prod,
    find_by_id pid (db_product db) = Some prod -> 0 <= product_quantity prod.

(** A product document with its quantity blanked: what a stock move must
    leave alone. *)
Definition unstocked (d : ObjectId * Product amount) : ObjectId * Product amount :=
  (fst d, with_quantity (snd d) 0).

(** The skus of the stored products, in store order. *)
Definition skus (db : Db amount) : list string :=
  map (fun d => product_sku (snd d)) (db_product db).

(** The parsed product reference of each item of a sale. *)
Definition sale_refs (items : list (SaleItem amount)) : list (option ObjectId) :=
  map (fun i => ObjectId_of_str (saleitem_product_id i)) items.

(** Case-insensitive occurrence of [q] as a substring of [s]. *)
Definition occurs_in (q s : string) : Prop :=
  exists pre post : list ascii,
    map lower (list_ascii_of_string s)
    = pre ++ map lower (list_ascii_of_string q) ++ post.

(** A term without metacharacters, and a term of the modelled fragment:
    ordinary characters and dots. *)
Definition literal (q : string) : Prop :=
  forallb (fun c => negb (is_meta c)) (list_ascii_of_string q) = true.

Definition in_fragment (q : string) : Prop :=
  forallb (fun c => Ascii.eqb c "."%char || negb (is_meta c))
          (list_ascii_of_string q) = true.

(** One character of a pattern against one character of the subject: a dot
    stands for any character but a line feed, any other character for
    itself, up to case. *)
Definition char_matches (c d : ascii) : Prop :=
  (c = "."%char /\ d <> ascii_of_N 10) \/ (c <> "."%char /\ lower c = lower d).

(** The pattern [q] matches at some position of [s]. *)
Definition pattern_occurs (q s : string) : Prop :=
  exists pre mid post : list ascii,
    list_ascii_of_string s = pre ++ mid ++ post
    /\ Forall2 char_matches (list_ascii_of_string q) mid.

(** [q] occurs, up to case, in the name, the sku or the category. *)
Definition matches_substring (q : string) (p : Product amount) : Prop :=
  occurs_in q (product_name p) \/ occurs_in q (product_sku p)
  \/ exists c, product_category p = Some c /\ occurs_in q c.

(** [q] matches, as a pattern, in the name, the sku or the category. *)
Definition matches_pattern (q : string) (p : Product amount) : Prop :=
  pattern_occurs q (product_name p) \/ pattern_occurs q (product_sku p)
  \/ exists c, product_category p = Some c /\ pattern_occurs q c.

(** The listing for the term [q] returns exactly the products that satisfy
    [matches], in store order, cut after [cut] of them, and leaves the store
    as it is. *)
Definition listing_is (matches : Product amount -> Prop) (q : string)
           (limit : option Z) (cut : nat) (db : Db amount) : Prop :=
  exists (f : Product amount -> bool) (run : M amount (list (string * Product amount))),
    (forall p, f p = true <-> matches p)
    /\ list_products (Some q) limit = Some run
    /\ run db = (Ok (firstn cut (filter (fun d => f (snd d)) (db_product db))), db).

End Vocabulary.

(** ** Sample stores *)

(** The example of section 8: product A with 10 units on hand, price 5 and
    cost 2, and a sale of 3 units of it. *)
Definition widget : Product float :=
  mkProduct "A-1" "Widget" None None 5%float (Some 2%float) 10 true.

Definition widget_id : ObjectId := ObjectId_new 0.

Definition shop : Db float := mkDb [(widget_id, widget)] [] [] [] 1.

Definition sale_of_3 : Sale float :=
  mkSale None [mkSaleItem widget_id None None 3 5%float None] None (Some 0%float)
         None None.

(** A sale of one item, and of two. *)
Definition one_item (product_id : string) (q : Z) : Sale float :=
  mkSale None [mkSaleItem product_id None None q 5%float None] None None None None.

Definition two_items (id1 : string) (q1 : Z) (id2 : string) (q2 : Z) : Sale float :=
  mkSale None [mkSaleItem id1 None None q1 5%float None;
               mkSaleItem id2 None None q2 5%float None] None None None None.

(** A sale whose first line has a malformed reference and whose second line
    asks for more than the stock. *)
Definition sale_bad_id_then_11 : Sale float := two_items "not-an-id" 1 widget_id 11.

Definition sale_of_11 : Sale float := one_item widget_id 11.

(** A quantity that Python cannot convert to a float. *)
Definition huge : Z := 2 ^ 1024.

(** A reference with blanks that [oid] accepts. *)
Definition blank_id : string := "aa bb cc dd ee ff 00 11 ".

Definition purchase_of (product_id : string) (q : Z) : Purchase float :=
  mkPurchase None [mkPurchaseItem product_id q 2%float None] None None None None.

Definition purchase_of_4 : Purchase float := purchase_of widget_id 4.

(** A purchase whose second line has a malformed reference. *)
Definition purchase_4_then_bad_id : Purchase float :=
  mkPurchase None [mkPurchaseItem widget_id 4 2%float None;
                   mkPurchaseItem "not-an-id" 1 2%float None]
             None None None None.

Definition gadget : Product float :=
  mkProduct "B-2" "Gadget" None (Some "Tools"%string) 8%float None 4 true.

Definition gadget_id : ObjectId := ObjectId_new 1.

Definition shop2 : Db float :=
  mkDb [(widget_id, widget); (gadget_id, gadget)] [] [] [] 2.

Definition ghost_id : ObjectId := ObjectId_new 77.

Definition empty_sale : Sale float := mkSale None [] None (Some 2%float) None None.

Definition empty_purchase : Purchase float := mkPurchase None [] None None None None.

Definition purchase_for_ghost : Purchase float := purchase_of ghost_id 5.

Definition renamed_gadget : Product float :=
  mkProduct "A-1" "Gadget" None None 8%float None 40 true.

(** ** Properties *)

Section Properties.

Context {amount : Type} `{Number amount}.

(** *** The stock validation pass *)

Lemma validate_stock_ok (db : Db amount) (items : list (SaleItem amount)) :
  Forall (sale_line_ok db) items -> validate_stock items db = (Ok tt, db).
Proof.
  induction 1 as [|i items Hi _ IH]; [reflexivity|].
  destruct Hi as [pid prod Hpid Hfind Hq].
  cbn [validate_stock]. unfold bind, oid, find_one_id.
  rewrite Hpid. cbn. rewrite Hfind.
  destruct (Z.ltb_spec (product_quantity prod) (saleitem_quantity i)); [lia|].
  exact IH.
Qed.

Lemma validate_stock_fails (db : Db amount) (pre post : list (SaleItem amount))
      (i : SaleItem amount) (e : HTTPException) :
  Forall (sale_line_ok db) pre -> sale_line_fails db i e ->
  validate_stock (pre ++ i :: post) db = (Raise e, db).
Proof.
  intros Hpre Hi. induction Hpre as [|j pre Hj _ IH].
  - cbn [app validate_stock]. unfold bind, oid, find_one_id.
    destruct Hi as [Hpid | pid Hpid Hfind | pid prod Hpid Hfind Hq];
      rewrite Hpid; cbn; [reflexivity | rewrite Hfind; reflexivity |].
    rewrite Hfind.
    destruct (Z.ltb_spec (product_quantity prod) (saleitem_quantity i)); [reflexivity|lia].
  - destruct Hj as [pid prod Hpid Hfind Hq].
    cbn [app validate_stock]. unfold bind, oid, find_one_id.
    rewrite Hpid. cbn. rewrite Hfind.
    destruct (Z.ltb_spec (product_quantity prod) (saleitem_quantity j)); [lia|].
    exact IH.
Qed.

(** Every line either passes the check or fails it with one error. *)
Lemma stock_ok_or_fails (db : Db amount) (product_id : string) (q : Z) :
  stock_ok db product_id q \/ exists e, stock_fails db product_id q e.
Proof.
  destruct (ObjectId_of_str product_id) as [pid|] eqn:Hpid.
  - destruct (find_by_id pid (db_product db)) as [prod|] eqn:Hfind.
    + destruct (Z.le_gt_cases q (product_quantity prod)).
      * left. econstructor; eauto.
      * right. eexists. eapply fails_stock; eauto.
    + right. eexists. eapply fails_missing; eauto.
  - right. eexists. apply fails_invalid; assumption.
Qed.

Lemma stock_ok_not_fails (db : Db amount) (product_id : string) (q : Z) (e : HTTPException) :
  stock_ok db product_id q -> stock_fails db product_id q e -> False.
Proof.
  intros [pid prod Hpid Hfind Hq] Hf.
  destruct Hf; try congruence.
  assert (pid0 = pid) by congruence; subst.
  assert (prod0 = prod) by congruence; subst. lia.
Qed.

(** The first failing line of a list that has one. *)
Lemma first_failure (db : Db amount) (items : list (SaleItem amount)) :
  Exists (fun i => exists e, sale_line_fails db i e) items ->
  exists pre i post e,
    items = pre ++ i :: post /\ Forall (sale_line_ok db) pre /\ sale_line_fails db i e.
Proof.
  induction items as [|j items IH]; intros Hex; [inversion Hex|].
  destruct (stock_ok_or_fails db (saleitem_product_id j) (saleitem_quantity j)) as [Hok|[e He]].
  - assert (Hrest : Exists (fun i => exists e, sale_line_fails db i e) items).
    { inversion Hex as [? ? [e He]|]; subst; [|assumption].
      exfalso. eapply stock_ok_not_fails; eauto. }
    destruct (IH Hrest) as (pre & i & post & e & -> & Hpre & Hi).
    exists (j :: pre), i, post, e. repeat split; auto.
  - exists [], j, items, e. repeat split; auto.
Qed.

Lemma all_ok_or_some_fails (db : Db amount) (items : list (SaleItem amount)) :
  Forall (sale_line_ok db) items
  \/ Exists (fun i => exists e, sale_line_fails db i e) items.
Proof.
  induction items as [|i items [IH|IH]].
  - left. constructor.
  - destruct (stock_ok_or_fails db (saleitem_product_id i) (saleitem_quantity i)) as [Hi|Hi].
    + left. now constructor.
    + right. now left.
  - right. now right.
Qed.

Lemma validate_stock_read_only (items : list (SaleItem amount)) (db : Db amount) :
  snd (validate_stock items db) = db.
Proof.
  induction items as [|i items IH]; [reflexivity|].
  cbn [validate_stock]. unfold bind, oid, find_one_id.
  destruct (ObjectId_of_str (saleitem_product_id i)); cbn; [|reflexivity].
  destruct (find_by_id _ _); [|reflexivity].
  destruct (_ <? _); [reflexivity|exact IH].
Qed.

(** *** Line totals *)

Lemma all_defined_Forall2 {A B : Type} (f : A -> option B) (l : list A) (vs : list B) :
  all_defined f l = Some vs <-> Forall2 (fun a v => f a = Some v) l vs.
Proof.
  revert vs. induction l as [|a l IH]; intros vs; cbn [all_defined].
  - split; [intros [= <-]; constructor|intros Hf; now inversion Hf].
  - destruct (f a) as [b|] eqn:Ha.
    + destruct (all_defined f l) as [bs|].
      * split.
        -- intros [= <-]. constructor; [exact Ha|now apply IH].
        -- intros Hf. inversion Hf as [|? v ? vs' Hv Hrest]; subst.
           apply IH in Hrest. congruence.
      * split; [discriminate|]. intros Hf. inversion Hf as [|? v ? vs' Hv Hrest]; subst.
        apply IH in Hrest. discriminate.
    + split; [discriminate|]. intros Hf. inversion Hf; congruence.
Qed.

Lemma all_defined_some {A B : Type} (f : A -> option B) (l : list A) :
  Forall (fun a => f a <> None) l -> exists vs, all_defined f l = Some vs.
Proof.
  induction 1 as [|a l Ha _ [vs IH]]; [now exists []|]. cbn [all_defined].
  destruct (f a) as [b|]; [|congruence]. rewrite IH. now exists (b :: vs).
Qed.

Lemma all_defined_none {A B : Type} (f : A -> option B) (l : list A) :
  all_defined f l = None <-> Exists (fun a => f a = None) l.
Proof.
  induction l as [|a l IH]; cbn [all_defined].
  - split; [discriminate|intros Hex; inversion Hex].
  - destruct (f a) as [b|] eqn:Ha.
    + destruct (all_defined f l) as [bs|].
      * split; [discriminate|]. intros Hex. inversion Hex as [|? ? Hl]; subst; [congruence|].
        apply IH in Hl. discriminate.
      * split; [intros _; right; now apply IH|reflexivity].
    + split; [intros _; now left|reflexivity].
Qed.

Lemma Forall2_length_eq {A B : Type} (R : A -> B -> Prop) (l : list A) (l' : list B) :
  Forall2 R l l' -> List.length l' = List.length l.
Proof. induction 1; cbn; congruence. Qed.

Lemma sale_totals_eq (items : list (SaleItem amount)) (acc : amount) :
  sale_totals items acc
  = option_map (fun lts => (sale_items_stored items lts, fold_left add lts acc))
               (all_defined sale_line_total items).
Proof.
  revert acc. induction items as [|i items IH]; intros acc; [reflexivity|].
  cbn [sale_totals all_defined]. unfold sale_line_total at 1, sale_item_stored.
  destruct (saleitem_line_total i) as [v|] eqn:Hi.
  - rewrite IH. destruct (all_defined sale_line_total items) as [lts|]; [|reflexivity].
    cbn. unfold sale_item_stored. now rewrite Hi.
  - destruct (int_mul (saleitem_quantity i) (saleitem_price i)) as [v|]; [|reflexivity].
    cbn [option_map]. rewrite IH.
    destruct (all_defined sale_line_total items) as [lts|]; [|reflexivity].
    cbn. unfold sale_item_stored. now rewrite Hi.
Qed.

Lemma purchase_totals_eq (items : list (PurchaseItem amount)) (acc : amount) :
  purchase_totals items acc
  = option_map (fun lts => (purchase_items_stored items lts, fold_left add lts acc))
               (all_defined purchase_line_total items).
Proof.
  revert acc. induction items as [|i items IH]; intros acc; [reflexivity|].
  cbn [purchase_totals all_defined]. unfold purchase_line_total at 1, purchase_item_stored.
  destruct (purchaseitem_line_total i) as [v|] eqn:Hi.
  - rewrite IH. destruct (all_defined purchase_line_total items) as [lts|]; [|reflexivity].
    cbn. unfold purchase_item_stored. now rewrite Hi.
  - destruct (int_mul (purchaseitem_quantity i) (purchaseitem_cost i)) as [v|]; [|reflexivity].
    cbn [option_map]. rewrite IH.
    destruct (all_defined purchase_line_total items) as [lts|]; [|reflexivity].
    cbn. unfold purchase_item_stored. now rewrite Hi.
Qed.

(** A stored item is the item of the draft with its line total settled. *)
Lemma sale_item_stored_settled (i : SaleItem amount) (v : amount) :
  sale_line_total i = Some v -> sale_item_settled i (sale_item_stored i v) v.
Proof.
  unfold sale_line_total, sale_item_stored, sale_item_settled.
  destruct (saleitem_line_total i) as [w|] eqn:Hi.
  - intros [= ->]. repeat split; try reflexivity. exact Hi.
  - intros _. repeat split.
Qed.

Lemma purchase_item_stored_settled (i : PurchaseItem amount) (v : amount) :
  purchase_line_total i = Some v -> purchase_item_settled i (purchase_item_stored i v) v.
Proof.
  unfold purchase_line_total, purchase_item_stored, purchase_item_settled.
  destruct (purchaseitem_line_total i) as [w|] eqn:Hi.
  - intros [= ->]. repeat split; try reflexivity. exact Hi.
  - intros _. repeat split.
Qed.

Lemma sale_items_stored_settled (items : list (SaleItem amount)) (lts : list amount) :
  Forall2 (fun i v => sale_line_total i = Some v) items lts ->
  Forall2 (fun i j => exists v, sale_line_total i = Some v /\ sale_item_settled i j v)
          items (sale_items_stored items lts)
  /\ map saleitem_line_total (sale_items_stored items lts) = map Some lts.
Proof.
  unfold sale_items_stored. induction 1 as [|i v items lts Hv _ [IH1 IH2]]; cbn.
  - split; [constructor|reflexivity].
  - pose proof (sale_item_stored_settled i v Hv) as Hs. split.
    + constructor; [now exists v|exact IH1].
    + rewrite IH2. f_equal. apply Hs.
Qed.

Lemma purchase_items_stored_settled (items : list (PurchaseItem amount)) (lts : list amount) :
  Forall2 (fun i v => purchase_line_total i = Some v) items lts ->
  Forall2 (fun i j => exists v, purchase_line_total i = Some v /\ purchase_item_settled i j v)
          items (purchase_items_stored items lts)
  /\ map purchaseitem_line_total (purchase_items_stored items lts) = map Some lts.
Proof.
  unfold purchase_items_stored. induction 1 as [|i v items lts Hv _ [IH1 IH2]]; cbn.
  - split; [constructor|reflexivity].
  - pose proof (purchase_item_stored_settled i v Hv) as Hs. split.
    + constructor; [now exists v|exact IH1].
    + rewrite IH2. f_equal. apply Hs.
Qed.

Lemma sale_item_stored_product_id (i : SaleItem amount) (v : amount) :
  saleitem_product_id (sale_item_stored i v) = saleitem_product_id i.
Proof. unfold sale_item_stored. now destruct (saleitem_line_total i). Qed.

Lemma sale_item_stored_quantity (i : SaleItem amount) (v : amount) :
  saleitem_quantity (sale_item_stored i v) = saleitem_quantity i.
Proof. unfold sale_item_stored. now destruct (saleitem_line_total i). Qed.

Lemma purchase_item_stored_product_id (i : PurchaseItem amount) (v : amount) :
  purchaseitem_product_id (purchase_item_stored i v) = purchaseitem_product_id i.
Proof. unfold purchase_item_stored. now destruct (purchaseitem_line_total i). Qed.

Lemma purchase_item_stored_quantity (i : PurchaseItem amount) (v : amount) :
  purchaseitem_quantity (purchase_item_stored i v) = purchaseitem_quantity i.
Proof. unfold purchase_item_stored. now destruct (purchaseitem_line_total i). Qed.

(** The second and third loops read the reference and the quantity of an
    item only, which the first loop leaves as they were. *)
Lemma validate_stock_stored (items : list (SaleItem amount)) (lts : list amount)
      (db : Db amount) :
  List.length lts = List.length items ->
  validate_stock (sale_items_stored items lts) db = validate_stock items db.
Proof.
  unfold sale_items_stored. revert lts.
  induction items as [|i items IH]; intros [|v lts] Hlen; try discriminate; [reflexivity|].
  cbn [combine map validate_stock fst snd]. unfold bind, oid, find_one_id.
  rewrite sale_item_stored_product_id, sale_item_stored_quantity.
  destruct (ObjectId_of_str (saleitem_product_id i)); cbn; [|reflexivity].
  destruct (find_by_id _ _); [|reflexivity].
  destruct (_ <? _); [reflexivity|]. apply IH. now injection Hlen.
Qed.

Lemma sale_movements_stored (sid : string) (items : list (SaleItem amount)) (lts : list amount) :
  List.length lts = List.length items ->
  map (sale_movement sid) (sale_items_stored items lts) = map (sale_movement sid) items.
Proof.
  unfold sale_items_stored. revert lts.
  induction items as [|i items IH]; intros [|v lts] Hlen; try discriminate; [reflexivity|].
  cbn [combine map fst snd]. rewrite IH by now injection Hlen. f_equal.
  unfold sale_movement. now rewrite sale_item_stored_product_id, sale_item_stored_quantity.
Qed.

Lemma purchase_movements_stored (pid : string) (items : list (PurchaseItem amount))
      (lts : list amount) :
  List.length lts = List.length items ->
  map (purchase_movement pid) (purchase_items_stored items lts)
  = map (purchase_movement pid) items.
Proof.
  unfold purchase_items_stored. revert lts.
  induction items as [|i items IH]; intros [|v lts] Hlen; try discriminate; [reflexivity|].
  cbn [combine map fst snd]. rewrite IH by now injection Hlen. f_equal.
  unfold purchase_movement.
  now rewrite purchase_item_stored_product_id, purchase_item_stored_quantity.
Qed.

(** *** The mutation loops *)

Lemma apply_sale_run (sid : string) (items : list (SaleItem amount)) (db : Db amount) :
  apply_sale sid items db
  = (if all_well_formed (map (sale_movement sid) items)
     then Ok tt else Raise InvalidIdentifier,
     run_moves (map (sale_movement sid) items) db).
Proof.
  revert db. induction items as [|i items IH]; intros db; [reflexivity|].
  cbn [apply_sale map run_moves all_well_formed forallb sale_movement movement_product_id].
  unfold bind at 1, oid.
  destruct (ObjectId_of_str (saleitem_product_id i)) as [pid|]; [|reflexivity].
  cbn [ret]. unfold bind at 1. cbn [update_one_inc]. unfold bind at 1.
  cbn [create_document]. rewrite IH. reflexivity.
Qed.

Lemma apply_purchase_run (pid : string) (items : list (PurchaseItem amount)) (db : Db amount) :
  apply_purchase pid items db
  = (if all_well_formed (map (purchase_movement pid) items)
     then Ok tt else Raise InvalidIdentifier,
     run_moves (map (purchase_movement pid) items) db).
Proof.
  revert db. induction items as [|i items IH]; intros db; [reflexivity|].
  cbn [apply_purchase map run_moves all_well_formed forallb purchase_movement movement_product_id].
  unfold bind at 1, oid.
  destruct (ObjectId_of_str (purchaseitem_product_id i)) as [p|]; [|reflexivity].
  cbn [ret]. unfold bind at 1. cbn [update_one_inc]. unfold bind at 1.
  cbn [create_document]. rewrite IH. reflexivity.
Qed.

(** *** Increments of the product documents and runs of movements *)

Lemma restocked_0 (p : Product amount) : restocked 0 p = p.
Proof. destruct p. unfold restocked, with_quantity. cbn. now rewrite Z.add_0_r. Qed.

Lemma restocked_restocked (a b : Z) (p : Product amount) :
  restocked b (restocked a p) = restocked (a + b) p.
Proof. unfold restocked, with_quantity. cbn. now rewrite Z.add_assoc. Qed.

Lemma find_by_id_inc_quantity (p pid : ObjectId) (d : Z) (docs : list (ObjectId * Product amount)) :
  find_by_id p (inc_quantity pid d docs)
  = if String.eqb pid p then option_map (restocked d) (find_by_id p docs)
    else find_by_id p docs.
Proof.
  induction docs as [|[i doc] docs IH]; cbn [inc_quantity find_by_id].
  - now destruct (String.eqb pid p).
  - destruct (String.eqb_spec i pid) as [->|Hi]; cbn [find_by_id].
    + destruct (String.eqb_spec pid p); reflexivity.
    + rewrite IH. destruct (String.eqb_spec i p) as [->|Hp]; [|reflexivity].
      destruct (String.eqb_spec pid p); [congruence|reflexivity].
Qed.

Lemma ids_inc_quantity (pid : ObjectId) (d : Z) (docs : list (ObjectId * Product amount)) :
  map fst (inc_quantity pid d docs) = map fst docs.
Proof.
  induction docs as [|[i doc] docs IH]; [reflexivity|].
  cbn [inc_quantity]. destruct (String.eqb i pid); cbn; [reflexivity|now rewrite IH].
Qed.

Lemma run_moves_other (moves : list StockMovement) (db : Db amount) :
  db_sale (run_moves moves db) = db_sale db
  /\ db_purchase (run_moves moves db) = db_purchase db
  /\ map fst (db_product (run_moves moves db)) = map fst (db_product db).
Proof.
  revert db. induction moves as [|m moves IH]; intros db; [auto|].
  cbn [run_moves]. destruct (ObjectId_of_str (movement_product_id m)); [|auto].
  match goal with |- context [run_moves moves ?d] => destruct (IH d) as (A & B & C) end.
  rewrite A, B, C. cbn. rewrite ids_inc_quantity. auto.
Qed.

Lemma run_moves_log (moves : list StockMovement) (db : Db amount) :
  all_well_formed moves = true ->
  exists added,
    db_stockmovement (run_moves moves db) = db_stockmovement db ++ added
    /\ map snd added = moves.
Proof.
  revert db. induction moves as [|m moves IH]; intros db Hwf.
  - exists []. cbn. now rewrite app_nil_r.
  - cbn [all_well_formed forallb] in Hwf. cbn [run_moves].
    destruct (ObjectId_of_str (movement_product_id m)); [|discriminate].
    match goal with |- context [run_moves moves ?d] =>
      destruct (IH d Hwf) as (added & E & Hs) end.
    eexists (_ :: added). rewrite E. cbn. rewrite <- app_assoc. cbn.
    split; [reflexivity|now rewrite Hs].
Qed.

Lemma total_change_cons (p : ObjectId) (m : StockMovement) (moves : list StockMovement) :
  total_change p (m :: moves)
  = (if references (movement_product_id m) p then movement_quantity_change m else 0)
    + total_change p moves.
Proof.
  unfold total_change. cbn [filter].
  destruct (references (movement_product_id m) p); reflexivity.
Qed.

Lemma run_moves_stock (p : ObjectId) (moves : list StockMovement) (db : Db amount) :
  all_well_formed moves = true ->
  find_by_id p (db_product (run_moves moves db))
  = option_map (restocked (total_change p moves)) (find_by_id p (db_product db)).
Proof.
  revert db. induction moves as [|m moves IH]; intros db Hwf.
  - cbn. destruct (find_by_id p (db_product db)); cbn; [now rewrite restocked_0|reflexivity].
  - cbn [all_well_formed forallb] in Hwf. cbn [run_moves].
    rewrite total_change_cons. unfold references.
    destruct (ObjectId_of_str (movement_product_id m)) as [pid|]; [|discriminate].
    rewrite IH by exact Hwf. cbn [create_document update_one_inc snd db_product set_next_id coll_set coll_get stockmovement set_stockmovement set_product].
    rewrite find_by_id_inc_quantity.
    destruct (String.eqb pid p); destruct (find_by_id p (db_product db)); cbn;
      try reflexivity.
    + now rewrite restocked_restocked.
Qed.

Lemma run_moves_stop (pre post : list StockMovement) (bad : StockMovement) (db : Db amount) :
  all_well_formed pre = true -> ObjectId_of_str (movement_product_id bad) = None ->
  run_moves (pre ++ bad :: post) db = run_moves pre db.
Proof.
  revert db. induction pre as [|m pre IH]; intros db Hwf Hbad.
  - cbn. now rewrite Hbad.
  - cbn [all_well_formed forallb] in Hwf. cbn [app run_moves].
    destruct (ObjectId_of_str (movement_product_id m)); [|discriminate].
    now apply IH.
Qed.

Lemma all_well_formed_app_bad (pre post : list StockMovement) (bad : StockMovement) :
  ObjectId_of_str (movement_product_id bad) = None ->
  all_well_formed (pre ++ bad :: post) = false.
Proof.
  intros Hbad. unfold all_well_formed. rewrite forallb_app. cbn. rewrite Hbad.
  now rewrite andb_false_r.
Qed.

Lemma total_change_sale (p : ObjectId) (sid : string) (items : list (SaleItem amount)) :
  total_change p (map (sale_movement sid) items) = - quantity_sold p items.
Proof.
  induction items as [|i items IH]; [reflexivity|].
  cbn [map]. rewrite total_change_cons, IH. unfold quantity_sold. cbn [filter sale_movement movement_product_id movement_quantity_change].
  destruct (references (saleitem_product_id i) p); unfold sum_Z; cbn; lia.
Qed.

Lemma total_change_purchase (p : ObjectId) (pid : string) (items : list (PurchaseItem amount)) :
  total_change p (map (purchase_movement pid) items) = quantity_purchased p items.
Proof.
  induction items as [|i items IH]; [reflexivity|].
  cbn [map]. rewrite total_change_cons, IH. unfold quantity_purchased. cbn [filter purchase_movement movement_product_id movement_quantity_change].
  destruct (references (purchaseitem_product_id i) p); unfold sum_Z; cbn; lia.
Qed.

Lemma sale_lines_well_formed (db : Db amount) (sid : string) (items : list (SaleItem amount)) :
  Forall (sale_line_ok db) items ->
  all_well_formed (map (sale_movement sid) items) = true.
Proof.
  induction 1 as [|i items [pid prod Hpid _ _] _ IH]; [reflexivity|].
  cbn. now rewrite Hpid.
Qed.

Lemma purchase_lines_well_formed (pid : string) (items : list (PurchaseItem amount)) :
  Forall (fun i => well_formed (purchaseitem_product_id i)) items ->
  all_well_formed (map (purchase_movement pid) items) = true.
Proof.
  induction 1 as [|i items Hi _ IH]; [reflexivity|].
  cbn. unfold well_formed in Hi.
  destruct (ObjectId_of_str (purchaseitem_product_id i)); [exact IH|congruence].
Qed.

Lemma processed_well_formed (moves : list StockMovement) :
  all_well_formed (processed moves) = true.
Proof.
  induction moves as [|m moves IH]; [reflexivity|]. cbn [processed].
  destruct (ObjectId_of_str (movement_product_id m)) eqn:E; [|reflexivity].
  cbn. now rewrite E.
Qed.

Lemma run_moves_processed (moves : list StockMovement) (db : Db amount) :
  run_moves moves db = run_moves (processed moves) db.
Proof.
  revert db. induction moves as [|m moves IH]; intros db; [reflexivity|].
  cbn [processed run_moves].
  destruct (ObjectId_of_str (movement_product_id m)) eqn:E; [|reflexivity].
  cbn [run_moves]. rewrite E. apply IH.
Qed.

Lemma processed_all (moves : list StockMovement) :
  all_well_formed moves = true -> processed moves = moves.
Proof.
  induction moves as [|m moves IH]; [reflexivity|]. cbn.
  destruct (ObjectId_of_str (movement_product_id m)); [|discriminate].
  intros Hwf. now rewrite IH.
Qed.

Lemma unstocked_inc_quantity (pid : ObjectId) (d : Z) (docs : list (ObjectId * Product amount)) :
  map unstocked (inc_quantity pid d docs) = map unstocked docs.
Proof.
  induction docs as [|[i p] docs IH]; [reflexivity|]. cbn [inc_quantity].
  destruct (String.eqb i pid); cbn [map]; [reflexivity|now rewrite IH].
Qed.

Lemma run_moves_unstocked (moves : list StockMovement) (db : Db amount) :
  map unstocked (db_product (run_moves moves db)) = map unstocked (db_product db).
Proof.
  revert db. induction moves as [|m moves IH]; intros db; [reflexivity|].
  cbn [run_moves]. destruct (ObjectId_of_str (movement_product_id m)); [|reflexivity].
  rewrite IH. cbn. apply unstocked_inc_quantity.
Qed.

Lemma processed_Forall (P : StockMovement -> Prop) (moves : list StockMovement) :
  Forall P moves -> Forall P (processed moves).
Proof.
  induction 1 as [|m moves Hm _ IH]; [constructor|]. cbn [processed].
  destruct (ObjectId_of_str (movement_product_id m)); now constructor.
Qed.

Lemma total_change_nonneg (pid : ObjectId) (moves : list StockMovement) :
  Forall (fun m => 0 <= movement_quantity_change m) moves -> 0 <= total_change pid moves.
Proof.
  induction 1 as [|m moves Hm _ IH]; [reflexivity|].
  rewrite total_change_cons. destruct (references _ _); lia.
Qed.

Lemma total_change_nonpos (pid : ObjectId) (moves : list StockMovement) :
  Forall (fun m => movement_quantity_change m <= 0) moves -> total_change pid moves <= 0.
Proof.
  induction 1 as [|m moves Hm _ IH]; [reflexivity|].
  rewrite total_change_cons. destruct (references _ _); lia.
Qed.

Lemma inc_quantity_missing (pid : ObjectId) (d : Z) (docs : list (ObjectId * Product amount)) :
  find_by_id pid docs = None -> inc_quantity pid d docs = docs.
Proof.
  induction docs as [|[i p] docs IH]; [reflexivity|]. cbn [find_by_id inc_quantity].
  destruct (String.eqb i pid); [discriminate|]. intros Hf. now rewrite IH.
Qed.

Lemma run_moves_missing (moves : list StockMovement) (db : Db amount) :
  Forall (fun m => exists pid, ObjectId_of_str (movement_product_id m) = Some pid
                               /\ find_by_id pid (db_product db) = None) moves ->
  db_product (run_moves moves db) = db_product db.
Proof.
  revert db. induction moves as [|m moves IH]; intros db Hall; [reflexivity|].
  inversion Hall as [|? ? (pid & Hpid & Hfind) Hrest]; subst.
  cbn [run_moves]. rewrite Hpid. rewrite IH.
  - cbn. now apply inc_quantity_missing.
  - cbn. rewrite (inc_quantity_missing _ _ _ Hfind). exact Hrest.
Qed.

Lemma references_parsed (product_id : string) (pid : ObjectId) :
  ObjectId_of_str product_id = Some pid -> references product_id pid = true.
Proof. unfold references. intros ->. apply String.eqb_refl. Qed.

Lemma references_inv (product_id : string) (pid : ObjectId) :
  references product_id pid = true -> ObjectId_of_str product_id = Some pid.
Proof.
  unfold references. destruct (ObjectId_of_str product_id) as [o|]; [|discriminate].
  intros Ho. apply String.eqb_eq in Ho. now subst.
Qed.

(** The restocked document has [d] more units and is otherwise the same. *)
Lemma quantity_moved_restocked (d : Z) (o : option (Product amount)) :
  quantity_moved d o (option_map (restocked d) o).
Proof.
  destruct o as [p|]; cbn; [|exact I]. unfold same_details. repeat split.
Qed.

Lemma quantity_moved_same (o : option (Product amount)) : quantity_moved 0 o o.
Proof.
  destruct o as [p|]; cbn; [|exact I]. unfold same_details.
  repeat split. lia.
Qed.

Lemma quantity_moved_found (d : Z) (p : Product amount) (o : option (Product amount)) :
  quantity_moved d (Some p) o ->
  exists p', o = Some p' /\ product_quantity p' = product_quantity p + d /\ same_details p p'.
Proof. destruct o as [p'|]; cbn; [|intros []]. intros [Hq Hs]. now exists p'. Qed.

(** What a run of movements leaves in the store, whether it stops early or not. *)
Lemma run_moves_effect (moves : list StockMovement) (db : Db amount) :
  db_sale (run_moves moves db) = db_sale db
  /\ db_purchase (run_moves moves db) = db_purchase db
  /\ map unstocked (db_product (run_moves moves db)) = map unstocked (db_product db)
  /\ map fst (db_product (run_moves moves db)) = map fst (db_product db)
  /\ exists added,
       db_stockmovement (run_moves moves db) = db_stockmovement db ++ added
       /\ map snd added = processed moves
       /\ forall pid,
            quantity_moved (total_change pid (processed moves))
                           (find_by_id pid (db_product db))
                           (find_by_id pid (db_product (run_moves moves db))).
Proof.
  destruct (run_moves_other moves db) as (Hs & Hp & Hids).
  split; [exact Hs|]. split; [exact Hp|]. split; [apply run_moves_unstocked|].
  split; [exact Hids|].
  rewrite run_moves_processed.
  destruct (run_moves_log _ db (processed_well_formed moves)) as (added & Hlog & Hadded).
  exists added. split; [exact Hlog|]. split; [exact Hadded|].
  intros pid. rewrite (run_moves_stock pid _ _ (processed_well_formed moves)).
  apply quantity_moved_restocked.
Qed.

(** *** The outcomes of the two workflows *)

Lemma db_eta (db : Db amount) : set_product (db_product db) db = db.
Proof. now destruct db. Qed.

(** The outcomes of [create_purchase]: the line totals cannot be computed
    and nothing is written, or the document is inserted and the movements
    are run as far as they go. *)
Lemma create_purchase_outcome (p : Purchase amount) (db : Db amount) :
  match all_defined purchase_line_total (purchase_items p) with
  | None => create_purchase p db = (Unhandled OverflowError, db)
  | Some lts =>
      create_purchase p db
      = (if all_well_formed (map (purchase_movement (ObjectId_new (db_next_id db)))
                                 (purchase_items p))
         then Ok (mkReceipt (ObjectId_new (db_next_id db)) (sum_amounts lts)
                            (tax_or_0 (purchase_tax p))
                            (add (sum_amounts lts) (tax_or_0 (purchase_tax p))))
         else Raise InvalidIdentifier,
         run_moves (map (purchase_movement (ObjectId_new (db_next_id db))) (purchase_items p))
                   (with_purchase_doc p lts db))
  end.
Proof.
  unfold create_purchase. rewrite purchase_totals_eq.
  destruct (all_defined purchase_line_total (purchase_items p)) as [lts|] eqn:Hl;
    [|reflexivity].
  cbn [option_map]. unfold bind at 1. cbn [create_document coll_get coll_set purchase].
  unfold bind. rewrite apply_purchase_run.
  apply all_defined_Forall2, Forall2_length_eq in Hl.
  rewrite (purchase_movements_stored _ _ _ Hl).
  unfold with_purchase_doc, sum_amounts.
  destruct (all_well_formed _); reflexivity.
Qed.

(** The outcomes of [create_sale]: the line totals cannot be computed, or
    every line passes the stock check and the sale is recorded, or the sale
    is rejected with the error of its first failing line; the store is as
    before in the first and in the last case. *)
Lemma create_sale_cases (s : Sale amount) (db : Db amount) :
  (all_defined sale_line_total (sale_items s) = None
   /\ create_sale s db = (Unhandled OverflowError, db))
  \/ (exists lts,
        all_defined sale_line_total (sale_items s) = Some lts
        /\ Forall (sale_line_ok db) (sale_items s)
        /\ all_well_formed (map (sale_movement (ObjectId_new (db_next_id db)))
                                (sale_items s)) = true
        /\ create_sale s db
           = (Ok (mkReceipt (ObjectId_new (db_next_id db)) (sum_amounts lts)
                            (tax_or_0 (sale_tax s))
                            (add (sum_amounts lts) (tax_or_0 (sale_tax s)))),
              run_moves (map (sale_movement (ObjectId_new (db_next_id db))) (sale_items s))
                        (with_sale_doc s lts db)))
  \/ (exists lts pre i post e,
        all_defined sale_line_total (sale_items s) = Some lts
        /\ sale_items s = pre ++ i :: post
        /\ Forall (sale_line_ok db) pre
        /\ sale_line_fails db i e
        /\ create_sale s db = (Raise e, db)).
Proof.
  unfold create_sale. rewrite sale_totals_eq.
  destruct (all_defined sale_line_total (sale_items s)) as [lts|] eqn:Hl;
    [|left; now split].
  right. cbn [option_map].
  pose proof (Forall2_length_eq _ _ _ (proj1 (all_defined_Forall2 _ _ _) Hl)) as Hlen.
  destruct (all_ok_or_some_fails db (sale_items s)) as [Hok|Hex].
  - left. exists lts. split; [reflexivity|]. split; [exact Hok|].
    pose proof (sale_lines_well_formed db (ObjectId_new (db_next_id db)) _ Hok) as Hwf.
    split; [exact Hwf|].
    unfold bind at 1. rewrite (validate_stock_stored _ _ _ Hlen).
    rewrite (validate_stock_ok _ _ Hok).
    unfold bind at 1. cbn [create_document coll_get coll_set sale].
    unfold bind. rewrite apply_sale_run, (sale_movements_stored _ _ _ Hlen), Hwf.
    reflexivity.
  - right. destruct (first_failure db _ Hex) as (pre & i & post & e & Hsplit & Hpre & Hi).
    exists lts, pre, i, post, e.
    split; [reflexivity|]. split; [exact Hsplit|]. split; [exact Hpre|]. split; [exact Hi|].
    unfold bind at 1. rewrite (validate_stock_stored _ _ _ Hlen), Hsplit.
    rewrite (validate_stock_fails db pre post i e Hpre Hi). reflexivity.
Qed.

Lemma create_sale_overflow (s : Sale amount) (db : Db amount) :
  Exists (fun i => sale_line_total i = None) (sale_items s) ->
  create_sale s db = (Unhandled OverflowError, db).
Proof.
  intros Hex. apply all_defined_none in Hex.
  unfold create_sale. rewrite sale_totals_eq, Hex. reflexivity.
Qed.

Lemma create_purchase_overflow (p : Purchase amount) (db : Db amount) :
  Exists (fun i => purchase_line_total i = None) (purchase_items p) ->
  create_purchase p db = (Unhandled OverflowError, db).
Proof.
  intros Hex. apply all_defined_none in Hex.
  unfold create_purchase. rewrite purchase_totals_eq, Hex. reflexivity.
Qed.

(** A draft whose items all pass the stock check and are priced is recorded. *)
Lemma create_sale_accepts (s : Sale amount) (db : Db amount) :
  Forall (sale_line_ok db) (sale_items s) ->
  Forall sale_priced (sale_items s) ->
  exists lts,
    all_defined sale_line_total (sale_items s) = Some lts
    /\ all_well_formed (map (sale_movement (ObjectId_new (db_next_id db)))
                            (sale_items s)) = true
    /\ create_sale s db
       = (Ok (mkReceipt (ObjectId_new (db_next_id db)) (sum_amounts lts)
                        (tax_or_0 (sale_tax s))
                        (add (sum_amounts lts) (tax_or_0 (sale_tax s)))),
          run_moves (map (sale_movement (ObjectId_new (db_next_id db))) (sale_items s))
                    (with_sale_doc s lts db)).
Proof.
  intros Hok Hpr. destruct (all_defined_some _ _ Hpr) as [lts Hl].
  destruct (create_sale_cases s db)
    as [[Hn _]|[(lts' & Hl' & _ & Hwf & Hc)
               |(lts' & pre & i & post & e & _ & Hsplit & _ & Hi & _)]].
  - congruence.
  - exists lts'. now split.
  - exfalso. rewrite Hsplit in Hok. apply Forall_app in Hok. destruct Hok as [_ Hok].
    inversion Hok; subst. eapply stock_ok_not_fails; eauto.
Qed.

(** What an answer of [create_sale] tells. *)
Lemma create_sale_accepted (s : Sale amount) (db db' : Db amount) (r : Receipt amount) :
  create_sale s db = (Ok r, db') ->
  exists lts,
    all_defined sale_line_total (sale_items s) = Some lts
    /\ Forall (sale_line_ok db) (sale_items s)
    /\ all_well_formed (map (sale_movement (ObjectId_new (db_next_id db)))
                            (sale_items s)) = true
    /\ r = mkReceipt (ObjectId_new (db_next_id db)) (sum_amounts lts)
                     (tax_or_0 (sale_tax s))
                     (add (sum_amounts lts) (tax_or_0 (sale_tax s)))
    /\ db' = run_moves (map (sale_movement (ObjectId_new (db_next_id db))) (sale_items s))
                       (with_sale_doc s lts db).
Proof.
  intros Hr.
  destruct (create_sale_cases s db)
    as [[_ Hc]|[(lts & Hl & Hok & Hwf & Hc)
               |(lts & pre & i & post & e & _ & _ & _ & _ & Hc)]];
    rewrite Hc in Hr; try discriminate.
  injection Hr as <- <-. exists lts. repeat split; assumption.
Qed.

(** A priced draft is rejected with the error of its first failing line. *)
Lemma create_sale_first_failure (s : Sale amount) (db : Db amount)
      (pre post : list (SaleItem amount)) (i : SaleItem amount) (e : HTTPException) :
  Forall sale_priced (sale_items s) ->
  sale_items s = pre ++ i :: post ->
  Forall (sale_line_ok db) pre -> sale_line_fails db i e ->
  create_sale s db = (Raise e, db).
Proof.
  intros Hpr Hsplit Hpre Hi. destruct (all_defined_some _ _ Hpr) as [lts Hl].
  pose proof (Forall2_length_eq _ _ _ (proj1 (all_defined_Forall2 _ _ _) Hl)) as Hlen.
  unfold create_sale. rewrite sale_totals_eq, Hl. cbn [option_map].
  unfold bind at 1. rewrite (validate_stock_stored _ _ _ Hlen), Hsplit.
  rewrite (validate_stock_fails db pre post i e Hpre Hi). reflexivity.
Qed.

Lemma priced_or_not {A B : Type} (f : A -> option B) (l : list A) :
  Forall (fun a => f a <> None) l \/ Exists (fun a => f a = None) l.
Proof.
  induction l as [|a l [IH|IH]].
  - left. constructor.
  - destruct (f a) eqn:Ha; [left; constructor; [congruence|exact IH]|right; now left].
  - right. now right.
Qed.

(** The writes of a run of movements whose references are all accepted. *)
Lemma run_moves_all (moves : list StockMovement) (db : Db amount) :
  all_well_formed moves = true ->
  exists added,
    db_stockmovement (run_moves moves db) = db_stockmovement db ++ added
    /\ map snd added = moves
    /\ forall pid,
         quantity_moved (total_change pid moves)
                        (find_by_id pid (db_product db))
                        (find_by_id pid (db_product (run_moves moves db))).
Proof.
  intros Hwf.
  destruct (run_moves_effect moves db) as (_ & _ & _ & _ & added & Hlog & Hadded & Hq).
  rewrite (processed_all _ Hwf) in Hadded, Hq. now exists added.
Qed.

(** A product that one item only refers to is asked that item's quantity. *)
Lemma quantity_sold_single (pid : ObjectId) (pre post : list (SaleItem amount))
      (i : SaleItem amount) :
  references (saleitem_product_id i) pid = true ->
  (forall j, In j (pre ++ post) -> references (saleitem_product_id j) pid = false) ->
  quantity_sold pid (pre ++ i :: post) = saleitem_quantity i.
Proof.
  intros Hi Hothers.
  assert (Hnone : forall l : list (SaleItem amount),
             (forall j, In j l -> references (saleitem_product_id j) pid = false) ->
             filter (fun j => references (saleitem_product_id j) pid) l = []).
  { induction l as [|j l IH]; intros Hl; [reflexivity|].
    cbn [filter]. rewrite (Hl j (or_introl eq_refl)).
    apply IH. intros k Hk. apply Hl. now right. }
  unfold quantity_sold. rewrite filter_app. cbn [filter]. rewrite Hi.
  rewrite (Hnone pre), (Hnone post).
  - unfold sum_Z. cbn. lia.
  - intros j Hj. apply Hothers, in_or_app. now right.
  - intros j Hj. apply Hothers, in_or_app. now left.
Qed.

Lemma quantity_purchased_unreferenced (pid : ObjectId) (items : list (PurchaseItem amount)) :
  (forall i, In i items -> references (purchaseitem_product_id i) pid = false) ->
  quantity_purchased pid items = 0.
Proof.
  unfold quantity_purchased. induction items as [|i items IH]; intros Hno; [reflexivity|].
  cbn [filter]. rewrite (Hno i (or_introl eq_refl)).
  apply IH. intros j Hj. apply Hno. now right.
Qed.

Lemma quantity_purchased_single (pid : ObjectId) (pre post : list (PurchaseItem amount))
      (i : PurchaseItem amount) :
  references (purchaseitem_product_id i) pid = true ->
  (forall j, In j (pre ++ post) -> references (purchaseitem_product_id j) pid = false) ->
  quantity_purchased pid (pre ++ i :: post) = purchaseitem_quantity i.
Proof.
  intros Hi Hothers.
  assert (Hnone : forall l : list (PurchaseItem amount),
             (forall j, In j l -> references (purchaseitem_product_id j) pid = false) ->
             filter (fun j => references (purchaseitem_product_id j) pid) l = []).
  { induction l as [|j l IH]; intros Hl; [reflexivity|].
    cbn [filter]. rewrite (Hl j (or_introl eq_refl)).
    apply IH. intros k Hk. apply Hl. now right. }
  unfold quantity_purchased. rewrite filter_app. cbn [filter]. rewrite Hi.
  rewrite (Hnone pre), (Hnone post).
  - unfold sum_Z. cbn. lia.
  - intros j Hj. apply Hothers, in_or_app. now right.
  - intros j Hj. apply Hothers, in_or_app. now left.
Qed.

(** *** Rejected sales *)

(** C1 (amended). For every sale draft in which some item fails the stock
    check (a product id that [oid] refuses, a product id with no matching
    product, or a quantity above the product's current stock), [create_sale]
    leaves the whole store as it was: no sale document, no quantity change,
    no movement. When every item has a line total (carried, or computable as
    quantity times price), it fails with the error of the first such item in
    order: InvalidIdentifier, ProductNotFound or InsufficientStock
    respectively. When the line total of some item cannot be computed, it
    fails before the stock check with an unhandled OverflowError. *)
Theorem create_sale_rejects_without_writes (s : Sale amount) (db : Db amount) :
  Exists (fun i => exists e, sale_line_fails db i e) (sale_items s) ->
  snd (create_sale s db) = db
  /\ (Forall sale_priced (sale_items s) ->
      exists pre i post e,
        sale_items s = pre ++ i :: post
        /\ Forall (sale_line_ok db) pre
        /\ sale_line_fails db i e
        /\ create_sale s db = (Raise e, db))
  /\ (Exists (fun i => sale_line_total i = None) (sale_items s) ->
      create_sale s db = (Unhandled OverflowError, db)).
Proof.
  intros Hex.
  destruct (first_failure db _ Hex) as (pre & i & post & e & Hitems & Hpre & Hi).
  assert (Hpriced : Forall sale_priced (sale_items s) ->
                    create_sale s db = (Raise e, db)).
  { intros Hpr. now apply (create_sale_first_failure s db pre post i e). }
  split; [|split].
  - destruct (priced_or_not sale_line_total (sale_items s)) as [Hpr|Hno].
    + now rewrite (Hpriced Hpr).
    + now rewrite (create_sale_overflow s db Hno).
  - intros Hpr. exists pre, i, post, e. repeat split; try assumption. now apply Hpriced.
  - apply create_sale_overflow.
Qed.

(** *** Recorded sales *)

(** C2. For every sale draft whose items all pass the stock check (the
    referenced product exists and holds at least the item's quantity) and
    have a line total (carried, or computable as quantity times price),
    [create_sale] succeeds and inserts the sale document; the quantity of
    every product goes down by the quantities of the items that refer to it,
    its other fields and the set of products staying as they were: a product
    that one item refers to ends with exactly that item's quantity less. The
    movement log grows by one movement per item, in order, with the item's
    product id, type "sale", [quantity_change = - quantity], reason "Sale"
    and the id of the new sale. *)
Theorem create_sale_decrements_stock (s : Sale amount) (db : Db amount) :
  Forall (sale_line_ok db) (sale_items s) ->
  Forall sale_priced (sale_items s) ->
  exists r db' doc added,
    create_sale s db = (Ok r, db')
    /\ receipt_id r = ObjectId_new (db_next_id db)
    /\ db_sale db' = db_sale db ++ [(receipt_id r, doc)]
    /\ (forall pid, quantity_moved (- quantity_sold pid (sale_items s))
                                   (find_by_id pid (db_product db))
                                   (find_by_id pid (db_product db')))
    /\ map fst (db_product db') = map fst (db_product db)
    /\ (forall pre i post pid prod,
          sale_items s = pre ++ i :: post ->
          references (saleitem_product_id i) pid = true ->
          (forall j, In j (pre ++ post) ->
                     references (saleitem_product_id j) pid = false) ->
          find_by_id pid (db_product db) = Some prod ->
          exists prod',
            find_by_id pid (db_product db') = Some prod'
            /\ product_quantity prod' = product_quantity prod - saleitem_quantity i
            /\ same_details prod prod')
    /\ db_stockmovement db' = db_stockmovement db ++ added
    /\ Forall2 (fun i m =>
                  movement_product_id (snd m) = saleitem_product_id i
                  /\ movement_type (snd m) = "sale"%string
                  /\ movement_quantity_change (snd m) = - saleitem_quantity i
                  /\ movement_reason (snd m) = Some "Sale"%string
                  /\ movement_ref_id (snd m) = Some (receipt_id r))
               (sale_items s) added.
Proof.
  intros Hok Hpr.
  destruct (create_sale_accepts s db Hok Hpr) as (lts & _ & Hwf & Hc).
  match type of Hc with _ = (Ok ?r, run_moves ?m ?d) =>
    destruct (run_moves_other m d) as (Hs & _ & Hids);
    destruct (run_moves_all m d Hwf) as (added & Hlog & Hadded & Hstock);
    exists r, (run_moves m d)
  end.
  eexists _, added. split; [exact Hc|]. cbn [receipt_id].
  split; [reflexivity|]. split; [rewrite Hs; reflexivity|].
  assert (Hq : forall pid,
             quantity_moved (- quantity_sold pid (sale_items s))
               (find_by_id pid (db_product db))
               (find_by_id pid
                  (db_product
                     (run_moves (map (sale_movement (ObjectId_new (db_next_id db)))
                                     (sale_items s)) (with_sale_doc s lts db))))).
  { intros pid. rewrite <- total_change_sale with (sid := ObjectId_new (db_next_id db)).
    exact (Hstock pid). }
  split; [exact Hq|]. split; [exact Hids|]. split; [|split; [exact Hlog|]].
  - intros pre i post pid prod Hitems Hi Hothers Hfind.
    specialize (Hq pid). rewrite Hfind in Hq.
    destruct (quantity_moved_found _ _ _ Hq) as (prod' & Hf' & Hq' & Hsame).
    exists prod'. split; [exact Hf'|]. split; [|exact Hsame].
    rewrite Hq', Hitems, (quantity_sold_single pid pre post i Hi Hothers). lia.
  - clear - Hadded. revert added Hadded.
    induction (sale_items s) as [|i items IH]; intros [|m added] Hadded;
      try discriminate; constructor.
    + cbn in Hadded. injection Hadded as Hm _. rewrite Hm. cbn. repeat split.
    + apply IH. cbn in Hadded. now injection Hadded.
Qed.

(** *** Totals *)

(** The sale document and the answer of an accepted sale. *)
Lemma create_sale_written (s : Sale amount) (db db' : Db amount) (r : Receipt amount) :
  create_sale s db = (Ok r, db') ->
  exists lts,
    Forall2 (fun i v => sale_line_total i = Some v) (sale_items s) lts
    /\ r = mkReceipt (ObjectId_new (db_next_id db)) (sum_amounts lts)
                     (tax_or_0 (sale_tax s))
                     (add (sum_amounts lts) (tax_or_0 (sale_tax s)))
    /\ db_sale db'
       = db_sale db
         ++ [(ObjectId_new (db_next_id db),
              mkSale (sale_customer_id s) (sale_items_stored (sale_items s) lts)
                     (Some (sum_amounts lts)) (sale_tax s)
                     (Some (add (sum_amounts lts) (tax_or_0 (sale_tax s))))
                     (sale_notes s))].
Proof.
  intros Hr. destruct (create_sale_accepted _ _ _ _ Hr) as (lts & Hl & _ & _ & -> & ->).
  exists lts. split; [now apply all_defined_Forall2|]. split; [reflexivity|].
  match goal with |- context [run_moves ?m ?d] =>
    destruct (run_moves_other m d) as (Hs & _ & _) end.
  rewrite Hs. reflexivity.
Qed.

(** The purchase document and the answer of a purchase that gets past the
    computation of the totals. *)
Lemma create_purchase_written (p : Purchase amount) (db db' : Db amount)
      (res : Result (Receipt amount)) :
  create_purchase p db = (res, db') ->
  res <> Unhandled OverflowError ->
  exists lts,
    Forall2 (fun i v => purchase_line_total i = Some v) (purchase_items p) lts
    /\ (forall r, res = Ok r ->
                  r = mkReceipt (ObjectId_new (db_next_id db)) (sum_amounts lts)
                                (tax_or_0 (purchase_tax p))
                                (add (sum_amounts lts) (tax_or_0 (purchase_tax p))))
    /\ db_purchase db'
       = db_purchase db
         ++ [(ObjectId_new (db_next_id db),
              mkPurchase (purchase_supplier_id p)
                         (purchase_items_stored (purchase_items p) lts)
                         (Some (sum_amounts lts)) (purchase_tax p)
                         (Some (add (sum_amounts lts) (tax_or_0 (purchase_tax p))))
                         (purchase_notes p))].
Proof.
  intros Hr Hres. pose proof (create_purchase_outcome p db) as Hc.
  destruct (all_defined purchase_line_total (purchase_items p)) as [lts|] eqn:Hl.
  - rewrite Hc in Hr. injection Hr as <- <-.
    exists lts. split; [now apply all_defined_Forall2|]. split.
    + intros r. destruct (all_well_formed _); [now intros [= <-]|discriminate].
    + match goal with |- context [run_moves ?m ?d] =>
        destruct (run_moves_other m d) as (_ & Hp & _) end.
      rewrite Hp. reflexivity.
  - rewrite Hc in Hr. injection Hr as <- <-. now contradiction Hres.
Qed.

Lemma tax_or_0_cases (tax : option amount) :
  (tax = None -> tax_or_0 tax = zero)
  /\ (forall t, tax = Some t -> tax_or_0 tax = t \/ (truthy t = false /\ tax_or_0 tax = zero)).
Proof.
  split; [now intros ->|]. intros t ->. cbn. destruct (truthy t); auto.
Qed.

(** C3. For every sale or purchase draft that the handler answers, every
    item has a line total (the one it carries, else quantity times price or
    cost), the returned subtotal is the sum (in item order, from 0.0) of the
    line totals of all items, the returned total is subtotal plus tax, tax
    being 0 when the draft has none (and the draft's own tax otherwise, a tax
    equal to zero counting as 0), and the document inserted under the
    returned id carries these line totals, this subtotal and this total. *)
Theorem totals_law (s : Sale amount) (p : Purchase amount) (db : Db amount) :
  (forall r db', create_sale s db = (Ok r, db') ->
     exists lts,
       Forall2 (fun i v => sale_line_total i = Some v) (sale_items s) lts
       /\ receipt_subtotal r = sum_amounts lts
       /\ receipt_total r = add (receipt_subtotal r) (receipt_tax r)
       /\ (sale_tax s = None -> receipt_tax r = zero)
       /\ (forall t, sale_tax s = Some t ->
             receipt_tax r = t \/ (truthy t = false /\ receipt_tax r = zero))
       /\ exists doc,
            db_sale db' = db_sale db ++ [(receipt_id r, doc)]
            /\ map saleitem_line_total (sale_items doc) = map Some lts
            /\ sale_subtotal doc = Some (receipt_subtotal r)
            /\ sale_total doc = Some (receipt_total r))
  /\ (forall r db', create_purchase p db = (Ok r, db') ->
     exists lts,
       Forall2 (fun i v => purchase_line_total i = Some v) (purchase_items p) lts
       /\ receipt_subtotal r = sum_amounts lts
       /\ receipt_total r = add (receipt_subtotal r) (receipt_tax r)
       /\ (purchase_tax p = None -> receipt_tax r = zero)
       /\ (forall t, purchase_tax p = Some t ->
             receipt_tax r = t \/ (truthy t = false /\ receipt_tax r = zero))
       /\ exists doc,
            db_purchase db' = db_purchase db ++ [(receipt_id r, doc)]
            /\ map purchaseitem_line_total (purchase_items doc) = map Some lts
            /\ purchase_subtotal doc = Some (receipt_subtotal r)
            /\ purchase_total doc = Some (receipt_total r)).
Proof.
  split; intros r db' Hr.
  - destruct (create_sale_written _ _ _ _ Hr) as (lts & Hl & -> & Hdoc).
    destruct (tax_or_0_cases (sale_tax s)) as [Hnone Hsome].
    exists lts. cbn [receipt_subtotal receipt_total receipt_tax receipt_id].
    split; [exact Hl|]. split; [reflexivity|]. split; [reflexivity|].
    split; [exact Hnone|]. split; [exact Hsome|].
    eexists. split; [exact Hdoc|]. cbn [sale_items sale_subtotal sale_total].
    split; [|split; reflexivity]. apply (sale_items_stored_settled _ _ Hl).
  - assert (Hres : Ok r <> Unhandled OverflowError) by discriminate.
    destruct (create_purchase_written _ _ _ _ Hr Hres) as (lts & Hl & Hrec & Hdoc).
    rewrite (Hrec r eq_refl).
    destruct (tax_or_0_cases (purchase_tax p)) as [Hnone Hsome].
    exists lts. cbn [receipt_subtotal receipt_total receipt_tax receipt_id].
    split; [exact Hl|]. split; [reflexivity|]. split; [reflexivity|].
    split; [exact Hnone|]. split; [exact Hsome|].
    eexists. split; [exact Hdoc|]. cbn [purchase_items purchase_subtotal purchase_total].
    split; [|split; reflexivity]. apply (purchase_items_stored_settled _ _ Hl).
Qed.




(** C9. Whatever [subtotal] and [total] the caller puts in a sale or
    purchase draft, the handler behaves (result and store) as on the draft
    without them: whenever a document is inserted, the subtotal and total
    stored and returned are the ones computed from the items and the tax. *)
Theorem supplied_totals_overwritten (s : Sale amount) (p : Purchase amount)
        (subtotal total : option amount) (db : Db amount) :
  create_sale (sale_with_totals s subtotal total) db = create_sale s db
  /\ create_purchase (purchase_with_totals p subtotal total) db = create_purchase p db
  /\ (forall r db',
        create_sale (sale_with_totals s subtotal total) db = (Ok r, db') ->
        exists doc lts,
          Forall2 (fun i v => sale_line_total i = Some v) (sale_items s) lts
          /\ db_sale db' = db_sale db ++ [(receipt_id r, doc)]
          /\ sale_subtotal doc = Some (sum_amounts lts)
          /\ sale_total doc = Some (add (sum_amounts lts) (tax_or_0 (sale_tax s)))
          /\ receipt_subtotal r = sum_amounts lts
          /\ receipt_total r = add (sum_amounts lts) (tax_or_0 (sale_tax s)))
  /\ (forall res db',
        create_purchase (purchase_with_totals p subtotal total) db = (res, db') ->
        res <> Unhandled OverflowError ->
        exists doc lts,
          Forall2 (fun i v => purchase_line_total i = Some v) (purchase_items p) lts
          /\ db_purchase db' = db_purchase db ++ [(ObjectId_new (db_next_id db), doc)]
          /\ purchase_subtotal doc = Some (sum_amounts lts)
          /\ purchase_total doc
             = Some (add (sum_amounts lts) (tax_or_0 (purchase_tax p)))
          /\ (forall r, res = Ok r ->
                receipt_subtotal r = sum_amounts lts
                /\ receipt_total r = add (sum_amounts lts) (tax_or_0 (purchase_tax p)))).
Proof.
  assert (Hs : create_sale (sale_with_totals s subtotal total) db = create_sale s db)
    by reflexivity.
  assert (Hp : create_purchase (purchase_with_totals p subtotal total) db
               = create_purchase p db) by reflexivity.
  split; [exact Hs|]. split; [exact Hp|]. split.
  - intros r db' Hr. rewrite Hs in Hr.
    destruct (create_sale_written _ _ _ _ Hr) as (lts & Hl & -> & Hdoc).
    eexists _, lts. split; [exact Hl|]. split; [exact Hdoc|]. cbn. auto.
  - intros res db' Hr Hres. rewrite Hp in Hr.
    destruct (create_purchase_written _ _ _ _ Hr Hres) as (lts & Hl & Hrec & Hdoc).
    eexists _, lts. split; [exact Hl|]. split; [exact Hdoc|]. cbn.
    split; [reflexivity|]. split; [reflexivity|].
    intros r Hr'. rewrite (Hrec r Hr'). cbn. auto.
Qed.

(** *** Purchases *)

(** A priced purchase whose references are all accepted is recorded. *)
Lemma create_purchase_accepts (p : Purchase amount) (db : Db amount) :
  Forall (fun i => well_formed (purchaseitem_product_id i)) (purchase_items p) ->
  Forall purchase_priced (purchase_items p) ->
  exists lts,
    all_defined purchase_line_total (purchase_items p) = Some lts
    /\ all_well_formed (map (purchase_movement (ObjectId_new (db_next_id db)))
                            (purchase_items p)) = true
    /\ create_purchase p db
       = (Ok (mkReceipt (ObjectId_new (db_next_id db)) (sum_amounts lts)
                        (tax_or_0 (purchase_tax p))
                        (add (sum_amounts lts) (tax_or_0 (purchase_tax p)))),
          run_moves (map (purchase_movement (ObjectId_new (db_next_id db)))
                         (purchase_items p))
                    (with_purchase_doc p lts db)).
Proof.
  intros Hwf0 Hpr. destruct (all_defined_some _ _ Hpr) as [lts Hl].
  pose proof (purchase_lines_well_formed (ObjectId_new (db_next_id db)) _ Hwf0) as Hwf.
  pose proof (create_purchase_outcome p db) as Hc. rewrite Hl, Hwf in Hc.
  exists lts. now split.
Qed.

Lemma purchase_is_recorded (p : Purchase amount) (db : Db amount) :
  Forall (fun i => well_formed (purchaseitem_product_id i)) (purchase_items p) ->
  Forall purchase_priced (purchase_items p) ->
  purchase_recorded p db.
Proof.
  intros Hwf0 Hpr.
  destruct (create_purchase_accepts p db Hwf0 Hpr) as (lts & _ & Hwf & Hc).
  unfold purchase_recorded.
  match type of Hc with _ = (Ok ?r, run_moves ?m ?d) =>
    destruct (run_moves_other m d) as (_ & Hp & Hids);
    destruct (run_moves_all m d Hwf) as (added & Hlog & Hadded & Hstock);
    exists r, (run_moves m d)
  end.
  eexists _, added. split; [exact Hc|]. cbn [receipt_id].
  split; [reflexivity|]. split; [rewrite Hp; reflexivity|].
  split; [|split; [exact Hids|split; [exact Hlog|exact Hadded]]].
  intros pid. rewrite <- total_change_purchase with (pid := ObjectId_new (db_next_id db)).
  exact (Hstock pid).
Qed.

(** C5 (amended). For every purchase draft whose items all carry a product
    id that [oid] accepts and have a line total (carried, or computable as
    quantity times cost), [create_purchase] succeeds and inserts the purchase
    document; the quantity of every product goes up by the quantities of the
    items that refer to it, its other fields and the set of products staying
    as they were: a product that one item refers to ends with exactly that
    item's quantity more. The log grows by one movement per item, in order,
    with the item's quantity as [quantity_change] (positive for a validated
    draft), type "purchase", reason "Purchase" and the id of the new
    purchase. When no item refers to a stored product, the product collection
    is left as it was and the operation still succeeds. When the items carry
    accepted ids but the line total of one cannot be computed, the operation
    fails with an unhandled OverflowError and writes nothing. *)
Theorem create_purchase_increments_stock (p : Purchase amount) (db : Db amount) :
  Forall (fun i => well_formed (purchaseitem_product_id i)) (purchase_items p) ->
  (Forall purchase_priced (purchase_items p) ->
   purchase_recorded p db
   /\ (Purchase_valid p = true ->
       forall added,
         db_stockmovement (snd (create_purchase p db)) = db_stockmovement db ++ added ->
         Forall (fun m => 0 < movement_quantity_change (snd m)) added)
   /\ (forall pre i post pid prod,
         purchase_items p = pre ++ i :: post ->
         references (purchaseitem_product_id i) pid = true ->
         (forall j, In j (pre ++ post) ->
                    references (purchaseitem_product_id j) pid = false) ->
         find_by_id pid (db_product db) = Some prod ->
         exists prod',
           find_by_id pid (db_product (snd (create_purchase p db))) = Some prod'
           /\ product_quantity prod' = product_quantity prod + purchaseitem_quantity i
           /\ same_details prod prod')
   /\ ((forall i pid, In i (purchase_items p) ->
                      ObjectId_of_str (purchaseitem_product_id i) = Some pid ->
                      find_by_id pid (db_product db) = None) ->
       db_product (snd (create_purchase p db)) = db_product db))
  /\ (Exists (fun i => purchase_line_total i = None) (purchase_items p) ->
      create_purchase p db = (Unhandled OverflowError, db)).
Proof.
  intros Hwf0. split; [|apply create_purchase_overflow]. intros Hpr.
  pose proof (purchase_is_recorded p db Hwf0 Hpr) as Hrec.
  split; [exact Hrec|].
  destruct Hrec as (r & db' & doc & added0 & Hc & _ & _ & Hstock & _ & Hlog & Hadded).
  rewrite Hc. cbn [snd]. split; [|split].
  - intros Hvalid added Hlog'. rewrite Hlog in Hlog'. apply app_inv_head in Hlog'.
    subst added0. rewrite <- (Forall_map snd (fun m => 0 < movement_quantity_change m)).
    rewrite Hadded, Forall_map, Forall_forall. intros i Hin.
    unfold Purchase_valid in Hvalid.
    repeat (apply andb_prop in Hvalid; destruct Hvalid as [Hvalid ?]).
    rewrite forallb_forall in Hvalid. specialize (Hvalid i Hin).
    unfold PurchaseItem_valid in Hvalid.
    repeat (apply andb_prop in Hvalid; destruct Hvalid as [Hvalid ?]).
    cbn. lia.
  - intros pre i post pid prod Hitems Hi Hothers Hfind.
    specialize (Hstock pid). rewrite Hfind in Hstock.
    destruct (quantity_moved_found _ _ _ Hstock) as (prod' & Hf' & Hq' & Hsame).
    exists prod'. split; [exact Hf'|]. split; [|exact Hsame].
    now rewrite Hq', Hitems, (quantity_purchased_single pid pre post i Hi Hothers).
  - intros Hnone.
    destruct (create_purchase_accepts p db Hwf0 Hpr) as (lts & _ & _ & Hc').
    rewrite Hc' in Hc. injection Hc as _ <-.
    rewrite run_moves_missing; [reflexivity|].
    rewrite Forall_map, Forall_forall. intros i Hin.
    rewrite Forall_forall in Hwf0. specialize (Hwf0 i Hin). unfold well_formed in Hwf0.
    cbn [purchase_movement movement_product_id].
    destruct (ObjectId_of_str (purchaseitem_product_id i)) as [pid|] eqn:Hpid;
      [|congruence].
    exists pid. split; [reflexivity|]. exact (Hnone i pid Hin Hpid).
Qed.

(** *** Malformed product ids *)

(** C10 (amended). When an item of a purchase draft has a product id that
    [oid] refuses, the items before it have ids that it accepts, and every
    item has a line total (carried, or computable), [create_purchase] fails
    with InvalidIdentifier after it has inserted the purchase document,
    applied the stock increments of the earlier items and appended their
    movements, and nothing for the items from the refused one on; when the
    line total of some item cannot be computed, it fails with an unhandled
    OverflowError and writes nothing. On a sale draft with such a product id,
    [create_sale] fails and leaves the store as it was: when every item has a
    line total, with the error of the stock check, which is
    InvalidIdentifier when the items before the refused one pass that check;
    otherwise with an unhandled OverflowError. *)
Theorem invalid_id_purchase_partial_sale_clean
        (p : Purchase amount) (s : Sale amount) (db : Db amount) :
  (forall pre bad post,
     purchase_items p = pre ++ bad :: post ->
     Forall (fun i => well_formed (purchaseitem_product_id i)) pre ->
     ObjectId_of_str (purchaseitem_product_id bad) = None ->
     (Forall purchase_priced (purchase_items p) -> purchase_partially_written p pre db)
     /\ (Exists (fun i => purchase_line_total i = None) (purchase_items p) ->
         create_purchase p db = (Unhandled OverflowError, db)))
  /\ (forall pre bad post,
        sale_items s = pre ++ bad :: post ->
        ObjectId_of_str (saleitem_product_id bad) = None ->
        snd (create_sale s db) = db
        /\ (Forall sale_priced (sale_items s) ->
            (exists e, create_sale s db = (Raise e, db))
            /\ (Forall (sale_line_ok db) pre ->
                create_sale s db = (Raise InvalidIdentifier, db)))
        /\ (Exists (fun i => sale_line_total i = None) (sale_items s) ->
            create_sale s db = (Unhandled OverflowError, db))).
Proof.
  split.
  - intros pre bad post Hitems Hpre Hbad. split; [|apply create_purchase_overflow].
    intros Hpr. destruct (all_defined_some _ _ Hpr) as [lts Hl].
    pose proof (create_purchase_outcome p db) as Hc. rewrite Hl in Hc.
    rewrite Hitems, map_app in Hc. cbn [map] in Hc.
    pose proof (purchase_lines_well_formed (ObjectId_new (db_next_id db)) _ Hpre) as Hwf.
    rewrite all_well_formed_app_bad in Hc by exact Hbad.
    rewrite run_moves_stop in Hc by (exact Hwf || exact Hbad).
    unfold purchase_partially_written.
    match type of Hc with _ = (_, run_moves ?m ?d) =>
      destruct (run_moves_other m d) as (_ & Hp & _);
      destruct (run_moves_all m d Hwf) as (added & Hlog & Hadded & Hstock);
      exists (run_moves m d)
    end.
    eexists _, added. split; [exact Hc|].
    split; [rewrite Hp; reflexivity|].
    split; [|split; [exact Hlog|exact Hadded]].
    intros pid. rewrite <- total_change_purchase with (pid := ObjectId_new (db_next_id db)).
    exact (Hstock pid).
  - intros pre bad post Hitems Hbad.
    assert (Hfail : sale_line_fails db bad InvalidIdentifier)
      by (apply fails_invalid; exact Hbad).
    assert (Hex : Exists (fun i => exists e, sale_line_fails db i e) (sale_items s)).
    { rewrite Hitems. apply Exists_app. right. left. eauto. }
    destruct (first_failure db _ Hex) as (pre' & i & post' & e & Hsplit & Hpre' & Hi).
    split; [|split; [|apply create_sale_overflow]].
    + destruct (priced_or_not sale_line_total (sale_items s)) as [Hpr|Hno].
      * now rewrite (create_sale_first_failure s db pre' post' i e Hpr Hsplit Hpre' Hi).
      * now rewrite (create_sale_overflow s db Hno).
    + intros Hpr. split.
      * exists e. now apply (create_sale_first_failure s db pre' post' i e).
      * intros Hpre. now apply (create_sale_first_failure s db pre post bad).
Qed.

(** *** Creating a product *)

(** C6. [create_product] tests the truth value of the store handle before
    it looks the sku up; the handle has none, so whatever the request and
    whatever the stored products, the handler fails there with an unhandled
    NotImplementedError, answered with status 500: it neither refuses a
    duplicate sku with DuplicateSKU nor inserts a product, and the store is
    as before. *)
Theorem create_product_fails_before_lookup (p : Product amount) (db : Db amount) :
  create_product p db = (Unhandled NotImplementedError, db)
  /\ response_status (fst (create_product p db)) = 500
  /\ db_product (snd (create_product p db)) = db_product db.
Proof. repeat split. Qed.

(** *** Search terms *)

(** *** Search patterns without metacharacters *)

Lemma compile_literal (l : list ascii) :
  forallb (fun c => negb (is_meta c)) l = true -> compile l = Some (map Lit l).
Proof.
  induction l as [|c l IH]; [reflexivity|].
  cbn [forallb]. intros Hl. apply andb_prop in Hl. destruct Hl as [Hc Hl].
  cbn [compile map]. rewrite (IH Hl). unfold compile_char.
  destruct (Ascii.eqb_spec c "."%char) as [->|_]; [discriminate|].
  apply negb_true_iff in Hc. now rewrite Hc.
Qed.

Lemma match_here_literal (q s : list ascii) :
  match_here (map Lit q) s = true <-> exists post, map lower s = map lower q ++ post.
Proof.
  revert s. induction q as [|c q IH]; intros s; cbn [map match_here].
  - split; [intros _; now exists (map lower s)|reflexivity].
  - destruct s as [|d s]; cbn [map].
    + split; [discriminate|]. intros [post Hp]. discriminate.
    + cbn [atom_matches]. rewrite andb_true_iff, IH. split.
      * intros [Hc [post Hp]]. exists post. cbn.
        apply Ascii.eqb_eq in Hc. now rewrite Hc, Hp.
      * intros [post Hp]. cbn in Hp. injection Hp as Hc Hp.
        split; [apply Ascii.eqb_eq; now symmetry|now exists post].
Qed.

Lemma search_literal (q s : list ascii) :
  search (map Lit q) s = true
  <-> exists pre post, map lower s = pre ++ map lower q ++ post.
Proof.
  induction s as [|d s IH]; cbn [search]; rewrite orb_true_iff, match_here_literal.
  - split.
    + intros [[post Hp]|Hf]; [now exists [], post|discriminate].
    + intros (pre & post & Hp). left. cbn in Hp.
      destruct pre; [now exists post|discriminate].
  - rewrite IH. split.
    + intros [[post Hp]|(pre & post & Hp)]; [now exists [], post|].
      exists (lower d :: pre), post. cbn. now rewrite Hp.
    + intros (pre & post & Hp). destruct pre as [|a pre].
      * left. now exists post.
      * right. cbn in Hp. injection Hp as _ Hp. now exists pre, post.
Qed.

Lemma regex_query_literal (q : string) (p : Product amount) :
  regex_query (map Lit (list_ascii_of_string q)) p = true <-> matches_substring q p.
Proof.
  unfold regex_query, matches_substring, regex_i, occurs_in.
  rewrite !orb_true_iff, !search_literal. split.
  - intros [[Hn|Hs]|Hc]; [now left|right; now left|right; right].
    destruct (product_category p) as [c|]; [|discriminate].
    exists c. split; [reflexivity|]. now apply search_literal.
  - intros [Hn|[Hs|(c & Hc & Ho)]]; [left; now left|left; now right|right].
    rewrite Hc. now apply search_literal.
Qed.

(** *** Status codes *)



Lemma compile_fragment (l : list ascii) :
  forallb (fun c => Ascii.eqb c "."%char || negb (is_meta c)) l = true ->
  exists r, compile l = Some r /\ Forall2 compiles_to l r.
Proof.
  induction l as [|c l IH]; [exists []; split; [reflexivity|constructor]|].
  cbn [forallb]. intros Hl. apply andb_prop in Hl. destruct Hl as [Hc Hl].
  destruct (IH Hl) as (r & Hr & Hf). cbn [compile]. rewrite Hr. unfold compile_char.
  destruct (Ascii.eqb c "."%char) eqn:Hdot.
  - apply Ascii.eqb_eq in Hdot. subst c.
    eexists. split; [reflexivity|]. constructor; [left; now split|exact Hf].
  - cbn [orb] in Hc. apply negb_true_iff in Hc. rewrite Hc.
    apply Ascii.eqb_neq in Hdot.
    eexists. split; [reflexivity|]. constructor; [right; now split|exact Hf].
Qed.

Lemma atom_matches_char (c d : ascii) (a : atom) :
  compiles_to c a -> atom_matches a d = true <-> char_matches c d.
Proof.
  unfold char_matches. intros [[-> ->]|[Hne ->]]; cbn [atom_matches].
  - rewrite negb_true_iff. split.
    + intros Hd. left. split; [reflexivity|]. intros ->. now rewrite Ascii.eqb_refl in Hd.
    + intros [[_ Hd]|[Hc _]]; [|congruence]. now apply Ascii.eqb_neq.
  - rewrite Ascii.eqb_eq. split; [intros Hl; right; now split|].
    intros [[Hc _]|[_ Hl]]; [congruence|exact Hl].
Qed.

Lemma match_here_pattern (q : list ascii) (r : list atom) :
  Forall2 compiles_to q r ->
  forall s, match_here r s = true
            <-> exists mid post, s = mid ++ post /\ Forall2 char_matches q mid.
Proof.
  induction 1 as [|c a q r Hc _ IH]; intros s; cbn [match_here].
  - split; [intros _; exists [], s; split; [reflexivity|constructor]|reflexivity].
  - destruct s as [|d s].
    + split; [discriminate|]. intros (mid & post & Hs & Hf).
      inversion Hf; subst. discriminate.
    + rewrite andb_true_iff, (atom_matches_char c d a Hc), IH. split.
      * intros [Hd (mid & post & -> & Hf)]. exists (d :: mid), post.
        split; [reflexivity|now constructor].
      * intros (mid & post & Hs & Hf). inversion Hf as [|? d' ? mid' Hd Hf']; subst.
        cbn in Hs. injection Hs as -> ->. split; [exact Hd|now exists mid', post].
Qed.

Lemma search_pattern (q : list ascii) (r : list atom) :
  Forall2 compiles_to q r ->
  forall s, search r s = true
            <-> exists pre mid post, s = pre ++ mid ++ post /\ Forall2 char_matches q mid.
Proof.
  intros Hq s. induction s as [|d s IH]; cbn [search];
    rewrite orb_true_iff, (match_here_pattern q r Hq).
  - split.
    + intros [(mid & post & Hs & Hf)|Hf]; [now exists [], mid, post|discriminate].
    + intros (pre & mid & post & Hs & Hf). left.
      destruct pre; [now exists mid, post|discriminate].
  - rewrite IH. split.
    + intros [(mid & post & Hs & Hf)|(pre & mid & post & Hs & Hf)];
        [now exists [], mid, post|].
      exists (d :: pre), mid, post. split; [cbn; now rewrite Hs|exact Hf].
    + intros (pre & mid & post & Hs & Hf). destruct pre as [|a pre].
      * left. now exists mid, post.
      * right. cbn in Hs. injection Hs as _ Hs. now exists pre, mid, post.
Qed.

Lemma regex_query_pattern (q : string) (r : list atom) (p : Product amount) :
  Forall2 compiles_to (list_ascii_of_string q) r ->
  regex_query r p = true <-> matches_pattern q p.
Proof.
  intros Hq. unfold regex_query, matches_pattern, regex_i, pattern_occurs.
  rewrite !orb_true_iff, !(search_pattern _ _ Hq). split.
  - intros [[Hn|Hs]|Hc]; [now left|right; now left|right; right].
    destruct (product_category p) as [c|]; [|discriminate].
    exists c. split; [reflexivity|]. now apply (search_pattern _ _ Hq).
  - intros [Hn|[Hs|(c & Hc & Ho)]]; [left; now left|left; now right|right].
    rewrite Hc. now apply (search_pattern _ _ Hq).
Qed.

(** What [list_products] answers for a term that compiles. *)
Lemma listing_of_query (matches : Product amount -> Prop) (q : string) (r : list atom) :
  compile (list_ascii_of_string q) = Some r ->
  (forall p, regex_query r p = true <-> matches p) ->
  forall limit db,
    listing_is matches q limit
               (Z.to_nat (match limit with Some n => n | None => 100 end)) db.
Proof.
  intros Hr Hf limit db. exists (regex_query r). unfold list_products.
  destruct q as [|c q].
  - eexists. split; [exact Hf|]. split; [reflexivity|].
    unfold bind, get_documents, ret. cbn [coll_get product]. do 3 f_equal.
    apply filter_ext. intros d. cbn in Hr. injection Hr as <-.
    unfold regex_query, regex_i.
    now destruct (list_ascii_of_string (product_name (snd d))).
  - rewrite Hr. cbn [option_map]. eexists. split; [exact Hf|]. split; reflexivity.
Qed.

(** C7 (amended). For every store and every search term [q] made of
    ordinary characters and dots, listing products returns exactly the
    products of which the name, the sku or the category matches [q] read as
    a case-insensitive pattern (a dot standing for any character but a line
    feed, any other character for itself), in store order, cut after [limit]
    of them, 100 when the request gives no limit, and leaves the store as it
    is. When [q] has no metacharacter at all, these are exactly the products
    in which [q] occurs, up to case, as a substring of the name, the sku or
    the category. *)
Theorem list_products_matches_pattern (q : string) (limit : Z) (db : Db amount) :
  in_fragment q ->
  listing_is (matches_pattern q) q (Some limit) (Z.to_nat limit) db
  /\ listing_is (matches_pattern q) q None 100%nat db
  /\ (literal q ->
      listing_is (matches_substring q) q (Some limit) (Z.to_nat limit) db
      /\ listing_is (matches_substring q) q None 100%nat db).
Proof.
  intros Hq. destruct (compile_fragment _ Hq) as (r & Hr & Hf).
  pose proof (listing_of_query (matches_pattern q) q r Hr
                (fun p => regex_query_pattern q r p Hf)) as Hp.
  split; [exact (Hp (Some limit) db)|]. split; [exact (Hp None db)|].
  intros Hlit.
  pose proof (listing_of_query (matches_substring q) q _ (compile_literal _ Hlit)
                (regex_query_literal q)) as Hs.
  split; [exact (Hs (Some limit) db)|exact (Hs None db)].
Qed.

(** *** Status codes *)







(** *** Failed and empty drafts *)

(** X1. Whenever [create_sale] fails, the store is exactly as before: when
    it raises, the error is the one of an item that fails the stock check;
    when an error escapes it, the error is the OverflowError of an item whose
    line total cannot be computed. *)
Theorem create_sale_failure_writes_nothing (s : Sale amount) (db db' : Db amount) :
  (forall e, create_sale s db = (Raise e, db') ->
     db' = db /\ Exists (fun i => sale_line_fails db i e) (sale_items s))
  /\ (forall err, create_sale s db = (Unhandled err, db') ->
        db' = db /\ err = OverflowError
        /\ Exists (fun i => sale_line_total i = None) (sale_items s)).
Proof.
  destruct (create_sale_cases s db)
    as [[Hn Hc]|[(lts & _ & _ & _ & Hc)
                |(lts & pre & i & post & e' & _ & Hsplit & _ & Hi & Hc)]];
    rewrite Hc; split; try discriminate.
  - intros err [= <- <-]. repeat split. now apply all_defined_none.
  - intros e [= <- <-]. split; [reflexivity|].
    rewrite Hsplit. apply Exists_app. right. now left.
Qed.

(** X2. A sale (a purchase) draft with no items is accepted: the handler
    inserts a document with subtotal 0.0 and total 0.0 plus tax, answers with
    these totals, and touches neither the products nor the movement log. *)
Theorem empty_drafts_are_recorded (s : Sale amount) (p : Purchase amount) (db : Db amount) :
  (sale_items s = [] ->
   exists db',
     create_sale s db
     = (Ok (mkReceipt (ObjectId_new (db_next_id db)) zero (tax_or_0 (sale_tax s))
                      (add zero (tax_or_0 (sale_tax s)))), db')
     /\ db_sale db'
        = db_sale db
          ++ [(ObjectId_new (db_next_id db),
               mkSale (sale_customer_id s) [] (Some zero) (sale_tax s)
                      (Some (add zero (tax_or_0 (sale_tax s)))) (sale_notes s))]
     /\ db_product db' = db_product db
     /\ db_stockmovement db' = db_stockmovement db)
  /\ (purchase_items p = [] ->
      exists db',
        create_purchase p db
        = (Ok (mkReceipt (ObjectId_new (db_next_id db)) zero (tax_or_0 (purchase_tax p))
                         (add zero (tax_or_0 (purchase_tax p)))), db')
        /\ db_purchase db'
           = db_purchase db
             ++ [(ObjectId_new (db_next_id db),
                  mkPurchase (purchase_supplier_id p) [] (Some zero) (purchase_tax p)
                             (Some (add zero (tax_or_0 (purchase_tax p))))
                             (purchase_notes p))]
        /\ db_product db' = db_product db
        /\ db_stockmovement db' = db_stockmovement db).
Proof.
  split; intros Hitems.
  - unfold create_sale. rewrite Hitems. cbn. eexists. repeat split.
  - unfold create_purchase. rewrite Hitems. cbn. eexists. repeat split.
Qed.

(** *** What the two workflows may write *)

(** X3. Whatever the draft and whatever the outcome, [create_sale] only
    appends to the sale collection and to the movement log, leaves the
    purchase collection alone, and neither adds nor removes a product nor
    changes any product field other than the quantity; [create_purchase]
    likewise, with the purchase collection in place of the sale collection. *)
Theorem ledger_write_footprint (s : Sale amount) (p : Purchase amount) (db : Db amount) :
  ((exists sales moves,
      db_sale (snd (create_sale s db)) = db_sale db ++ sales
      /\ db_stockmovement (snd (create_sale s db)) = db_stockmovement db ++ moves)
   /\ db_purchase (snd (create_sale s db)) = db_purchase db
   /\ map unstocked (db_product (snd (create_sale s db))) = map unstocked (db_product db))
  /\ ((exists purchases moves,
         db_purchase (snd (create_purchase p db)) = db_purchase db ++ purchases
         /\ db_stockmovement (snd (create_purchase p db)) = db_stockmovement db ++ moves)
      /\ db_sale (snd (create_purchase p db)) = db_sale db
      /\ map unstocked (db_product (snd (create_purchase p db))) = map unstocked (db_product db)).
Proof.
  split.
  - destruct (create_sale_cases s db)
      as [[_ Hc]|[(lts & _ & _ & _ & Hc)|(lts & pre & i & post & e & _ & _ & _ & _ & Hc)]];
      rewrite Hc; cbn [snd].
    + split; [|split; reflexivity]. exists [], []. now rewrite !app_nil_r.
    + match goal with |- context [run_moves ?m ?d] =>
        destruct (run_moves_effect m d) as (Hs & Hp & Hu & _ & added & Hlog & _) end.
      rewrite Hs, Hp, Hu, Hlog. cbn. split; [|split; reflexivity].
      eexists _, added. split; reflexivity.
    + split; [|split; reflexivity]. exists [], []. now rewrite !app_nil_r.
  - pose proof (create_purchase_outcome p db) as Hc.
    destruct (all_defined purchase_line_total (purchase_items p)) as [lts|];
      rewrite Hc; cbn [snd].
    + match goal with |- context [run_moves ?m ?d] =>
        destruct (run_moves_effect m d) as (Hs & Hp & Hu & _ & added & Hlog & _) end.
      rewrite Hs, Hp, Hu, Hlog. cbn. split; [|split; reflexivity].
      eexists _, added. split; reflexivity.
    + split; [|split; reflexivity]. exists [], []. now rewrite !app_nil_r.
Qed.

(** X4. Whatever the draft and whatever the outcome (a purchase that fails
    on a refused id included), every product that was stored is still stored
    with the same fields but the quantity, no product has appeared, and the
    quantity of each has changed by the sum of the [quantity_change] of the
    movements the call appended for it. *)
Theorem stock_changes_match_movements (s : Sale amount) (p : Purchase amount) (db : Db amount) :
  (exists added,
     db_stockmovement (snd (create_sale s db)) = db_stockmovement db ++ added
     /\ forall pid,
          quantity_moved (total_change pid (map snd added))
                         (find_by_id pid (db_product db))
                         (find_by_id pid (db_product (snd (create_sale s db)))))
  /\ (exists added,
        db_stockmovement (snd (create_purchase p db)) = db_stockmovement db ++ added
        /\ forall pid,
             quantity_moved (total_change pid (map snd added))
                            (find_by_id pid (db_product db))
                            (find_by_id pid (db_product (snd (create_purchase p db))))).
Proof.
  assert (Hnone : forall db0 : Db amount,
             exists added : list (ObjectId * StockMovement),
               db_stockmovement db0 = db_stockmovement db0 ++ added
               /\ forall pid,
                    quantity_moved (total_change pid (map snd added))
                                   (find_by_id pid (db_product db0))
                                   (find_by_id pid (db_product db0))).
  { intros db0. exists []. split; [now rewrite app_nil_r|]. intros pid.
    apply quantity_moved_same. }
  assert (Hrun : forall moves (d : Db amount),
             exists added,
               db_stockmovement (run_moves moves d) = db_stockmovement d ++ added
               /\ forall pid,
                    quantity_moved (total_change pid (map snd added))
                                   (find_by_id pid (db_product d))
                                   (find_by_id pid (db_product (run_moves moves d)))).
  { intros moves d.
    destruct (run_moves_effect moves d) as (_ & _ & _ & _ & added & Hlog & Hadded & Hq).
    exists added. split; [exact Hlog|]. intros pid. rewrite Hadded. exact (Hq pid). }
  split.
  - destruct (create_sale_cases s db)
      as [[_ Hc]|[(lts & _ & _ & _ & Hc)|(lts & pre & i & post & e & _ & _ & _ & _ & Hc)]];
      rewrite Hc; cbn [snd]; [apply Hnone| |apply Hnone].
    match goal with |- context [run_moves ?m ?d] => exact (Hrun m d) end.
  - pose proof (create_purchase_outcome p db) as Hc.
    destruct (all_defined purchase_line_total (purchase_items p)) as [lts|];
      rewrite Hc; cbn [snd]; [|apply Hnone].
    match goal with |- context [run_moves ?m ?d] => exact (Hrun m d) end.
Qed.

(** *** Helpers: accepted drafts *)

Lemma restocked_moved (d : Z) (p : Product amount) :
  product_quantity (restocked d p) = product_quantity p + d
  /\ same_details p (restocked d p).
Proof. unfold same_details. repeat split. Qed.

Lemma create_sale_accepts_log (s : Sale amount) (db : Db amount) :
  Forall (sale_line_ok db) (sale_items s) ->
  Forall sale_priced (sale_items s) ->
  exists r db' added,
    create_sale s db = (Ok r, db')
    /\ (forall pid,
          find_by_id pid (db_product db')
          = option_map (restocked (- quantity_sold pid (sale_items s)))
                       (find_by_id pid (db_product db)))
    /\ db_stockmovement db' = db_stockmovement db ++ added
    /\ map snd added = map (sale_movement (receipt_id r)) (sale_items s).
Proof.
  intros Hok Hpr. destruct (create_sale_accepts s db Hok Hpr) as (lts & _ & Hwf & Hc).
  rewrite Hc.
  match goal with |- context [run_moves ?m ?d] =>
    destruct (run_moves_log m d Hwf) as (added & Hlog & Hadded) end.
  eexists _, _, added. split; [reflexivity|].
  split; [|split; [exact Hlog|exact Hadded]].
  intros pid. rewrite (run_moves_stock pid _ _ Hwf), total_change_sale. reflexivity.
Qed.

Lemma create_purchase_accepts_log (p : Purchase amount) (db : Db amount) :
  Forall (fun i => well_formed (purchaseitem_product_id i)) (purchase_items p) ->
  Forall purchase_priced (purchase_items p) ->
  exists r db' added,
    create_purchase p db = (Ok r, db')
    /\ (forall pid,
          find_by_id pid (db_product db')
          = option_map (restocked (quantity_purchased pid (purchase_items p)))
                       (find_by_id pid (db_product db)))
    /\ db_stockmovement db' = db_stockmovement db ++ added
    /\ map snd added = map (purchase_movement (receipt_id r)) (purchase_items p).
Proof.
  intros Hwf0 Hpr.
  destruct (create_purchase_accepts p db Hwf0 Hpr) as (lts & _ & Hwf & Hc).
  rewrite Hc.
  match goal with |- context [run_moves ?m ?d] =>
    destruct (run_moves_log m d Hwf) as (added & Hlog & Hadded) end.
  eexists _, _, added. split; [reflexivity|].
  split; [|split; [exact Hlog|exact Hadded]].
  intros pid. rewrite (run_moves_stock pid _ _ Hwf), total_change_purchase. reflexivity.
Qed.

Lemma quantity_sold_one (pid : ObjectId) (i : SaleItem amount) :
  ObjectId_of_str (saleitem_product_id i) = Some pid ->
  quantity_sold pid [i] = saleitem_quantity i.
Proof.
  intros Hpid. unfold quantity_sold. cbn [filter]. rewrite (references_parsed _ _ Hpid).
  unfold sum_Z. cbn. lia.
Qed.

Lemma quantity_purchased_one (pid : ObjectId) (i : PurchaseItem amount) :
  ObjectId_of_str (purchaseitem_product_id i) = Some pid ->
  quantity_purchased pid [i] = purchaseitem_quantity i.
Proof.
  intros Hpid. unfold quantity_purchased. cbn [filter]. rewrite (references_parsed _ _ Hpid).
  unfold sum_Z. cbn. lia.
Qed.

(** *** The stock check *)

(** X5. A sale of one priced item for a stored product is accepted exactly
    when the quantity asked does not exceed the quantity on hand: it then
    leaves the product with that quantity less (0 when all of it is asked)
    and its other fields as they were; asking for more is refused with
    InsufficientStock naming the product, the store unchanged. *)
Theorem single_item_sale_threshold
        (s : Sale amount) (db : Db amount) (i : SaleItem amount)
        (pid : ObjectId) (prod : Product amount) :
  sale_items s = [i] ->
  ObjectId_of_str (saleitem_product_id i) = Some pid ->
  find_by_id pid (db_product db) = Some prod ->
  sale_priced i ->
  (saleitem_quantity i <= product_quantity prod ->
   exists r db' prod',
     create_sale s db = (Ok r, db')
     /\ find_by_id pid (db_product db') = Some prod'
     /\ product_quantity prod' = product_quantity prod - saleitem_quantity i
     /\ same_details prod prod')
  /\ (product_quantity prod < saleitem_quantity i ->
      create_sale s db = (Raise (InsufficientStock (product_name prod)), db)).
Proof.
  intros Hitems Hpid Hfind Hpr.
  assert (Hprs : Forall sale_priced (sale_items s)) by (rewrite Hitems; now constructor).
  split; intros Hq.
  - destruct (create_sale_accepts_log s db) as (r & db' & _ & Hc & Hstock & _).
    { rewrite Hitems. repeat constructor. now apply (stock_ok_intro db _ _ pid prod). }
    { exact Hprs. }
    exists r, db'. eexists. split; [exact Hc|].
    rewrite Hstock, Hfind, Hitems, (quantity_sold_one pid i Hpid). cbn [option_map].
    split; [reflexivity|]. destruct (restocked_moved (- saleitem_quantity i) prod) as [Hq' Hs].
    split; [rewrite Hq'; lia|exact Hs].
  - apply (create_sale_first_failure s db [] [] i); [exact Hprs|exact Hitems|constructor|].
    now apply (fails_stock db _ _ pid prod).
Qed.

(** X6. The stock check looks at each item on its own: a draft with two
    priced items for the same product, each within the quantity on hand, is
    accepted and takes both quantities, which leaves a negative quantity
    when together they exceed the stock. *)
Theorem two_items_same_product_oversell
        (s : Sale amount) (db : Db amount) (i1 i2 : SaleItem amount)
        (pid : ObjectId) (prod : Product amount) :
  sale_items s = [i1; i2] ->
  ObjectId_of_str (saleitem_product_id i1) = Some pid ->
  ObjectId_of_str (saleitem_product_id i2) = Some pid ->
  find_by_id pid (db_product db) = Some prod ->
  saleitem_quantity i1 <= product_quantity prod ->
  saleitem_quantity i2 <= product_quantity prod ->
  sale_priced i1 -> sale_priced i2 ->
  exists r db' prod',
    create_sale s db = (Ok r, db')
    /\ find_by_id pid (db_product db') = Some prod'
    /\ product_quantity prod'
       = product_quantity prod - saleitem_quantity i1 - saleitem_quantity i2
    /\ (product_quantity prod < saleitem_quantity i1 + saleitem_quantity i2 ->
        product_quantity prod' < 0).
Proof.
  intros Hitems Hp1 Hp2 Hfind Hq1 Hq2 Hpr1 Hpr2.
  destruct (create_sale_accepts_log s db) as (r & db' & _ & Hc & Hstock & _).
  { rewrite Hitems. repeat constructor; now apply (stock_ok_intro db _ _ pid prod). }
  { rewrite Hitems. now repeat constructor. }
  exists r, db'. eexists. split; [exact Hc|].
  rewrite Hstock, Hfind, Hitems. cbn [option_map]. split; [reflexivity|].
  unfold quantity_sold. cbn [filter].
  rewrite (references_parsed _ _ Hp1), (references_parsed _ _ Hp2).
  unfold restocked, sum_Z. cbn. split; lia.
Qed.

Lemma filter_unreferenced (pid : ObjectId) (items : list (SaleItem amount)) :
  (forall j, In j items -> references (saleitem_product_id j) pid = false) ->
  filter (fun j => references (saleitem_product_id j) pid) items = [].
Proof.
  induction items as [|j items IH]; intros Hno; [reflexivity|].
  cbn [filter]. rewrite (Hno j (or_introl eq_refl)).
  apply IH. intros k Hk. apply Hno. now right.
Qed.

(** Among items with pairwise distinct references, at most one asks for a
    given product. *)
Lemma quantity_sold_distinct (pid : ObjectId) (items : list (SaleItem amount)) :
  NoDup (sale_refs items) ->
  quantity_sold pid items = 0
  \/ exists i, In i items /\ references (saleitem_product_id i) pid = true
               /\ quantity_sold pid items = saleitem_quantity i.
Proof.
  induction items as [|i items IH]; intros Hnd; [now left|].
  cbn [sale_refs map] in Hnd. inversion Hnd as [|? ? Hnotin Hnd']; subst.
  unfold quantity_sold. cbn [filter].
  destruct (references (saleitem_product_id i) pid) eqn:Hi.
  - right. exists i. split; [now left|]. split; [exact Hi|].
    rewrite filter_unreferenced; [unfold sum_Z; cbn; lia|].
    intros j Hj. destruct (references (saleitem_product_id j) pid) eqn:Hr; [|reflexivity].
    exfalso. apply Hnotin. apply references_inv in Hi, Hr. rewrite Hi, <- Hr.
    unfold sale_refs. now apply (in_map (fun k => ObjectId_of_str (saleitem_product_id k))).
  - destruct (IH Hnd') as [Hz|(j & Hj & Hr & Hs)].
    + left. exact Hz.
    + right. exists j. split; [now right|]. split; [exact Hr|exact Hs].
Qed.

(** X7. When the items of a draft refer to pairwise distinct products, a
    sale never drives a quantity below zero: if every stored quantity is at
    least 0 before [create_sale], it is so after it, whatever the outcome. *)
Theorem distinct_products_never_oversold (s : Sale amount) (db : Db amount) :
  NoDup (sale_refs (sale_items s)) ->
  stock_nonneg db ->
  stock_nonneg (snd (create_sale s db)).
Proof.
  intros Hnd Hnn.
  destruct (create_sale_cases s db)
    as [[_ Hc]|[(lts & _ & Hok & Hwf & Hc)|(lts & pre & i & post & e & _ & _ & _ & _ & Hc)]];
    rewrite Hc; cbn [snd]; [exact Hnn| |exact Hnn].
  intros pid prod'.
  rewrite (run_moves_stock pid _ _ Hwf), total_change_sale.
  cbn [db_product with_sale_doc set_next_id set_sale].
  destruct (find_by_id pid (db_product db)) as [prod|] eqn:Hfind; [|discriminate].
  cbn [option_map]. intros [= <-]. unfold restocked. cbn.
  pose proof (Hnn pid prod Hfind) as H0.
  destruct (quantity_sold_distinct pid _ Hnd) as [Hz|(i & Hin & Hi & Hs)].
  - lia.
  - rewrite Hs. rewrite Forall_forall in Hok.
    destruct (Hok i Hin) as [pid' prod1 Hpid' Hfind' Hq].
    apply references_inv in Hi. assert (pid' = pid) by congruence. subst pid'.
    assert (prod1 = prod) by congruence. subst prod1. lia.
Qed.

(** X8. A later sale sees the stock an earlier one left: after a sale of
    one priced item has been accepted, a second sale of one priced item for
    the same product is accepted when its quantity fits in what is left,
    and then leaves the product with both quantities less; it is refused
    with InsufficientStock, nothing written, when it does not fit. *)
Theorem second_sale_sees_remaining_stock
        (s1 s2 : Sale amount) (db : Db amount) (i1 i2 : SaleItem amount)
        (pid : ObjectId) (prod : Product amount) :
  sale_items s1 = [i1] -> sale_items s2 = [i2] ->
  ObjectId_of_str (saleitem_product_id i1) = Some pid ->
  ObjectId_of_str (saleitem_product_id i2) = Some pid ->
  find_by_id pid (db_product db) = Some prod ->
  saleitem_quantity i1 <= product_quantity prod ->
  sale_priced i1 -> sale_priced i2 ->
  (saleitem_quantity i2 <= product_quantity prod - saleitem_quantity i1 ->
   exists r db2 prod2,
     create_sale s2 (snd (create_sale s1 db)) = (Ok r, db2)
     /\ find_by_id pid (db_product db2) = Some prod2
     /\ product_quantity prod2
        = product_quantity prod - saleitem_quantity i1 - saleitem_quantity i2
     /\ same_details prod prod2)
  /\ (product_quantity prod - saleitem_quantity i1 < saleitem_quantity i2 ->
      create_sale s2 (snd (create_sale s1 db))
      = (Raise (InsufficientStock (product_name prod)), snd (create_sale s1 db))).
Proof.
  intros Hs1 Hs2 Hp1 Hp2 Hfind Hq1 Hpr1 Hpr2.
  assert (Hprs2 : Forall sale_priced (sale_items s2)) by (rewrite Hs2; now constructor).
  destruct (create_sale_accepts_log s1 db) as (r1 & db1 & _ & Hc1 & Hstock1 & _).
  { rewrite Hs1. repeat constructor. now apply (stock_ok_intro db _ _ pid prod). }
  { rewrite Hs1. now constructor. }
  rewrite Hc1. cbn [snd].
  assert (Hfind1 : find_by_id pid (db_product db1)
                   = Some (restocked (- saleitem_quantity i1) prod)).
  { now rewrite Hstock1, Hfind, Hs1, (quantity_sold_one pid i1 Hp1). }
  split; intros Hq2.
  - destruct (create_sale_accepts_log s2 db1) as (r2 & db2 & _ & Hc2 & Hstock2 & _).
    { rewrite Hs2. repeat constructor.
      apply (stock_ok_intro db1 _ _ pid _ Hp2 Hfind1). cbn. lia. }
    { exact Hprs2. }
    exists r2, db2. eexists. split; [exact Hc2|].
    rewrite Hstock2, Hfind1, Hs2, (quantity_sold_one pid i2 Hp2). cbn [option_map].
    split; [reflexivity|]. split; [cbn; lia|]. unfold same_details. repeat split.
  - apply (create_sale_first_failure s2 db1 [] [] i2);
      [exact Hprs2|exact Hs2|constructor|].
    apply (fails_stock db1 _ _ pid _ Hp2 Hfind1). cbn. lia.
Qed.

(** X9. On drafts that satisfy the schema constraints (item quantities of
    at least 1), stock moves in one direction only: [create_sale] never
    raises the quantity of a product and [create_purchase] never lowers one,
    whatever the outcome; and neither makes a product disappear. *)
Theorem stock_moves_in_one_direction (s : Sale amount) (p : Purchase amount)
        (db : Db amount) (pid : ObjectId) (prod : Product amount) :
  find_by_id pid (db_product db) = Some prod ->
  (Sale_valid s = true ->
   exists prod', find_by_id pid (db_product (snd (create_sale s db))) = Some prod'
                 /\ product_quantity prod' <= product_quantity prod)
  /\ (Purchase_valid p = true ->
      exists prod', find_by_id pid (db_product (snd (create_purchase p db))) = Some prod'
                    /\ product_quantity prod <= product_quantity prod').
Proof.
  intros Hfind. split; intros Hv.
  - assert (Hq : Forall (fun m => movement_quantity_change m <= 0)
                        (map (sale_movement (ObjectId_new (db_next_id db))) (sale_items s))).
    { unfold Sale_valid in Hv.
      repeat (apply andb_prop in Hv; destruct Hv as [Hv ?]).
      rewrite forallb_forall in Hv. rewrite Forall_map, Forall_forall.
      intros i Hi. specialize (Hv i Hi). unfold SaleItem_valid in Hv.
      repeat (apply andb_prop in Hv; destruct Hv as [Hv ?]). cbn. lia. }
    destruct (create_sale_cases s db)
      as [[_ Hc]|[(lts & _ & _ & Hwf & Hc)|(lts & pre & i & post & e & _ & _ & _ & _ & Hc)]];
      rewrite Hc; cbn [snd].
    + exists prod. split; [exact Hfind|lia].
    + rewrite (run_moves_stock pid _ _ Hwf).
      cbn [db_product with_sale_doc set_next_id set_sale]. rewrite Hfind.
      eexists. split; [reflexivity|]. unfold restocked. cbn [product_quantity with_quantity].
      pose proof (total_change_nonpos pid _ Hq). lia.
    + exists prod. split; [exact Hfind|lia].
  - assert (Hq : Forall (fun m => 0 <= movement_quantity_change m)
                        (map (purchase_movement (ObjectId_new (db_next_id db))) (purchase_items p))).
    { unfold Purchase_valid in Hv.
      repeat (apply andb_prop in Hv; destruct Hv as [Hv ?]).
      rewrite forallb_forall in Hv. rewrite Forall_map, Forall_forall.
      intros i Hi. specialize (Hv i Hi). unfold PurchaseItem_valid in Hv.
      repeat (apply andb_prop in Hv; destruct Hv as [Hv ?]). cbn. lia. }
    pose proof (create_purchase_outcome p db) as Hc.
    destruct (all_defined purchase_line_total (purchase_items p)) as [lts|];
      rewrite Hc; cbn [snd]; [|exists prod; split; [exact Hfind|lia]].
    rewrite run_moves_processed.
    rewrite (run_moves_stock pid _ _ (processed_well_formed _)).
    cbn [db_product with_purchase_doc set_next_id set_purchase]. rewrite Hfind.
    eexists. split; [reflexivity|]. unfold restocked. cbn [product_quantity with_quantity].
    pose proof (total_change_nonneg pid _ (processed_Forall _ _ Hq)). lia.
Qed.

(** X10. A purchase whose priced items all refer, by ids that [oid]
    accepts, to products that do not exist is accepted, leaves the product
    collection exactly as it was, and still appends one movement per item:
    the log then holds movements for products that are not in the store. *)
Theorem purchase_of_unknown_products_is_logged (p : Purchase amount) (db : Db amount) :
  Forall (fun i => exists pid, ObjectId_of_str (purchaseitem_product_id i) = Some pid
                               /\ find_by_id pid (db_product db) = None)
         (purchase_items p) ->
  Forall purchase_priced (purchase_items p) ->
  exists r db' added,
    create_purchase p db = (Ok r, db')
    /\ db_product db' = db_product db
    /\ db_stockmovement db' = db_stockmovement db ++ added
    /\ map snd added = map (purchase_movement (receipt_id r)) (purchase_items p).
Proof.
  intros Hall Hpr.
  assert (Hwf0 : Forall (fun i => well_formed (purchaseitem_product_id i)) (purchase_items p)).
  { eapply Forall_impl; [|exact Hall].
    intros i (pid & Hpid & _). unfold well_formed. congruence. }
  destruct (create_purchase_accepts p db Hwf0 Hpr) as (lts & _ & Hwf & Hc).
  rewrite Hc.
  match goal with |- context [run_moves ?m ?d] =>
    destruct (run_moves_log m d Hwf) as (added & Hlog & Hadded) end.
  eexists _, _, added. split; [reflexivity|].
  split; [|split; [exact Hlog|exact Hadded]].
  rewrite run_moves_missing; [reflexivity|].
  rewrite Forall_map. eapply Forall_impl; [|exact Hall].
  intros i (pid & Hpid & Hfind). exists pid. now split.
Qed.

(** *** Helpers: replacing and removing product documents *)

(** *** Helpers: replacing and removing product documents *)

Lemma find_by_id_not_in {A : Type} (pid : ObjectId) (docs : list (ObjectId * A)) :
  ~ In pid (map fst docs) -> find_by_id pid docs = None.
Proof.
  induction docs as [|[i d] docs IH]; [reflexivity|]. cbn [map fst find_by_id In].
  intros Hn. destruct (String.eqb_spec i pid) as [->|_]; [exfalso; now apply Hn; left|].
  apply IH. intros Hin. apply Hn. now right.
Qed.

Lemma find_by_id_split {A : Type} (pid : ObjectId) (docs : list (ObjectId * A)) (d : A) :
  find_by_id pid docs = Some d ->
  exists l1 l2, docs = l1 ++ (pid, d) :: l2 /\ find_by_id pid l1 = None.
Proof.
  induction docs as [|[i x] docs IH]; [discriminate|]. cbn [find_by_id].
  destruct (String.eqb_spec i pid) as [->|Hi].
  - intros [= ->]. now exists [], docs.
  - intros Hf. destruct (IH Hf) as (l1 & l2 & -> & Hl1).
    exists ((i, x) :: l1), l2. split; [reflexivity|].
    cbn. destruct (String.eqb_spec i pid); [contradiction|exact Hl1].
Qed.

Lemma find_by_id_app {A : Type} (pid : ObjectId) (l1 l2 : list (ObjectId * A)) :
  find_by_id pid (l1 ++ l2)
  = match find_by_id pid l1 with Some d => Some d | None => find_by_id pid l2 end.
Proof.
  induction l1 as [|[i x] l1 IH]; [reflexivity|]. cbn.
  destruct (String.eqb i pid); [reflexivity|exact IH].
Qed.

Lemma set_fields_missing (pid : ObjectId) (u : Product amount)
      (docs : list (ObjectId * Product amount)) :
  find_by_id pid docs = None -> set_fields pid u docs = (docs, 0).
Proof.
  induction docs as [|[i p] docs IH]; [reflexivity|]. cbn [find_by_id set_fields].
  destruct (String.eqb i pid); [discriminate|]. intros Hf. now rewrite (IH Hf).
Qed.

Lemma set_fields_at (pid : ObjectId) (u old : Product amount)
      (l1 l2 : list (ObjectId * Product amount)) :
  find_by_id pid l1 = None ->
  set_fields pid u (l1 ++ (pid, old) :: l2) = (l1 ++ (pid, u) :: l2, 1).
Proof.
  induction l1 as [|[i p] l1 IH]; cbn [app find_by_id set_fields].
  - now rewrite String.eqb_refl.
  - destruct (String.eqb i pid); [discriminate|]. intros Hf. now rewrite (IH Hf).
Qed.

Lemma remove_doc_missing (pid : ObjectId) (docs : list (ObjectId * Product amount)) :
  find_by_id pid docs = None -> remove_doc pid docs = (docs, 0).
Proof.
  induction docs as [|[i p] docs IH]; [reflexivity|]. cbn [find_by_id remove_doc].
  destruct (String.eqb i pid); [discriminate|]. intros Hf. now rewrite (IH Hf).
Qed.

Lemma remove_doc_at (pid : ObjectId) (old : Product amount)
      (l1 l2 : list (ObjectId * Product amount)) :
  find_by_id pid l1 = None ->
  remove_doc pid (l1 ++ (pid, old) :: l2) = (l1 ++ l2, 1).
Proof.
  induction l1 as [|[i p] l1 IH]; cbn [app find_by_id remove_doc].
  - now rewrite String.eqb_refl.
  - destruct (String.eqb i pid); [discriminate|]. intros Hf. now rewrite (IH Hf).
Qed.

Lemma find_other_at {A : Type} (pid pid' : ObjectId) (x y : A) (l1 l2 : list (ObjectId * A)) :
  pid' <> pid ->
  find_by_id pid' (l1 ++ (pid, x) :: l2) = find_by_id pid' (l1 ++ l2)
  /\ find_by_id pid' (l1 ++ (pid, x) :: l2) = find_by_id pid' (l1 ++ (pid, y) :: l2).
Proof.
  intros Hne. rewrite !find_by_id_app. cbn [find_by_id].
  destruct (String.eqb_spec pid pid'); [congruence|]. split; reflexivity.
Qed.

(** The shape of an update and of a deletion that find their document. *)
Lemma update_product_found (product_id : string) (pid : ObjectId) (p old : Product amount)
      (db : Db amount) (l1 l2 : list (ObjectId * Product amount)) :
  ObjectId_of_str product_id = Some pid ->
  db_product db = l1 ++ (pid, old) :: l2 -> find_by_id pid l1 = None ->
  update_product product_id p db = (Ok true, set_product (l1 ++ (pid, p) :: l2) db).
Proof.
  intros Hpid Hdocs Hl1. unfold update_product, bind, oid, update_one_set.
  rewrite Hpid. cbn [ret]. rewrite Hdocs, (set_fields_at pid p old l1 l2 Hl1). reflexivity.
Qed.

Lemma delete_product_found (product_id : string) (pid : ObjectId) (old : Product amount)
      (db : Db amount) (l1 l2 : list (ObjectId * Product amount)) :
  ObjectId_of_str product_id = Some pid ->
  db_product db = l1 ++ (pid, old) :: l2 -> find_by_id pid l1 = None ->
  delete_product product_id db = (Ok true, set_product (l1 ++ l2) db).
Proof.
  intros Hpid Hdocs Hl1. unfold delete_product, bind, oid, delete_one.
  rewrite Hpid. cbn [ret]. rewrite Hdocs, (remove_doc_at pid old l1 l2 Hl1). reflexivity.
Qed.

(** X11. An update or a deletion of a product that raises (malformed id, or
    no document with that id) leaves the store exactly as it was. *)
Theorem failed_product_write_changes_nothing
        (product_id : string) (p : Product amount) (db db' : Db amount) (e : HTTPException) :
  (update_product product_id p db = (Raise e, db') -> db' = db)
  /\ (delete_product product_id db = (Raise e, db') -> db' = db).
Proof.
  split.
  - unfold update_product, bind, oid, update_one_set.
    destruct (ObjectId_of_str product_id) as [pid|]; cbn [ret raise]; [|now intros [= _ <-]].
    destruct (find_by_id pid (db_product db)) as [old|] eqn:Hf.
    + destruct (find_by_id_split _ _ _ Hf) as (l1 & l2 & Hdocs & Hl1).
      rewrite Hdocs, (set_fields_at pid p old l1 l2 Hl1). cbn. discriminate.
    + rewrite (set_fields_missing _ _ _ Hf). cbn. intros [= _ <-]. apply db_eta.
  - unfold delete_product, bind, oid, delete_one.
    destruct (ObjectId_of_str product_id) as [pid|]; cbn [ret raise]; [|now intros [= _ <-]].
    destruct (find_by_id pid (db_product db)) as [old|] eqn:Hf.
    + destruct (find_by_id_split _ _ _ Hf) as (l1 & l2 & Hdocs & Hl1).
      rewrite Hdocs, (remove_doc_at pid old l1 l2 Hl1). cbn. discriminate.
    + rewrite (remove_doc_missing _ _ Hf). cbn. intros [= _ <-]. apply db_eta.
Qed.

(** X12. An update of a stored product succeeds whatever the request holds:
    the document takes every field of the request, the quantity included,
    under the same id; no other product changes, no product is added or
    removed, and nothing is written to the movement log or to the sale and
    purchase collections. *)
Theorem update_product_replaces_document
        (product_id : string) (pid : ObjectId) (p old : Product amount) (db : Db amount) :
  ObjectId_of_str product_id = Some pid ->
  find_by_id pid (db_product db) = Some old ->
  exists db',
    update_product product_id p db = (Ok true, db')
    /\ find_by_id pid (db_product db') = Some p
    /\ (forall pid', pid' <> pid ->
                     find_by_id pid' (db_product db') = find_by_id pid' (db_product db))
    /\ map fst (db_product db') = map fst (db_product db)
    /\ db_stockmovement db' = db_stockmovement db
    /\ db_sale db' = db_sale db
    /\ db_purchase db' = db_purchase db.
Proof.
  intros Hpid Hf.
  destruct (find_by_id_split _ _ _ Hf) as (l1 & l2 & Hdocs & Hl1).
  eexists. split; [exact (update_product_found _ _ p old db l1 l2 Hpid Hdocs Hl1)|].
  cbn [db_product set_product db_stockmovement db_sale db_purchase].
  split; [|split; [|split; [|repeat split]]].
  - rewrite find_by_id_app, Hl1. cbn. now rewrite String.eqb_refl.
  - intros pid' Hne. rewrite Hdocs.
    symmetry. exact (proj2 (find_other_at pid pid' old p l1 l2 Hne)).
  - rewrite Hdocs, !map_app. reflexivity.
Qed.

Lemma NoDup_map_eq {A B : Type} (f : A -> B) (l1 l2 : list A) (a b : A) :
  NoDup (map f (l1 ++ a :: l2)) -> In b (l1 ++ l2) -> f b <> f a.
Proof.
  rewrite map_app. cbn [map]. intros Hnd Hin Heq.
  apply NoDup_remove_2 in Hnd. apply Hnd. rewrite <- map_app, <- Heq.
  now apply in_map.
Qed.

Lemma find_by_id_In {A : Type} (pid : ObjectId) (docs : list (ObjectId * A)) (d : A) :
  find_by_id pid docs = Some d -> In (pid, d) docs.
Proof.
  intros Hf. destruct (find_by_id_split _ _ _ Hf) as (l1 & l2 & -> & _).
  apply in_or_app. right. now left.
Qed.

(** X13. An update does not check the sku: giving a stored product the sku
    of another stored product succeeds, and the store then holds two
    products with the same sku. *)
Theorem update_product_can_duplicate_sku
        (product_id : string) (pid pid1 : ObjectId) (p old p1 : Product amount)
        (db : Db amount) :
  ObjectId_of_str product_id = Some pid ->
  find_by_id pid (db_product db) = Some old ->
  find_by_id pid1 (db_product db) = Some p1 ->
  pid1 <> pid ->
  product_sku p = product_sku p1 ->
  exists db',
    update_product product_id p db = (Ok true, db')
    /\ find_by_id pid (db_product db') = Some p
    /\ find_by_id pid1 (db_product db') = Some p1
    /\ ~ NoDup (skus db').
Proof.
  intros Hpid Hf Hf1 Hne Hsku.
  destruct (find_by_id_split _ _ _ Hf) as (l1 & l2 & Hdocs & Hl1).
  eexists. split; [exact (update_product_found _ _ p old db l1 l2 Hpid Hdocs Hl1)|].
  cbn [db_product set_product].
  assert (Hp1 : find_by_id pid1 (l1 ++ (pid, p) :: l2) = Some p1).
  { rewrite <- (proj2 (find_other_at pid pid1 old p l1 l2 Hne)), <- Hdocs. exact Hf1. }
  split; [|split; [exact Hp1|]].
  - rewrite find_by_id_app, Hl1. cbn. now rewrite String.eqb_refl.
  - intros Hnd.
    assert (Hin : In (pid1, p1) (l1 ++ l2)).
    { apply find_by_id_In in Hp1. apply in_app_or in Hp1.
      apply in_or_app. destruct Hp1 as [Hin|[Heq|Hin]]; [now left| |now right].
      injection Heq as Heq _. congruence. }
    apply (NoDup_map_eq (fun d => product_sku (snd d)) l1 l2 (pid, p) (pid1, p1) Hnd Hin).
    cbn. congruence.
Qed.


(** X16. A deletion of a stored product removes exactly one document, the
    one with that id: every other product is found as before and, ids being
    unique, the deleted one is found no more. Nothing else is touched: the
    sales, purchases and movements that refer to the product stay. *)
Theorem delete_product_removes_one_document
        (product_id : string) (pid : ObjectId) (old : Product amount) (db : Db amount) :
  ObjectId_of_str product_id = Some pid ->
  find_by_id pid (db_product db) = Some old ->
  exists db',
    delete_product product_id db = (Ok true, db')
    /\ S (List.length (db_product db')) = List.length (db_product db)
    /\ (forall pid', pid' <> pid ->
                     find_by_id pid' (db_product db') = find_by_id pid' (db_product db))
    /\ (NoDup (map fst (db_product db)) -> find_by_id pid (db_product db') = None)
    /\ db_stockmovement db' = db_stockmovement db
    /\ db_sale db' = db_sale db
    /\ db_purchase db' = db_purchase db.
Proof.
  intros Hpid Hf.
  destruct (find_by_id_split _ _ _ Hf) as (l1 & l2 & Hdocs & Hl1).
  eexists. split; [exact (delete_product_found _ _ old db l1 l2 Hpid Hdocs Hl1)|].
  cbn [db_product set_product db_stockmovement db_sale db_purchase].
  split; [|split; [|split; [|repeat split]]].
  - rewrite Hdocs, !length_app. cbn. lia.
  - intros pid' Hne. rewrite Hdocs.
    symmetry. exact (proj1 (find_other_at pid pid' old old l1 l2 Hne)).
  - rewrite Hdocs, map_app. cbn [map fst]. intros Hnd.
    apply NoDup_remove_2 in Hnd. apply find_by_id_not_in. now rewrite map_app.
Qed.

(** X17. Once a product is deleted (ids being unique), a sale of priced
    items whose first item refers to it is refused with ProductNotFound for
    that reference, and writes nothing. *)
Theorem sale_of_deleted_product_is_refused
        (product_id : string) (pid : ObjectId) (old : Product amount)
        (s : Sale amount) (i : SaleItem amount) (rest : list (SaleItem amount))
        (db : Db amount) :
  ObjectId_of_str product_id = Some pid ->
  find_by_id pid (db_product db) = Some old ->
  NoDup (map fst (db_product db)) ->
  sale_items s = i :: rest ->
  ObjectId_of_str (saleitem_product_id i) = Some pid ->
  Forall sale_priced (sale_items s) ->
  create_sale s (snd (delete_product product_id db))
  = (Raise (ProductNotFound (saleitem_product_id i)), snd (delete_product product_id db)).
Proof.
  intros Hpid Hf Hnd Hitems Hi Hpr.
  destruct (find_by_id_split _ _ _ Hf) as (l1 & l2 & Hdocs & Hl1).
  rewrite (delete_product_found _ _ old db l1 l2 Hpid Hdocs Hl1). cbn [snd].
  apply (create_sale_first_failure _ _ [] rest i); [exact Hpr|exact Hitems|constructor|].
  apply (fails_missing _ _ _ pid Hi). cbn [db_product set_product].
  rewrite Hdocs, map_app in Hnd. cbn [map fst] in Hnd.
  apply NoDup_remove_2 in Hnd. apply find_by_id_not_in. now rewrite map_app.
Qed.

(** *** Helpers: the search term *)

(** *** Helpers: the search term *)

Lemma match_here_lower (q q' s : list ascii) :
  map lower q = map lower q' ->
  match_here (map Lit q) s = match_here (map Lit q') s.
Proof.
  revert q' s. induction q as [|c q IH]; intros [|c' q'] s Heq; try discriminate;
    [reflexivity|].
  cbn in Heq. injection Heq as Hc Hq. cbn [map match_here].
  destruct s as [|d s]; [reflexivity|]. cbn [atom_matches].
  now rewrite Hc, (IH q' s Hq).
Qed.

Lemma search_lower (q q' s : list ascii) :
  map lower q = map lower q' ->
  search (map Lit q) s = search (map Lit q') s.
Proof.
  intros Heq. induction s as [|d s IH]; cbn [search];
    rewrite (match_here_lower q q' _ Heq); [reflexivity|now rewrite IH].
Qed.

Lemma lower_string_list (q q' : string) :
  lower_string q = lower_string q' ->
  map lower (list_ascii_of_string q) = map lower (list_ascii_of_string q').
Proof.
  unfold lower_string. intros Heq.
  apply (f_equal list_ascii_of_string) in Heq.
  now rewrite !list_ascii_of_string_of_list_ascii in Heq.
Qed.

(** X19. The listing does not depend on the case of the search term: two
    terms without metacharacters that differ only by the case of their
    letters list the same products on every store, whatever the limit. *)
Theorem list_products_ignores_case_of_term (q q' : string) (limit : option Z) :
  literal q -> literal q' -> lower_string q = lower_string q' ->
  exists run run' : M amount (list (string * Product amount)),
    list_products (Some q) limit = Some run
    /\ list_products (Some q') limit = Some run'
    /\ forall db, run db = run' db.
Proof.
  intros Hq Hq' Heq. apply lower_string_list in Heq.
  unfold list_products.
  destruct q as [|c q], q' as [|c' q']; try discriminate.
  - eexists _, _. repeat split.
  - rewrite (compile_literal _ Hq), (compile_literal _ Hq'). cbn [option_map].
    eexists _, _. split; [reflexivity|]. split; [reflexivity|].
    intros db. unfold bind, get_documents, ret. do 3 f_equal.
    apply filter_ext. intros d. unfold regex_query, regex_i.
    rewrite !(search_lower _ _ _ Heq).
    destruct (product_category (snd d)); [|reflexivity].
    now rewrite (search_lower _ _ _ Heq).
Qed.

(** *** Purchases and sales in sequence *)

(** X21. A purchase makes its units available to the next sale: after a
    purchase of one priced item for a stored product, a sale of one priced
    item for that product is accepted up to the old stock plus the purchased
    quantity, and then leaves the product with the difference; it is refused
    with InsufficientStock beyond it. *)
Theorem purchase_then_sale_uses_new_stock
        (p : Purchase amount) (s : Sale amount) (db : Db amount)
        (ip : PurchaseItem amount) (i : SaleItem amount)
        (pid : ObjectId) (prod : Product amount) :
  purchase_items p = [ip] -> sale_items s = [i] ->
  ObjectId_of_str (purchaseitem_product_id ip) = Some pid ->
  ObjectId_of_str (saleitem_product_id i) = Some pid ->
  find_by_id pid (db_product db) = Some prod ->
  purchase_priced ip -> sale_priced i ->
  (exists r1 db1 prod1,
     create_purchase p db = (Ok r1, db1)
     /\ find_by_id pid (db_product db1) = Some prod1
     /\ product_quantity prod1 = product_quantity prod + purchaseitem_quantity ip)
  /\ (saleitem_quantity i <= product_quantity prod + purchaseitem_quantity ip ->
      exists r db2 prod2,
        create_sale s (snd (create_purchase p db)) = (Ok r, db2)
        /\ find_by_id pid (db_product db2) = Some prod2
        /\ product_quantity prod2
           = product_quantity prod + purchaseitem_quantity ip - saleitem_quantity i
        /\ same_details prod prod2)
  /\ (product_quantity prod + purchaseitem_quantity ip < saleitem_quantity i ->
      create_sale s (snd (create_purchase p db))
      = (Raise (InsufficientStock (product_name prod)), snd (create_purchase p db))).
Proof.
  intros Hp Hs Hpp Hps Hfind Hprp Hprs.
  assert (Hprs' : Forall sale_priced (sale_items s)) by (rewrite Hs; now constructor).
  destruct (create_purchase_accepts_log p db) as (r1 & db1 & _ & Hc1 & Hstock1 & _).
  { rewrite Hp. repeat constructor. unfold well_formed. congruence. }
  { rewrite Hp. now constructor. }
  rewrite Hc1. cbn [snd].
  assert (Hfind1 : find_by_id pid (db_product db1)
                   = Some (restocked (purchaseitem_quantity ip) prod)).
  { now rewrite Hstock1, Hfind, Hp, (quantity_purchased_one pid ip Hpp). }
  split; [|split; intros Hq].
  - exists r1, db1. eexists. split; [reflexivity|]. split; [exact Hfind1|reflexivity].
  - destruct (create_sale_accepts_log s db1) as (r2 & db2 & _ & Hc2 & Hstock2 & _).
    { rewrite Hs. repeat constructor.
      apply (stock_ok_intro db1 _ _ pid _ Hps Hfind1). cbn. lia. }
    { exact Hprs'. }
    exists r2, db2. eexists. split; [exact Hc2|].
    rewrite Hstock2, Hfind1, Hs, (quantity_sold_one pid i Hps). cbn [option_map].
    split; [reflexivity|]. split; [cbn; lia|]. unfold same_details. repeat split.
  - apply (create_sale_first_failure s db1 [] [] i); [exact Hprs'|exact Hs|constructor|].
    apply (fails_stock db1 _ _ pid _ Hps Hfind1). cbn. lia.
Qed.

(** X22. Buying back what was sold restores the stock but not the log: after
    an accepted sale of one priced item and a purchase of the same quantity
    of the same product, the product document is exactly what it was, and
    the log has gained two movements, of minus and plus that quantity. *)
Theorem sale_then_purchase_restores_stock
        (s : Sale amount) (p : Purchase amount) (db : Db amount)
        (i : SaleItem amount) (ip : PurchaseItem amount)
        (pid : ObjectId) (prod : Product amount) :
  sale_items s = [i] -> purchase_items p = [ip] ->
  ObjectId_of_str (saleitem_product_id i) = Some pid ->
  ObjectId_of_str (purchaseitem_product_id ip) = Some pid ->
  find_by_id pid (db_product db) = Some prod ->
  saleitem_quantity i <= product_quantity prod ->
  purchaseitem_quantity ip = saleitem_quantity i ->
  sale_priced i -> purchase_priced ip ->
  exists r1 db1 r2 db2,
    create_sale s db = (Ok r1, db1)
    /\ create_purchase p db1 = (Ok r2, db2)
    /\ find_by_id pid (db_product db2) = Some prod
    /\ map (fun m => movement_quantity_change (snd m)) (db_stockmovement db2)
       = map (fun m => movement_quantity_change (snd m)) (db_stockmovement db)
         ++ [- saleitem_quantity i; saleitem_quantity i].
Proof.
  intros Hs Hp Hps Hpp Hfind Hq Hsame Hprs Hprp.
  destruct (create_sale_accepts_log s db) as (r1 & db1 & a1 & Hc1 & Hstock1 & Hlog1 & Ha1).
  { rewrite Hs. repeat constructor. now apply (stock_ok_intro db _ _ pid prod). }
  { rewrite Hs. now constructor. }
  destruct (create_purchase_accepts_log p db1) as (r2 & db2 & a2 & Hc2 & Hstock2 & Hlog2 & Ha2).
  { rewrite Hp. repeat constructor. unfold well_formed. congruence. }
  { rewrite Hp. now constructor. }
  exists r1, db1, r2, db2. split; [exact Hc1|]. split; [exact Hc2|]. split.
  - rewrite Hstock2, Hstock1, Hfind, Hs, Hp. cbn [option_map]. f_equal.
    rewrite (quantity_sold_one pid i Hps), (quantity_purchased_one pid ip Hpp), Hsame.
    rewrite restocked_restocked.
    replace (- saleitem_quantity i + saleitem_quantity i) with 0 by lia.
    apply restocked_0.
  - rewrite Hlog2, Hlog1, !map_app, <- app_assoc. f_equal.
    rewrite <- (map_map snd movement_quantity_change a1),
            <- (map_map snd movement_quantity_change a2), Ha1, Ha2, Hs, Hp.
    cbn. now rewrite Hsame.
Qed.

End Properties.

(** ** The properties on the sample stores *)

(** ** The properties on the sample store *)

Lemma occurs_in_head (c : ascii) (q s : string) :
  occurs_in (String c q) s -> In (lower c) (map lower (list_ascii_of_string s)).
Proof.
  intros (pre & post & E). rewrite E. apply in_or_app. right. now left.
Qed.

(** C1, as stated, fails. The second item of the first draft asks for 11
    units of a product that has 10, yet the sale is rejected with
    InvalidIdentifier (its first item has a malformed id), neither with
    ProductNotFound nor with InsufficientStock. The one item of the second
    draft asks for 2^1024 units of that product, and the sale fails with an
    unhandled OverflowError. Nothing is written either time. *)
Lemma sale_rejected_with_another_error :
  (Exists (fun i => exists pid prod,
               ObjectId_of_str (saleitem_product_id i) = Some pid
               /\ find_by_id pid (db_product shop) = Some prod
               /\ product_quantity prod < saleitem_quantity i)
          (sale_items sale_bad_id_then_11)
   /\ create_sale sale_bad_id_then_11 shop = (Raise InvalidIdentifier, shop)
   /\ ~ rejected_for_stock sale_bad_id_then_11 shop)
  /\ (Exists (fun i => exists pid prod,
                  ObjectId_of_str (saleitem_product_id i) = Some pid
                  /\ find_by_id pid (db_product shop) = Some prod
                  /\ product_quantity prod < saleitem_quantity i)
             (sale_items (one_item widget_id huge))
      /\ create_sale (one_item widget_id huge) shop = (Unhandled OverflowError, shop)
      /\ ~ rejected_for_stock (one_item widget_id huge) shop).
Proof.
  assert (Hc : create_sale sale_bad_id_then_11 shop = (Raise InvalidIdentifier, shop))
    by (vm_compute; reflexivity).
  assert (Hh : create_sale (one_item widget_id huge) shop = (Unhandled OverflowError, shop))
    by (vm_compute; reflexivity).
  split; (split; [|split]).
  - apply Exists_cons_tl, Exists_cons_hd.
    exists widget_id, widget. repeat split; vm_compute; reflexivity.
  - exact Hc.
  - unfold rejected_for_stock. rewrite Hc.
    intros [[pid Hp]|[name Hn]]; discriminate.
  - apply Exists_cons_hd.
    exists widget_id, widget. repeat split; vm_compute; reflexivity.
  - exact Hh.
  - unfold rejected_for_stock. rewrite Hh.
    intros [[pid Hp]|[name Hn]]; discriminate.
Qed.

Lemma create_sale_rejects_without_writes_witness :
  Exists (fun i => exists e, sale_line_fails shop i e) (sale_items sale_of_11)
  /\ Forall sale_priced (sale_items sale_of_11)
  /\ snd (create_sale sale_of_11 shop) = shop
  /\ exists pre i post e,
       sale_items sale_of_11 = pre ++ i :: post
       /\ Forall (sale_line_ok shop) pre
       /\ sale_line_fails shop i e
       /\ create_sale sale_of_11 shop = (Raise e, shop).
Proof.
  assert (Hex : Exists (fun i => exists e, sale_line_fails shop i e) (sale_items sale_of_11)).
  { apply Exists_cons_hd. eexists.
    apply (fails_stock shop _ _ widget_id widget); vm_compute; reflexivity. }
  assert (Hpr : Forall sale_priced (sale_items sale_of_11)).
  { repeat constructor. unfold sale_priced. vm_compute. discriminate. }
  destruct (create_sale_rejects_without_writes sale_of_11 shop Hex) as (Hsnd & Hrej & _).
  split; [exact Hex|]. split; [exact Hpr|]. split; [exact Hsnd|exact (Hrej Hpr)].
Defined.

(** The rejected sale of 11 units, and the same sale with a reference that
    has blanks: [oid] accepts it, and no product is found under it. *)
Example sale_of_11_rejected :
  create_sale sale_of_11 shop = (Raise (InsufficientStock "Widget"), shop)
  /\ create_sale (one_item blank_id 1) shop = (Raise (ProductNotFound blank_id), shop).
Proof. split; vm_compute; reflexivity. Qed.

Lemma create_sale_decrements_stock_witness :
  Forall (sale_line_ok shop) (sale_items sale_of_3)
  /\ Forall sale_priced (sale_items sale_of_3)
  /\ exists r db' prod' added,
       create_sale sale_of_3 shop = (Ok r, db')
       /\ find_by_id widget_id (db_product db') = Some prod'
       /\ product_quantity prod' = 7
       /\ db_stockmovement db' = db_stockmovement shop ++ added
       /\ Forall2 (fun i m =>
                     movement_product_id (snd m) = saleitem_product_id i
                     /\ movement_type (snd m) = "sale"%string
                     /\ movement_quantity_change (snd m) = - saleitem_quantity i
                     /\ movement_reason (snd m) = Some "Sale"%string
                     /\ movement_ref_id (snd m) = Some (receipt_id r))
                  (sale_items sale_of_3) added.
Proof.
  assert (Hok : Forall (sale_line_ok shop) (sale_items sale_of_3)).
  { repeat constructor.
    apply (stock_ok_intro shop _ _ widget_id widget); vm_compute;
      first [reflexivity | discriminate]. }
  assert (Hpr : Forall sale_priced (sale_items sale_of_3)).
  { repeat constructor. unfold sale_priced. vm_compute. discriminate. }
  split; [exact Hok|]. split; [exact Hpr|].
  destruct (create_sale_decrements_stock sale_of_3 shop Hok Hpr)
    as (r & db' & doc & added & Hc & _ & _ & _ & _ & Hone & Hlog & Hadded).
  destruct (Hone [] (mkSaleItem widget_id None None 3 5%float None) [] widget_id widget)
    as (prod' & Hf & Hq & _).
  - reflexivity.
  - vm_compute. reflexivity.
  - intros j [].
  - vm_compute. reflexivity.
  - exists r, db', prod', added. repeat split; assumption.
Defined.

(** The example of section 8: subtotal 15, tax 0, total 15, 7 units left,
    one movement of -3. *)
Example sale_of_3_recorded :
  exists db',
    create_sale sale_of_3 shop
    = (Ok (mkReceipt (ObjectId_new 1) 15%float 0%float 15%float), db')
    /\ option_map product_quantity (find_by_id widget_id (db_product db')) = Some 7
    /\ map snd (db_stockmovement db')
       = [mkStockMovement widget_id "sale" (-3) (Some "Sale"%string) (Some (ObjectId_new 1))].
Proof. eexists. repeat split; vm_compute; reflexivity. Qed.

Lemma totals_law_witness :
  exists r db' lts rp dbp ltp,
    create_sale sale_of_3 shop = (Ok r, db')
    /\ Forall2 (fun i v => sale_line_total i = Some v) (sale_items sale_of_3) lts
    /\ receipt_subtotal r = sum_amounts lts
    /\ receipt_total r = add (receipt_subtotal r) (receipt_tax r)
    /\ create_purchase purchase_of_4 shop = (Ok rp, dbp)
    /\ Forall2 (fun i v => purchase_line_total i = Some v) (purchase_items purchase_of_4) ltp
    /\ receipt_subtotal rp = sum_amounts ltp
    /\ receipt_total rp = add (receipt_subtotal rp) (receipt_tax rp).
Proof.
  destruct (create_sale sale_of_3 shop) as [[r|e|err] db'] eqn:Hr;
    [|vm_compute in Hr; discriminate|vm_compute in Hr; discriminate].
  destruct (create_purchase purchase_of_4 shop) as [[rp|e|err] dbp] eqn:Hp;
    [|vm_compute in Hp; discriminate|vm_compute in Hp; discriminate].
  destruct (totals_law sale_of_3 purchase_of_4 shop) as [Hs Hpu].
  destruct (Hs r db' Hr) as (lts & A0 & A & B & _).
  destruct (Hpu rp dbp Hp) as (ltp & C0 & C & D & _).
  exists r, db', lts, rp, dbp, ltp. repeat split; assumption.
Defined.


(** A line total that differs from quantity times price passes through, and
    a missing one is computed and stored. *)
Example divergent_line_total_kept :
  let item := mkSaleItem widget_id None None 3 5%float (Some 99%float) in
  let s := mkSale None [item] None None None None in
  (exists db' doc,
     create_sale s shop
     = (Ok (mkReceipt (ObjectId_new 1) 99%float 0%float 99%float), db')
     /\ db_sale db' = [(ObjectId_new 1, doc)]
     /\ sale_items doc = [item])
  /\ (exists db' doc,
        create_sale sale_of_3 shop
        = (Ok (mkReceipt (ObjectId_new 1) 15%float 0%float 15%float), db')
        /\ db_sale db' = [(ObjectId_new 1, doc)]
        /\ map saleitem_line_total (sale_items doc) = [Some 15%float]).
Proof. split; eexists _, _; repeat split; vm_compute; reflexivity. Qed.

(** C5, as stated, fails: on this draft, whose second item has a malformed
    product id, the purchase is not recorded: [create_purchase] fails and
    the second item gets no movement. *)
Lemma purchase_with_bad_id_not_recorded :
  ~ purchase_recorded purchase_4_then_bad_id shop
  /\ fst (create_purchase purchase_4_then_bad_id shop) = Raise InvalidIdentifier
  /\ List.length (db_stockmovement (snd (create_purchase purchase_4_then_bad_id shop))) = 1%nat
  /\ List.length (purchase_items purchase_4_then_bad_id) = 2%nat.
Proof.
  split; [|repeat split; vm_compute; reflexivity].
  intros (r & db' & doc & added & Hc & _).
  vm_compute in Hc. discriminate.
Qed.

Lemma create_purchase_increments_stock_witness :
  Forall (fun i => well_formed (purchaseitem_product_id i)) (purchase_items purchase_of_4)
  /\ Forall purchase_priced (purchase_items purchase_of_4)
  /\ purchase_recorded purchase_of_4 shop
  /\ exists prod',
       find_by_id widget_id (db_product (snd (create_purchase purchase_of_4 shop))) = Some prod'
       /\ product_quantity prod' = 14.
Proof.
  assert (Hwf : Forall (fun i : PurchaseItem float => well_formed (purchaseitem_product_id i))
                       (purchase_items purchase_of_4)).
  { repeat constructor. unfold well_formed. vm_compute. discriminate. }
  assert (Hpr : Forall purchase_priced (purchase_items purchase_of_4)).
  { repeat constructor. unfold purchase_priced. vm_compute. discriminate. }
  destruct (create_purchase_increments_stock purchase_of_4 shop Hwf) as [Hrec _].
  destruct (Hrec Hpr) as (Hr & _ & Hone & _).
  split; [exact Hwf|]. split; [exact Hpr|]. split; [exact Hr|].
  destruct (Hone [] (mkPurchaseItem widget_id 4 2%float None) [] widget_id widget)
    as (prod' & Hf & Hq & _).
  - reflexivity.
  - vm_compute. reflexivity.
  - intros j [].
  - vm_compute. reflexivity.
  - exists prod'. split; [exact Hf|]. rewrite Hq. reflexivity.
Defined.

(** The purchase of 2^1024 units: nothing is written. *)
Example purchase_of_huge_quantity_fails :
  create_purchase (purchase_of widget_id huge) shop = (Unhandled OverflowError, shop).
Proof. vm_compute. reflexivity. Qed.

Lemma create_product_fails_before_lookup_witness :
  In (product_sku widget) (skus shop)
  /\ create_product widget shop = (Unhandled NotImplementedError, shop)
  /\ response_status (fst (create_product widget shop)) = 500
  /\ create_product gadget shop = (Unhandled NotImplementedError, shop).
Proof.
  split; [now left|].
  destruct (create_product_fails_before_lookup widget shop) as (A & B & _).
  destruct (create_product_fails_before_lookup gadget shop) as (C & _).
  split; [exact A|]. split; [exact B|exact C].
Defined.

(** C7, as stated, fails: the term "." occurs in neither the name nor the
    sku of the one stored product, which has no category, yet the listing
    returns it: the term is read as a pattern, and a dot matches any
    character. *)
Lemma dot_lists_products_without_dot :
  ~ listing_is (matches_substring ".") "." (Some 100) 100%nat shop
  /\ option_map (fun run => fst (run shop)) (list_products (Some "."%string) (Some 100))
     = Some (Ok [(widget_id, widget)])
  /\ option_map (fun run => fst (run shop)) (list_products (Some "."%string) None)
     = Some (Ok [(widget_id, widget)]).
Proof.
  split; [|split; vm_compute; reflexivity].
  intros (f & run & Hf & Hl & Hrun).
  cbn in Hl. injection Hl as <-.
  destruct (f widget) eqn:Hfw.
  - apply Hf in Hfw. destruct Hfw as [Ho|[Ho|(c & Hc & _)]];
      [| |discriminate];
      apply occurs_in_head in Ho; cbn in Ho;
      repeat (destruct Ho as [Ho|Ho]; [discriminate|]); exact Ho.
  - unfold shop in Hrun. cbn [db_product filter snd] in Hrun.
    rewrite Hfw in Hrun. vm_compute in Hrun. discriminate.
Qed.

Lemma list_products_matches_pattern_witness :
  in_fragment "w.D" /\ literal "WID"
  /\ listing_is (matches_pattern "w.D") "w.D" (Some 100) (Z.to_nat 100) shop
  /\ listing_is (matches_pattern "w.D") "w.D" None 100%nat shop
  /\ listing_is (matches_substring "WID") "WID" None 100%nat shop.
Proof.
  assert (Hq : in_fragment "w.D") by (vm_compute; reflexivity).
  assert (Hf : in_fragment "WID") by (vm_compute; reflexivity).
  assert (Hl : literal "WID") by (vm_compute; reflexivity).
  destruct (list_products_matches_pattern (amount := float) "w.D" 100 shop Hq) as (A & B & _).
  destruct (list_products_matches_pattern (amount := float) "WID" 100 shop Hf) as (_ & _ & C).
  split; [exact Hq|]. split; [exact Hl|]. split; [exact A|]. split; [exact B|].
  exact (proj2 (C Hl)).
Defined.

(** The listings of the sample store: a pattern with a dot, a term in
    another case, a term that matches the category only, and the cut. *)
Example listings_of_shop2 :
  option_map (fun run => fst (run shop2)) (list_products (Some "w.D"%string) None)
  = Some (Ok [(widget_id, widget)])
  /\ option_map (fun run => fst (run shop2)) (list_products (Some "tOOls"%string) None)
     = Some (Ok [(gadget_id, gadget)])
  /\ option_map (fun run => fst (run shop2)) (list_products (Some "get"%string) (Some 1))
     = Some (Ok [(widget_id, widget)])
  /\ option_map (fun run => fst (run shop2)) (list_products None (Some 1))
     = Some (Ok [(widget_id, widget)])
  /\ option_map (fun run => fst (run shop2)) (list_products (Some ""%string) None)
     = Some (Ok [(widget_id, widget); (gadget_id, gadget)]).
Proof. repeat split; vm_compute; reflexivity. Qed.



Lemma supplied_totals_overwritten_witness :
  exists r db' doc lts,
    create_sale (sale_with_totals sale_of_3 (Some 999%float) (Some 999%float)) shop
    = (Ok r, db')
    /\ Forall2 (fun i v => sale_line_total i = Some v) (sale_items sale_of_3) lts
    /\ db_sale db' = db_sale shop ++ [(receipt_id r, doc)]
    /\ sale_subtotal doc = Some (sum_amounts lts)
    /\ receipt_subtotal r = sum_amounts lts.
Proof.
  destruct (create_sale (sale_with_totals sale_of_3 (Some 999%float) (Some 999%float)) shop)
    as [[r|e|err] db'] eqn:Hr;
    [|vm_compute in Hr; discriminate|vm_compute in Hr; discriminate].
  destruct (supplied_totals_overwritten sale_of_3 purchase_of_4
              (Some 999%float) (Some 999%float) shop) as (_ & _ & Hs & _).
  destruct (Hs r db' Hr) as (doc & lts & A0 & A & B & _ & C & _).
  exists r, db', doc, lts. repeat split; assumption.
Defined.

(** The supplied totals leave no trace: the stored subtotal is 15. *)
Example supplied_totals_leave_no_trace :
  exists db' doc,
    create_sale (sale_with_totals sale_of_3 (Some 999%float) (Some 999%float)) shop
    = (Ok (mkReceipt (ObjectId_new 1) 15%float 0%float 15%float), db')
    /\ db_sale db' = [(ObjectId_new 1, doc)]
    /\ sale_subtotal doc = Some 15%float
    /\ sale_total doc = Some 15%float.
Proof. eexists _, _. repeat split; vm_compute; reflexivity. Qed.

(** C10, as stated, fails: the one item of this purchase draft has a
    malformed product id, and the purchase fails with an unhandled
    OverflowError, not with an invalid-id error, before anything is written:
    no purchase document is inserted. *)
Lemma purchase_with_bad_id_fails_before_any_write :
  ObjectId_of_str (purchaseitem_product_id (mkPurchaseItem "not-an-id" huge 2%float None))
  = None
  /\ create_purchase (purchase_of "not-an-id" huge) shop = (Unhandled OverflowError, shop)
  /\ db_purchase (snd (create_purchase (purchase_of "not-an-id" huge) shop)) = []
  /\ ~ purchase_partially_written (purchase_of "not-an-id" huge) [] shop.
Proof.
  assert (Hc : create_purchase (purchase_of "not-an-id" huge) shop
               = (Unhandled OverflowError, shop)) by (vm_compute; reflexivity).
  split; [vm_compute; reflexivity|]. split; [exact Hc|].
  split; [now rewrite Hc|].
  intros (db' & doc & added & Hp & _). rewrite Hc in Hp. discriminate.
Qed.

Lemma invalid_id_purchase_partial_sale_clean_witness :
  (exists db' doc added prod',
     create_purchase purchase_4_then_bad_id shop = (Raise InvalidIdentifier, db')
     /\ db_purchase db' = db_purchase shop ++ [(ObjectId_new (db_next_id shop), doc)]
     /\ find_by_id widget_id (db_product db') = Some prod'
     /\ product_quantity prod' = 14
     /\ db_stockmovement db' = db_stockmovement shop ++ added
     /\ map snd added
        = map (purchase_movement (ObjectId_new (db_next_id shop)))
              [mkPurchaseItem widget_id 4 2%float None])
  /\ create_sale sale_bad_id_then_11 shop = (Raise InvalidIdentifier, shop).
Proof.
  destruct (invalid_id_purchase_partial_sale_clean purchase_4_then_bad_id
              sale_bad_id_then_11 shop) as [Hp Hs].
  split.
  - destruct (Hp [mkPurchaseItem widget_id 4 2%float None]
                 (mkPurchaseItem "not-an-id" 1 2%float None) []) as [Hpart _].
    + reflexivity.
    + repeat constructor. unfold well_formed. vm_compute. discriminate.
    + vm_compute. reflexivity.
    + destruct Hpart as (db' & doc & added & Hc & Hdoc & Hq & Hlog & Hadded).
      { repeat constructor; unfold purchase_priced; vm_compute; discriminate. }
      specialize (Hq widget_id).
      assert (Hfind : find_by_id widget_id (db_product shop) = Some widget)
        by (vm_compute; reflexivity).
      rewrite Hfind in Hq.
      destruct (find_by_id widget_id (db_product db')) as [prod'|] eqn:Hf'; [|contradiction].
      destruct Hq as [Hq _].
      exists db', doc, added, prod'.
      split; [exact Hc|]. split; [exact Hdoc|]. split; [exact Hf'|].
      split; [rewrite Hq; vm_compute; reflexivity|]. split; [exact Hlog|exact Hadded].
  - destruct (Hs [] (mkSaleItem "not-an-id" None None 1 5%float None)
                 [mkSaleItem widget_id None None 11 5%float None]) as (_ & Hpriced & _).
    + reflexivity.
    + vm_compute. reflexivity.
    + apply Hpriced.
      * repeat constructor; unfold sale_priced; vm_compute; discriminate.
      * constructor.
Defined.

(** ** The further properties on the sample stores *)

Lemma create_sale_failure_writes_nothing_witness :
  snd (create_sale (one_item widget_id 11) shop) = shop
  /\ snd (create_sale (one_item widget_id huge) shop) = shop
  /\ snd (create_sale (one_item blank_id 1) shop) = shop.
Proof.
  split; [|split].
  - destruct (create_sale (one_item widget_id 11) shop) as [[r|e|err] db'] eqn:Hr;
      [vm_compute in Hr; discriminate| |vm_compute in Hr; discriminate].
    exact (proj1 (proj1 (create_sale_failure_writes_nothing _ _ _) e Hr)).
  - destruct (create_sale (one_item widget_id huge) shop) as [[r|e|err] db'] eqn:Hr;
      [vm_compute in Hr; discriminate|vm_compute in Hr; discriminate|].
    exact (proj1 (proj2 (create_sale_failure_writes_nothing _ _ _) err Hr)).
  - destruct (create_sale (one_item blank_id 1) shop) as [[r|e|err] db'] eqn:Hr;
      [vm_compute in Hr; discriminate| |vm_compute in Hr; discriminate].
    exact (proj1 (proj1 (create_sale_failure_writes_nothing _ _ _) e Hr)).
Defined.

Lemma empty_drafts_are_recorded_witness :
  (exists db', fst (create_sale empty_sale shop)
               = Ok (mkReceipt (ObjectId_new 1) 0%float 2%float 2%float)
               /\ snd (create_sale empty_sale shop) = db'
               /\ db_product db' = db_product shop
               /\ db_stockmovement db' = [])
  /\ exists db', create_purchase empty_purchase shop
                 = (Ok (mkReceipt (ObjectId_new 1) 0%float 0%float 0%float), db').
Proof.
  destruct (empty_drafts_are_recorded empty_sale empty_purchase shop) as [Hs Hp].
  destruct (Hs eq_refl) as (db1 & Hc1 & _ & Hprod & Hlog).
  destruct (Hp eq_refl) as (db2 & Hc2 & _).
  split.
  - exists db1. rewrite Hc1. repeat split; assumption.
  - exists db2. exact Hc2.
Defined.

(** A purchase that fails midway: the one movement appended accounts for
    the 4 units gained. *)
Example stock_changes_match_movements_midway :
  fst (create_purchase purchase_4_then_bad_id shop) = Raise InvalidIdentifier
  /\ option_map product_quantity
       (find_by_id widget_id (db_product (snd (create_purchase purchase_4_then_bad_id shop))))
     = Some 14
  /\ map (fun m => movement_quantity_change (snd m))
         (db_stockmovement (snd (create_purchase purchase_4_then_bad_id shop)))
     = [4].
Proof. repeat split; vm_compute; reflexivity. Qed.

Lemma single_item_sale_threshold_witness :
  (exists r db' prod',
     create_sale (one_item widget_id 10) shop = (Ok r, db')
     /\ find_by_id widget_id (db_product db') = Some prod'
     /\ product_quantity prod' = 0)
  /\ create_sale (one_item widget_id 11) shop = (Raise (InsufficientStock "Widget"), shop).
Proof.
  split.
  - destruct (proj1 (single_item_sale_threshold (one_item widget_id 10) shop
                       (mkSaleItem widget_id None None 10 5%float None) widget_id widget
                       eq_refl ltac:(vm_compute; reflexivity) ltac:(vm_compute; reflexivity)
                       ltac:(unfold sale_priced; vm_compute; discriminate)))
      as (r & db' & prod' & Hc & Hf & Hq & _).
    + vm_compute. discriminate.
    + exists r, db', prod'. split; [exact Hc|]. split; [exact Hf|].
      rewrite Hq. reflexivity.
  - apply (proj2 (single_item_sale_threshold (one_item widget_id 11) shop
                    (mkSaleItem widget_id None None 11 5%float None) widget_id widget
                    eq_refl ltac:(vm_compute; reflexivity) ltac:(vm_compute; reflexivity)
                    ltac:(unfold sale_priced; vm_compute; discriminate))).
    vm_compute. reflexivity.
Defined.

Lemma two_items_same_product_oversell_witness :
  exists r db' prod',
    create_sale (two_items widget_id 6 widget_id 6) shop = (Ok r, db')
    /\ find_by_id widget_id (db_product db') = Some prod'
    /\ product_quantity prod' = -2.
Proof.
  destruct (two_items_same_product_oversell (two_items widget_id 6 widget_id 6) shop
              (mkSaleItem widget_id None None 6 5%float None)
              (mkSaleItem widget_id None None 6 5%float None) widget_id widget
              eq_refl ltac:(vm_compute; reflexivity) ltac:(vm_compute; reflexivity)
              ltac:(vm_compute; reflexivity) ltac:(vm_compute; discriminate)
              ltac:(vm_compute; discriminate)
              ltac:(unfold sale_priced; vm_compute; discriminate)
              ltac:(unfold sale_priced; vm_compute; discriminate))
    as (r & db' & prod' & Hc & Hf & Hq & _).
  exists r, db', prod'. repeat split; assumption.
Defined.

Lemma distinct_products_never_oversold_witness :
  stock_nonneg (snd (create_sale (two_items widget_id 10 gadget_id 4) shop2)).
Proof.
  apply distinct_products_never_oversold.
  - vm_compute. repeat constructor; cbn; intuition discriminate.
  - intros pid prod. unfold shop2. cbn [db_product find_by_id].
    destruct (String.eqb widget_id pid); [intros [= <-]; vm_compute; discriminate|].
    destruct (String.eqb gadget_id pid); [intros [= <-]; vm_compute; discriminate|].
    discriminate.
Defined.

Lemma second_sale_sees_remaining_stock_witness :
  (exists r db2 prod2,
     create_sale (one_item widget_id 3) (snd (create_sale (one_item widget_id 7) shop))
     = (Ok r, db2)
     /\ find_by_id widget_id (db_product db2) = Some prod2
     /\ product_quantity prod2 = 0)
  /\ create_sale (one_item widget_id 4) (snd (create_sale (one_item widget_id 7) shop))
     = (Raise (InsufficientStock "Widget"), snd (create_sale (one_item widget_id 7) shop)).
Proof.
  split.
  - destruct (proj1 (second_sale_sees_remaining_stock
                       (one_item widget_id 7) (one_item widget_id 3) shop
                       (mkSaleItem widget_id None None 7 5%float None)
                       (mkSaleItem widget_id None None 3 5%float None) widget_id widget
                       eq_refl eq_refl ltac:(vm_compute; reflexivity)
                       ltac:(vm_compute; reflexivity) ltac:(vm_compute; reflexivity)
                       ltac:(vm_compute; discriminate)
                       ltac:(unfold sale_priced; vm_compute; discriminate)
                       ltac:(unfold sale_priced; vm_compute; discriminate)))
      as (r & db2 & prod2 & Hc & Hf & Hq & _).
    + vm_compute. discriminate.
    + exists r, db2, prod2. split; [exact Hc|]. split; [exact Hf|].
      rewrite Hq. reflexivity.
  - apply (proj2 (second_sale_sees_remaining_stock
                    (one_item widget_id 7) (one_item widget_id 4) shop
                    (mkSaleItem widget_id None None 7 5%float None)
                    (mkSaleItem widget_id None None 4 5%float None) widget_id widget
                    eq_refl eq_refl ltac:(vm_compute; reflexivity)
                    ltac:(vm_compute; reflexivity) ltac:(vm_compute; reflexivity)
                    ltac:(vm_compute; discriminate)
                    ltac:(unfold sale_priced; vm_compute; discriminate)
                    ltac:(unfold sale_priced; vm_compute; discriminate))).
    vm_compute. reflexivity.
Defined.

Lemma stock_moves_in_one_direction_witness :
  (exists prod', find_by_id widget_id (db_product (snd (create_sale sale_of_3 shop))) = Some prod'
                 /\ product_quantity prod' <= 10)
  /\ exists prod', find_by_id widget_id
                     (db_product (snd (create_purchase purchase_4_then_bad_id shop))) = Some prod'
                   /\ 10 <= product_quantity prod'.
Proof.
  destruct (stock_moves_in_one_direction sale_of_3 purchase_4_then_bad_id shop
              widget_id widget ltac:(vm_compute; reflexivity)) as [Hs Hp].
  split; [apply Hs|apply Hp]; vm_compute; reflexivity.
Defined.

Lemma purchase_of_unknown_products_is_logged_witness :
  exists r db' added,
    create_purchase purchase_for_ghost shop = (Ok r, db')
    /\ db_product db' = db_product shop
    /\ db_stockmovement db' = db_stockmovement shop ++ added
    /\ map snd added = map (purchase_movement (receipt_id r)) (purchase_items purchase_for_ghost).
Proof.
  apply purchase_of_unknown_products_is_logged.
  - repeat constructor. exists ghost_id. split; vm_compute; reflexivity.
  - repeat constructor. unfold purchase_priced. vm_compute. discriminate.
Defined.

Lemma failed_product_write_changes_nothing_witness :
  snd (update_product ghost_id renamed_gadget shop2) = shop2
  /\ snd (delete_product "not-an-id" shop2) = shop2.
Proof.
  split.
  - destruct (update_product ghost_id renamed_gadget shop2) as [[r|e|err] db'] eqn:Hr;
      [vm_compute in Hr; discriminate| |vm_compute in Hr; discriminate].
    exact (proj1 (failed_product_write_changes_nothing _ _ _ _ _) Hr).
  - destruct (delete_product "not-an-id" shop2) as [[r|e|err] db'] eqn:Hr;
      [vm_compute in Hr; discriminate| |vm_compute in Hr; discriminate].
    exact (proj2 (failed_product_write_changes_nothing "not-an-id" renamed_gadget _ _ _) Hr).
Defined.

Lemma update_product_replaces_document_witness :
  exists db',
    update_product gadget_id renamed_gadget shop2 = (Ok true, db')
    /\ find_by_id gadget_id (db_product db') = Some renamed_gadget
    /\ db_stockmovement db' = db_stockmovement shop2.
Proof.
  destruct (update_product_replaces_document gadget_id gadget_id renamed_gadget gadget shop2
              ltac:(vm_compute; reflexivity) ltac:(vm_compute; reflexivity))
    as (db' & Hc & Hf & _ & _ & Hlog & _).
  exists db'. repeat split; assumption.
Defined.

Lemma update_product_can_duplicate_sku_witness :
  exists db',
    update_product gadget_id renamed_gadget shop2 = (Ok true, db')
    /\ ~ NoDup (skus db').
Proof.
  destruct (update_product_can_duplicate_sku gadget_id gadget_id widget_id
              renamed_gadget gadget widget shop2
              ltac:(vm_compute; reflexivity) ltac:(vm_compute; reflexivity)
              ltac:(vm_compute; reflexivity) ltac:(vm_compute; discriminate) eq_refl)
    as (db' & Hc & _ & _ & Hdup).
  exists db'. split; assumption.
Defined.


Lemma delete_product_removes_one_document_witness :
  exists db',
    delete_product widget_id shop2 = (Ok true, db')
    /\ List.length (db_product db') = 1%nat
    /\ find_by_id widget_id (db_product db') = None
    /\ find_by_id gadget_id (db_product db') = Some gadget.
Proof.
  destruct (delete_product_removes_one_document widget_id widget_id widget shop2
              ltac:(vm_compute; reflexivity) ltac:(vm_compute; reflexivity))
    as (db' & Hc & Hlen & Hother & Hgone & _).
  exists db'. split; [exact Hc|]. split; [|split].
  - cbn in Hlen. now injection Hlen.
  - apply Hgone. vm_compute. repeat constructor; cbn; intuition discriminate.
  - rewrite Hother; [vm_compute; reflexivity|vm_compute; discriminate].
Defined.

Lemma sale_of_deleted_product_is_refused_witness :
  create_sale (one_item widget_id 1) (snd (delete_product widget_id shop2))
  = (Raise (ProductNotFound widget_id), snd (delete_product widget_id shop2)).
Proof.
  apply (sale_of_deleted_product_is_refused widget_id widget_id widget
           (one_item widget_id 1) (mkSaleItem widget_id None None 1 5%float None) [] shop2).
  - vm_compute. reflexivity.
  - vm_compute. reflexivity.
  - vm_compute. repeat constructor; cbn; intuition discriminate.
  - reflexivity.
  - vm_compute. reflexivity.
  - repeat constructor. unfold sale_priced. vm_compute. discriminate.
Defined.

Lemma list_products_ignores_case_of_term_witness :
  exists run run' : M float (list (string * Product float)),
    list_products (Some "gadGET"%string) (Some 100) = Some run
    /\ list_products (Some "GADget"%string) (Some 100) = Some run'
    /\ forall db, run db = run' db.
Proof.
  apply list_products_ignores_case_of_term; vm_compute; reflexivity.
Defined.

Lemma purchase_then_sale_uses_new_stock_witness :
  (exists r db2 prod2,
     create_sale (one_item widget_id 14) (snd (create_purchase purchase_of_4 shop)) = (Ok r, db2)
     /\ find_by_id widget_id (db_product db2) = Some prod2
     /\ product_quantity prod2 = 0)
  /\ create_sale (one_item widget_id 15) (snd (create_purchase purchase_of_4 shop))
     = (Raise (InsufficientStock "Widget"), snd (create_purchase purchase_of_4 shop)).
Proof.
  split.
  - destruct (proj1 (proj2 (purchase_then_sale_uses_new_stock
                       purchase_of_4 (one_item widget_id 14) shop
                       (mkPurchaseItem widget_id 4 2%float None)
                       (mkSaleItem widget_id None None 14 5%float None) widget_id widget
                       eq_refl eq_refl ltac:(vm_compute; reflexivity)
                       ltac:(vm_compute; reflexivity) ltac:(vm_compute; reflexivity)
                       ltac:(unfold purchase_priced; vm_compute; discriminate)
                       ltac:(unfold sale_priced; vm_compute; discriminate))))
      as (r & db2 & prod2 & Hc & Hf & Hq & _).
    + vm_compute. discriminate.
    + exists r, db2, prod2. split; [exact Hc|]. split; [exact Hf|].
      rewrite Hq. reflexivity.
  - apply (proj2 (proj2 (purchase_then_sale_uses_new_stock
                    purchase_of_4 (one_item widget_id 15) shop
                    (mkPurchaseItem widget_id 4 2%float None)
                    (mkSaleItem widget_id None None 15 5%float None) widget_id widget
                    eq_refl eq_refl ltac:(vm_compute; reflexivity)
                    ltac:(vm_compute; reflexivity) ltac:(vm_compute; reflexivity)
                    ltac:(unfold purchase_priced; vm_compute; discriminate)
                    ltac:(unfold sale_priced; vm_compute; discriminate)))).
    vm_compute. reflexivity.
Defined.

Lemma sale_then_purchase_restores_stock_witness :
  exists r1 db1 r2 db2,
    create_sale (one_item widget_id 4) shop = (Ok r1, db1)
    /\ create_purchase purchase_of_4 db1 = (Ok r2, db2)
    /\ find_by_id widget_id (db_product db2) = Some widget
    /\ map (fun m => movement_quantity_change (snd m)) (db_stockmovement db2) = [-4; 4].
Proof.
  exact (sale_then_purchase_restores_stock (one_item widget_id 4) purchase_of_4 shop
           (mkSaleItem widget_id None None 4 5%float None)
           (mkPurchaseItem widget_id 4 2%float None) widget_id widget
           eq_refl eq_refl ltac:(vm_compute; reflexivity) ltac:(vm_compute; reflexivity)
           ltac:(vm_compute; reflexivity) ltac:(vm_compute; discriminate) eq_refl
           ltac:(unfold sale_priced; vm_compute; discriminate)
           ltac:(unfold purchase_priced; vm_compute; discriminate)).
Defined.
